(** * The drawing and measurement core of the map annotation application

    A shallow embedding of [src/App.tsx] (the React component [App]) and of
    the value its feed hook [useSocket] publishes: the drawing session
    driven by [handleMapClick], the geometry helpers ([createSectorPolygon],
    [calculateDistance], [calculateAzimuth], [calculatePolygonArea]), the
    viewport fitter [focusOnLayer], the drag handlers, the network overlay
    [networkNodesLayer] and the construction of the render list
    [deckLayers].

    React state ([useState] cells and the [layerIdCounter] ref) is threaded
    explicitly: every handler is a function from the application state and
    the event to the next state.  A handler that can raise a [TypeError]
    (a property read on [undefined]) returns a [result].  A handler built
    with [useCallback] reads the variables of the render that created it;
    where it reads a state cell that its dependency list does not name,
    that cell is an argument of its own (the viewport [held] of
    [handleMapClick]), apart from the state.

    JavaScript numbers.  The data model is polymorphic in the type [num] of
    numbers, and two instances are used.
    - [float], the binary64 numbers of Rocq's kernel, which are exactly the
      numbers of JavaScript.  [focusOnLayer] only adds, subtracts, halves,
      compares and takes minima and maxima, all of which IEEE 754 fixes
      bit for bit, and what is asked about it concerns [Infinity] and
      [NaN]; it is therefore modelled on [float] and runs inside Rocq.
    - [R], the real numbers.  The geometry helpers and the click handler
      call [Math.sin], [Math.cos], [Math.atan2] and [Math.pow], which
      ECMAScript only specifies up to an implementation-defined
      approximation; they are modelled by the functions they approximate.
      Statements about these handlers are statements about the idealised
      arithmetic: rounding, signed zeros, [Infinity] and [NaN] are outside
      this instance. *)

From Stdlib Require Import List String Ascii Bool Arith ZArith Lia.
From Stdlib Require Import DecimalString.
From Stdlib Require Import PrimFloat.
From Stdlib Require Import Reals Lra.
From Equations Require Import Equations.
Import ListNotations.

Set Warnings "-inexact-float".
Set Implicit Arguments.

(* ===================================================================== *)
(** ** Exceptions *)
(* ===================================================================== *)

(** The only exception the modelled code can raise is the [TypeError] of a
    property access or a destructuring on [undefined]. *)
Inductive result (A : Type) : Type :=
| Ok (a : A)
| TypeError.
Arguments Ok {A} a.
Arguments TypeError {A}.

Definition bind {A B : Type} (m : result A) (k : A -> result B) : result B :=
  match m with
  | Ok a => k a
  | TypeError => TypeError
  end.

Notation "x <- m ;; k" := (bind m (fun x => k))
  (at level 61, m at next level, right associativity).

(** [xs.forEach(f)] for a callback that updates an accumulator and may
    throw: the first exception aborts the loop. *)
Fixpoint forEach {A S : Type} (f : S -> A -> result S) (xs : list A) (acc : S)
  : result S :=
  match xs with
  | [] => Ok acc
  | x :: rest => acc' <- f acc x ;; forEach f rest acc'
  end.

(** [xs.map(f)] for a callback that may throw. *)
Fixpoint mapM {A B : Type} (f : A -> result B) (xs : list A) : result (list B) :=
  match xs with
  | [] => Ok []
  | x :: rest => y <- f x ;; ys <- mapM f rest ;; Ok (y :: ys)
  end.

(** [xs.find(p)]: the first element that satisfies [p]. *)
Definition find_first {A : Type} (p : A -> bool) (xs : list A) : option A :=
  List.find p xs.

(* ===================================================================== *)
(** ** Data model ([interface Layer] and the state cells of [App]) *)
(* ===================================================================== *)

Inductive LayerType : Type :=
| point | polygon | line | sector | distance | area | azimuth.

Inductive DrawMode : Type :=
| ModeNone | ModePoint | ModePolygon | ModeLine | ModeSector
| ModeDistance | ModeArea | ModeAzimuth.

Inductive PointDisplayMode : Type := DisplayCircle | DisplayIcon.

Inductive IconType : Type := IconMarker | IconPin | IconWifi | IconCircle.

Section DataModel.

Variable num : Type.

(** A coordinate is the array [[longitude, latitude]]. *)
Definition Coord : Type := (num * num)%type.

(** A record of the live feed, as [networkNodesLayer] and the renderer read
    it: [userId], [longitude], [latitude], [snr], [connectedNodeIds]. *)
Record NodeRecord : Type := mkNode {
  userId : Z;
  longitude : num;
  latitude : num;
  snr : num;
  connectedNodeIds : list Z
}.

(** An element of [Layer.data].  The source types it as [any]; the handlers
    read the properties [position], [polygon], [path] and [node], each of
    which may be missing ([None] is [undefined]). *)
Record Item : Type := mkItem {
  position : option Coord;
  polygon_ : option (list Coord);
  path : option (list Coord);
  node : option NodeRecord
}.

(** [measurement] is built as [`${value.toFixed(digits)}${unit}`]; the
    record keeps the number that is formatted, the number of digits and the
    suffix. *)
Record Measurement : Type := mkMeasurement {
  value : num;
  digits : nat;
  unit_ : string
}.

Record Layer : Type := mkLayer {
  id : string;
  name : string;
  type : LayerType;
  data : list Item;
  color : string;
  icon : string;
  visible : bool;
  radius : option nat;
  measurement : option Measurement;
  isUploaded : option bool;
  pointDisplayMode : option PointDisplayMode;
  iconType : option IconType;
  folder : option string
}.

Record ViewState : Type := mkViewState {
  vs_longitude : num;
  vs_latitude : num;
  zoom : num;
  pitch : num;
  bearing : num
}.

(** The state cells of [App] that the modelled handlers read or write. *)
Record AppState : Type := mkAppState {
  layers : list Layer;
  drawMode : DrawMode;
  drawingPoints : list Coord;
  sectorCenter : option Coord;
  sectorRadius : num;
  sectorStartAngle : num;
  viewState : ViewState;
  layerIdCounter : nat;
  isDragging : bool;
  draggedLayerId : option string;
  dragStartPosition : option Coord;
  originalLayerData : option (list Item)
}.

(** [{ position: c }], [{ polygon: ring }], [{ path: p }]. *)
Definition positionItem (c : Coord) : Item := mkItem (Some c) None None None.
Definition polygonItem (ring : list Coord) : Item := mkItem None (Some ring) None None.
Definition pathItem (p : list Coord) : Item := mkItem None None (Some p) None.

(** Truthiness of [layer.isUploaded] ([undefined] is falsy). *)
Definition isUploaded_truthy (l : Layer) : bool :=
  match isUploaded l with
  | Some b => b
  | None => false
  end.

(** State updates, one per [useState] setter. *)
Definition setLayers (f : list Layer -> list Layer) (st : AppState) : AppState :=
  mkAppState (f (layers st)) (drawMode st) (drawingPoints st) (sectorCenter st)
    (sectorRadius st) (sectorStartAngle st) (viewState st) (layerIdCounter st)
    (isDragging st) (draggedLayerId st) (dragStartPosition st)
    (originalLayerData st).

Definition setDrawMode (m : DrawMode) (st : AppState) : AppState :=
  mkAppState (layers st) m (drawingPoints st) (sectorCenter st)
    (sectorRadius st) (sectorStartAngle st) (viewState st) (layerIdCounter st)
    (isDragging st) (draggedLayerId st) (dragStartPosition st)
    (originalLayerData st).

Definition setDrawingPoints (ps : list Coord) (st : AppState) : AppState :=
  mkAppState (layers st) (drawMode st) ps (sectorCenter st)
    (sectorRadius st) (sectorStartAngle st) (viewState st) (layerIdCounter st)
    (isDragging st) (draggedLayerId st) (dragStartPosition st)
    (originalLayerData st).

Definition setSectorCenter (c : option Coord) (st : AppState) : AppState :=
  mkAppState (layers st) (drawMode st) (drawingPoints st) c
    (sectorRadius st) (sectorStartAngle st) (viewState st) (layerIdCounter st)
    (isDragging st) (draggedLayerId st) (dragStartPosition st)
    (originalLayerData st).

Definition setSectorRadius (r : num) (st : AppState) : AppState :=
  mkAppState (layers st) (drawMode st) (drawingPoints st) (sectorCenter st)
    r (sectorStartAngle st) (viewState st) (layerIdCounter st)
    (isDragging st) (draggedLayerId st) (dragStartPosition st)
    (originalLayerData st).

Definition setSectorStartAngle (a : num) (st : AppState) : AppState :=
  mkAppState (layers st) (drawMode st) (drawingPoints st) (sectorCenter st)
    (sectorRadius st) a (viewState st) (layerIdCounter st)
    (isDragging st) (draggedLayerId st) (dragStartPosition st)
    (originalLayerData st).

Definition setViewState (v : ViewState) (st : AppState) : AppState :=
  mkAppState (layers st) (drawMode st) (drawingPoints st) (sectorCenter st)
    (sectorRadius st) (sectorStartAngle st) v (layerIdCounter st)
    (isDragging st) (draggedLayerId st) (dragStartPosition st)
    (originalLayerData st).

Definition setLayerIdCounter (n : nat) (st : AppState) : AppState :=
  mkAppState (layers st) (drawMode st) (drawingPoints st) (sectorCenter st)
    (sectorRadius st) (sectorStartAngle st) (viewState st) n
    (isDragging st) (draggedLayerId st) (dragStartPosition st)
    (originalLayerData st).

Definition setDrag (dragging : bool) (lid : option string)
    (start : option Coord) (snapshot : option (list Item)) (st : AppState)
  : AppState :=
  mkAppState (layers st) (drawMode st) (drawingPoints st) (sectorCenter st)
    (sectorRadius st) (sectorStartAngle st) (viewState st) (layerIdCounter st)
    dragging lid start snapshot.

End DataModel.

Arguments mkNode {num}.
Arguments mkItem {num}.
Arguments mkMeasurement {num}.
Arguments mkLayer {num}.
Arguments mkViewState {num}.
Arguments mkAppState {num}.

(** [layers.find((l) => l.id === layerId)]. *)
Definition findLayer {num : Type} (layerId : string) (ls : list (Layer num))
  : option (Layer num) :=
  find_first (fun l => String.eqb (id l) layerId) ls.

(** Decimal rendering of a counter inside a template string. *)
Definition showNat (n : nat) : string := NilZero.string_of_uint (Nat.to_uint n).

(* ===================================================================== *)
(** ** Viewport fitter: [focusOnLayer], on binary64 numbers *)
(* ===================================================================== *)

Module ViewportFitter.

Local Open Scope float_scope.

(** [Math.min] and [Math.max] of two numbers: [NaN] if an argument is
    [NaN]; [-0] is smaller than [+0]. *)
Definition Math_min (a b : float) : float :=
  if is_nan a || is_nan b then nan
  else if a <? b then a
  else if b <? a then b
  else match classify a with
       | FloatClass.NZero => a
       | _ => b
       end.

Definition Math_max (a b : float) : float :=
  if is_nan a || is_nan b then nan
  else if b <? a then a
  else if a <? b then b
  else match classify a with
       | FloatClass.PZero => a
       | _ => b
       end.

(** The four running bounds [minLng], [maxLng], [minLat], [maxLat]. *)
Record BBox : Type := mkBBox {
  minLng : float;
  maxLng : float;
  minLat : float;
  maxLat : float
}.

Definition emptyBBox : BBox := mkBBox infinity neg_infinity infinity neg_infinity.

(** The four assignments executed for one coordinate [[lng, lat]]. *)
Definition extend (b : BBox) (p : Coord float) : BBox :=
  let '(lng, lat) := p in
  mkBBox (Math_min (minLng b) lng) (Math_max (maxLng b) lng)
         (Math_min (minLat b) lat) (Math_max (maxLat b) lat).

(** The body of [layer.data.forEach((item) => ...)]: dispatch on the type of
    the layer; reading a missing property throws. *)
Definition visitItem (ty : LayerType) (b : BBox) (item : Item float) : result BBox :=
  match ty with
  | point =>
      match position item with
      | Some p => Ok (extend b p)
      | None => TypeError
      end
  | polygon | area | sector =>
      match polygon_ item with
      | Some ring => Ok (fold_left extend ring b)
      | None => TypeError
      end
  | line | distance | azimuth =>
      match path item with
      | Some pts => Ok (fold_left extend pts b)
      | None => TypeError
      end
  end.

Definition isPoint (ty : LayerType) : bool :=
  match ty with point => true | _ => false end.

(** The ladder of thresholds on [maxDiff], before the padding. *)
Definition baseZoom (l : Layer float) (maxDiff : float) : float :=
  let up := isUploaded_truthy l in
  if Nat.eqb (List.length (data l)) 1 && isPoint (type l) then (if up then 15 else 17)
  else if maxDiff <? 0.001 then (if up then 16 else 18)
  else if maxDiff <? 0.01 then (if up then 15 else 17)
  else if maxDiff <? 0.1 then (if up then 13 else 15)
  else if maxDiff <? 0.5 then (if up then 11 else 13)
  else if maxDiff <? 2 then (if up then 9 else 11)
  else if maxDiff <? 10 then (if up then 7 else 9)
  else (if up then 5 else 7).

(** The padding step and the clamp to [1, 20]. *)
Definition paddedZoom (l : Layer float) (z : float) : float :=
  if isPoint (type l) && Nat.ltb 1 (List.length (data l))
  then Math_max 1 (Math_min 20 (z - 2))
  else Math_max 1 (Math_min 20 (z - 1)).

(** [focusOnLayer(layerId)]. *)
Definition focusOnLayer (st : AppState float) (layerId : string)
  : result (AppState float) :=
  match findLayer layerId (layers st) with
  | None => Ok st
  | Some layer =>
      b <- forEach (visitItem (type layer)) (data layer) emptyBBox ;;
      let centerLng := (minLng b + maxLng b) / 2 in
      let centerLat := (minLat b + maxLat b) / 2 in
      let lngDiff := maxLng b - minLng b in
      let latDiff := maxLat b - minLat b in
      let maxDiff := Math_max lngDiff latDiff in
      let zoom := paddedZoom layer (baseZoom layer maxDiff) in
      Ok (setViewState (mkViewState centerLng centerLat zoom 0 0) st)
  end.

End ViewportFitter.

(* ===================================================================== *)
(** ** The [Math] object on real numbers *)
(* ===================================================================== *)

Module JSMath.

Local Open Scope R_scope.

Definition Math_PI : R := PI.
Definition Math_sin : R -> R := sin.
Definition Math_cos : R -> R := cos.
Definition Math_abs : R -> R := Rabs.
Definition Math_max : R -> R -> R := Rmax.

(** [Math.sqrt].  On a negative argument JavaScript answers [NaN]; the
    callers below only pass sums of squares and the haversine term. *)
Definition Math_sqrt : R -> R := sqrt.

(** [Math.pow(b, e)]: an integral exponent is iterated multiplication (or
    division), any other exponent of a positive base is [exp (e * ln b)].
    The remaining case (negative base, fractional exponent, [NaN] in
    JavaScript) has no real value and is not used by the callers. *)
Definition Math_pow (b e : R) : R :=
  if Req_dec_T (IZR (Int_part e)) e then powerRZ b (Int_part e)
  else Rpower b e.

(** [Math.atan2(y, x)]: the angle of the point [(x, y)], in [(-PI, PI]];
    [atan2(0, 0)] is [0]. *)
Definition Math_atan2 (y x : R) : R :=
  if Rlt_dec 0 x then atan (y / x)
  else if Rlt_dec x 0 then
    (if Rle_dec 0 y then atan (y / x) + PI else atan (y / x) - PI)
  else if Rlt_dec 0 y then PI / 2
  else if Rlt_dec y 0 then - PI / 2
  else 0.

End JSMath.

(* ===================================================================== *)
(** ** Geometry helpers *)
(* ===================================================================== *)

Module Geometry.

Import JSMath.
Local Open Scope R_scope.

(** How many times [2 * PI] still has to be added to [e] to pass
    [startAngle]: the variant of the loop of [createSectorPolygon]. *)
Definition turnsLeft (startAngle e : R) : nat :=
  Z.to_nat (up ((startAngle - e) / (2 * PI))).

(** The loop
    [while (normalizedEndAngle <= startAngle) normalizedEndAngle += 2 * Math.PI]
    started at [e].  Each round takes one turn off [turnsLeft]. *)
Equations? normalizeEndAngle (startAngle e : R) : R
  by wf (turnsLeft startAngle e) lt :=
  normalizeEndAngle startAngle e with Rle_dec e startAngle => {
    | left Hle := normalizeEndAngle startAngle (e + 2 * Math_PI);
    | right _ := e }.
Proof.
  unfold turnsLeft, Math_PI.
  pose proof PI_RGT_0 as Hpi.
  set (q := (startAngle - e) / (2 * PI)).
  assert (Hq : 0 <= q).
  { unfold q. apply Rmult_le_pos; [lra |].
    left. apply Rinv_0_lt_compat. lra. }
  assert (Hshift : (startAngle - (e + 2 * PI)) / (2 * PI) = q - 1).
  { unfold q. field. lra. }
  rewrite Hshift.
  assert (Hup : up (q - 1) = (up q - 1)%Z).
  { symmetry. apply tech_up; rewrite minus_IZR;
      destruct (archimed q) as [H1 H2]; lra. }
  rewrite Hup.
  assert (Hpos : (1 <= up q)%Z).
  { destruct (archimed q) as [H1 _].
    assert (H0 : 0 < IZR (up q)) by lra.
    apply lt_IZR in H0. lia. }
  lia.
Qed.

Definition numPoints : nat := 32.

(** The point pushed by iteration [i] of the arc loop. *)
Definition arcPoint (center : Coord R) (radius startAngle normalizedEndAngle : R)
    (i : nat) : Coord R :=
  let angle := startAngle + (normalizedEndAngle - startAngle) * (INR i / INR numPoints) in
  let x := fst center + radius * Math_cos angle in
  let y := snd center + radius * Math_sin angle in
  (x, y).

(** [for (let i = from; i <= numPoints; i++) points.push(...)], by the
    number [k] of iterations that remain. *)
Fixpoint arcLoop (center : Coord R) (radius startAngle normalizedEndAngle : R)
    (k i : nat) (points : list (Coord R)) : list (Coord R) :=
  match k with
  | O => points
  | S k' =>
      arcLoop center radius startAngle normalizedEndAngle k' (S i)
        (points ++ [arcPoint center radius startAngle normalizedEndAngle i])
  end.

(** [createSectorPolygon(center, radius, startAngle, endAngle)]. *)
Definition createSectorPolygon (center : Coord R) (radius startAngle endAngle : R)
  : list (Coord R) :=
  let points := [center] in
  let normalizedEndAngle := normalizeEndAngle startAngle endAngle in
  arcLoop center radius startAngle normalizedEndAngle (S numPoints) 0 points.

(** [calculateDistance(point1, point2)], in kilometres. *)
Definition calculateDistance (point1 point2 : Coord R) : R :=
  let R_ := 6371 in
  let dLat := ((snd point2 - snd point1) * Math_PI) / 180 in
  let dLon := ((fst point2 - fst point1) * Math_PI) / 180 in
  let a :=
    Math_sin (dLat / 2) * Math_sin (dLat / 2) +
    Math_cos ((snd point1 * Math_PI) / 180) *
      Math_cos ((snd point2 * Math_PI) / 180) *
      Math_sin (dLon / 2) *
      Math_sin (dLon / 2) in
  let c := 2 * Math_atan2 (Math_sqrt a) (Math_sqrt (1 - a)) in
  R_ * c.

(** The loop of [calculatePolygonArea] over consecutive points. *)
Fixpoint areaLoop (polygon : list (Coord R)) (area : R) : R :=
  match polygon with
  | p1 :: ((p2 :: _) as rest) =>
      areaLoop rest
        (area +
         (((fst p2 - fst p1) * (snd p2 + snd p1) * Math_PI) / 180) *
         6371 * 6371 *
         Math_cos ((((snd p1 + snd p2) / 2) * Math_PI) / 180))
  | _ => area
  end.

(** [calculatePolygonArea(polygon)], in square kilometres. *)
Definition calculatePolygonArea (polygon : list (Coord R)) : R :=
  Math_abs (areaLoop polygon 0) / 2.

(** [calculateAzimuth(point1, point2)], in degrees. *)
Definition calculateAzimuth (point1 point2 : Coord R) : R :=
  let dLon := ((fst point2 - fst point1) * Math_PI) / 180 in
  let lat1 := (snd point1 * Math_PI) / 180 in
  let lat2 := (snd point2 * Math_PI) / 180 in
  let y := Math_sin dLon * Math_cos lat2 in
  let x :=
    Math_cos lat1 * Math_sin lat2 -
    Math_sin lat1 * Math_cos lat2 * Math_cos dLon in
  let azimuth := (Math_atan2 y x * 180) / Math_PI in
  if Rlt_dec azimuth 0 then azimuth + 360 else azimuth.

(** The last two statements of [calculateAzimuth],
    [if (azimuth < 0) azimuth += 360; return azimuth], on binary64
    numbers: the only step of the function at which rounding can leave the
    range that the real numbers give. *)
Definition normalizeAzimuth64 (azimuth : float) : float :=
  if (azimuth <? 0)%float then (azimuth + 360)%float else azimuth.

End Geometry.

(* ===================================================================== *)
(** ** Pointer events *)
(* ===================================================================== *)

(** The picking record deck.gl hands to the handlers: [info.coordinate]
    (missing when the pointer is off the map), whether [info.object] is
    set, and [info.layer.id] when [info.layer] is set. *)
Record PickInfo : Type := mkPickInfo {
  coordinate : option (Coord R);
  object : bool;
  layer : option string
}.

(** A click on the bare map at [c]. *)
Definition clickAt (c : Coord R) : PickInfo := mkPickInfo (Some c) false None.

(* ===================================================================== *)
(** ** Drawing session: [handleMapClick] *)
(* ===================================================================== *)

Module DrawingSession.

Import JSMath Geometry.
Local Open Scope R_scope.
Local Open Scope string_scope.
Local Open Scope list_scope.

(** [generateLayerId()]: [`layer-${layerIdCounter.current++}-${Date.now()}`],
    with [now] the value read from the clock. *)
Definition generateLayerId (now : nat) (st : AppState R) : string * AppState R :=
  (("layer-" ++ showNat (layerIdCounter st) ++ "-" ++ showNat now)%string,
   setLayerIdCounter (S (layerIdCounter st)) st).

(** [`${prefix} ${layers.length + 1}`]. *)
Definition layerName (prefix : string) (st : AppState R) : string :=
  (prefix ++ " " ++ showNat (List.length (layers st) + 1))%string.

(** [setLayers((prev) => [...prev, newLayer])]. *)
Definition appendLayer (newLayer : Layer R) (st : AppState R) : AppState R :=
  setLayers (fun prev => prev ++ [newLayer]) st.

(** Distance in degrees between the click and the first point. *)
Definition distanceInDegrees (coordinate firstPoint : Coord R) : R :=
  Math_sqrt
    (Math_pow (fst coordinate - fst firstPoint) 2 +
     Math_pow (snd coordinate - snd firstPoint) 2).

(** [0.05 * Math.max(0.1, 1 / Math.pow(2, viewState.zoom - 5))], for the
    [viewState] that the handler in hand reads. *)
Definition tolerance (vs : ViewState R) : R :=
  let zoomFactor := Math_max 0.1 (1 / Math_pow 2 (zoom vs - 5)) in
  0.05 * zoomFactor.

(** [newPoints[0]] of a list known to start with the first drawn point. *)
Definition firstOf (ps : list (Coord R)) (fallback : Coord R) : Coord R :=
  hd fallback ps.

Definition pointBranch (now : nat) (coordinate : Coord R) (st : AppState R)
  : AppState R :=
  let '(newId, st1) := generateLayerId now st in
  let newLayer :=
    mkLayer newId (layerName "Point" st) point [positionItem coordinate]
      "#ff0000" "mdi:map-marker" true (Some 12%nat) None None
      (Some DisplayCircle) (Some IconMarker) (Some "drawn") in
  setDrawMode ModeNone (appendLayer newLayer st1).

Definition polygonBranch (now : nat) (held : ViewState R)
    (coordinate : Coord R) (st : AppState R) : AppState R :=
  let newPoints := drawingPoints st ++ [coordinate] in
  match drawingPoints st with
  | firstPoint :: _ :: _ =>
      if Rlt_dec (distanceInDegrees coordinate firstPoint) (tolerance held) then
        let closedPoints := newPoints ++ [firstOf newPoints coordinate] in
        let '(newId, st1) := generateLayerId now st in
        let newLayer :=
          mkLayer newId (layerName "Polygon" st) polygon [polygonItem closedPoints]
            "#00ff00" "mdi:vector-square" true None None None None None
            (Some "drawn") in
        setDrawMode ModeNone (setDrawingPoints [] (appendLayer newLayer st1))
      else setDrawingPoints newPoints st
  | _ => setDrawingPoints newPoints st
  end.

Definition lineBranch (now : nat) (coordinate : Coord R) (st : AppState R)
  : AppState R :=
  let newPoints := drawingPoints st ++ [coordinate] in
  if Nat.eqb (List.length newPoints) 2 then
    let '(newId, st1) := generateLayerId now st in
    let newLayer :=
      mkLayer newId (layerName "Line" st) line [pathItem newPoints]
        "#ff0000" "mdi:vector-line" true None None None None None
        (Some "drawn") in
    setDrawMode ModeNone (setDrawingPoints [] (appendLayer newLayer st1))
  else setDrawingPoints newPoints st.

Definition sectorBranch (now : nat) (coordinate : Coord R) (st : AppState R)
  : AppState R :=
  match sectorCenter st with
  | None => setSectorCenter (Some coordinate) st
  | Some center =>
      if Req_dec_T (sectorRadius st) 0 then
        let radius :=
          Math_sqrt
            (Math_pow (fst coordinate - fst center) 2 +
             Math_pow (snd coordinate - snd center) 2) in
        setSectorRadius radius st
      else if Req_dec_T (sectorStartAngle st) 0 then
        let startAngle :=
          Math_atan2 (snd coordinate - snd center) (fst coordinate - fst center) in
        setSectorStartAngle startAngle st
      else
        let endAngle :=
          Math_atan2 (snd coordinate - snd center) (fst coordinate - fst center) in
        let sectorPolygon :=
          createSectorPolygon center (sectorRadius st) (sectorStartAngle st) endAngle in
        let '(newId, st1) := generateLayerId now st in
        let newLayer :=
          mkLayer newId (layerName "Sector" st) sector [polygonItem sectorPolygon]
            "#ff8800" "mdi:pie-chart" true None
            (Some (mkMeasurement
                     (Math_abs (((endAngle - sectorStartAngle st) * 180) / Math_PI))
                     1 "°"))
            None None None None in
        setDrawMode ModeNone
          (setSectorStartAngle 0
             (setSectorRadius 0
                (setSectorCenter None (appendLayer newLayer st1))))
  end.

Definition distanceBranch (now : nat) (coordinate : Coord R) (st : AppState R)
  : AppState R :=
  let newPoints := drawingPoints st ++ [coordinate] in
  match newPoints with
  | [p0; p1] =>
      let km := calculateDistance p0 p1 in
      let '(newId, st1) := generateLayerId now st in
      let newLayer :=
        mkLayer newId (layerName "Distance" st) distance [pathItem newPoints]
          "#0000ff" "mdi:ruler" true None
          (Some (mkMeasurement km 2 " km")) None None None None in
      setDrawMode ModeNone (setDrawingPoints [] (appendLayer newLayer st1))
  | _ => setDrawingPoints newPoints st
  end.

Definition areaBranch (now : nat) (held : ViewState R)
    (coordinate : Coord R) (st : AppState R) : AppState R :=
  let newPoints := drawingPoints st ++ [coordinate] in
  match drawingPoints st with
  | firstPoint :: _ :: _ =>
      if Rlt_dec (distanceInDegrees coordinate firstPoint) (tolerance held) then
        let closedPoints := newPoints ++ [firstOf newPoints coordinate] in
        let km2 := calculatePolygonArea closedPoints in
        let '(newId, st1) := generateLayerId now st in
        let newLayer :=
          mkLayer newId (layerName "Area" st) area [polygonItem closedPoints]
            "#00ffff" "mdi:vector-square" true None
            (Some (mkMeasurement km2 2 " km²")) None None None None in
        setDrawMode ModeNone (setDrawingPoints [] (appendLayer newLayer st1))
      else setDrawingPoints newPoints st
  | _ => setDrawingPoints newPoints st
  end.

Definition azimuthBranch (now : nat) (coordinate : Coord R) (st : AppState R)
  : AppState R :=
  let newPoints := drawingPoints st ++ [coordinate] in
  match newPoints with
  | [p0; p1] =>
      let degrees := calculateAzimuth p0 p1 in
      let '(newId, st1) := generateLayerId now st in
      let newLayer :=
        mkLayer newId (layerName "Azimuth" st) azimuth [pathItem newPoints]
          "#ff00ff" "mdi:compass" true None
          (Some (mkMeasurement degrees 1 "°")) None None None None in
      setDrawMode ModeNone (setDrawingPoints [] (appendLayer newLayer st1))
  | _ => setDrawingPoints newPoints st
  end.

(** [handleMapClick(info)].  [now] is what [Date.now()] returns if the click
    commits a layer.  The handler reads [info.coordinate[0]] as soon as a
    drawing mode is active, which throws when the coordinate is missing.

    The handler is memoised: [useCallback(handler, deps)] hands back the
    function object of an earlier render for as long as no dependency has
    changed, and that object reads the variables of the render that
    created it.  The dependency list names [drawMode], [layers.length],
    [drawingPoints], [sectorCenter], [sectorRadius], [sectorStartAngle],
    [layers], [networkNodesLayer] and [socketData], so these are read as
    they are in [st]; it does not name [viewState], which the polygon and
    area branches read.  [held] is the [viewState] of the render that
    created the handler. *)
Definition handleMapClick (now : nat) (held : ViewState R) (st : AppState R)
    (info : PickInfo) : result (AppState R) :=
  match drawMode st with
  | ModeNone => Ok st
  | mode =>
      match coordinate info with
      | None => TypeError
      | Some c =>
          Ok (match mode with
              | ModeNone => st
              | ModePoint => pointBranch now c st
              | ModePolygon => polygonBranch now held c st
              | ModeLine => lineBranch now c st
              | ModeSector => sectorBranch now c st
              | ModeDistance => distanceBranch now c st
              | ModeArea => areaBranch now held c st
              | ModeAzimuth => azimuthBranch now c st
              end)
      end
  end.

(** Whether the click changes one of the dependencies of the handler, so
    that the render which follows creates the handler anew.  A click that
    returns at once (mode [none]) or throws (no coordinate) calls no
    setter.  Any other click stores a new array ([drawingPoints],
    [layers] or [sectorCenter]), except at the second and third step of a
    sector, which store a number: React keeps the state, and does not
    render, when that number is the 0 already stored. *)
Definition changesDependency (st : AppState R) (info : PickInfo) : bool :=
  match drawMode st, coordinate info with
  | ModeNone, _ => false
  | _, None => false
  | ModeSector, Some coordinate =>
      match sectorCenter st with
      | None => true
      | Some center =>
          if Req_dec_T (sectorRadius st) 0 then
            let radius :=
              Math_sqrt
                (Math_pow (fst coordinate - fst center) 2 +
                 Math_pow (snd coordinate - snd center) 2) in
            if Req_dec_T radius 0 then false else true
          else if Req_dec_T (sectorStartAngle st) 0 then
            let startAngle :=
              Math_atan2 (snd coordinate - snd center)
                         (fst coordinate - fst center) in
            if Req_dec_T startAngle 0 then false else true
          else true
      end
  | _, Some _ => true
  end.

(** The [viewState] that the handler holds in the render after the click
    [info]: the one of that render if the handler was created anew (a
    click leaves the viewport as it is), the one it held before
    otherwise. *)
Definition heldAfterClick (held : ViewState R) (st : AppState R)
    (info : PickInfo) : ViewState R :=
  if changesDependency st info then viewState st else held.

(** A sequence of clicks with nothing else in between, handled one after
    the other, each by the handler of the render it arrives in. *)
Fixpoint handleMapClicks (now : nat) (held : ViewState R) (st : AppState R)
    (infos : list PickInfo) : result (AppState R) :=
  match infos with
  | [] => Ok st
  | info :: rest =>
      st' <- handleMapClick now held st info ;;
      handleMapClicks now (heldAfterClick held st info) st' rest
  end.

End DrawingSession.

(* ===================================================================== *)
(** ** Drag-translate: [handleDragStart], [handleDrag], [handleDragEnd] *)
(* ===================================================================== *)

Module DragTranslate.

Local Open Scope R_scope.

(** Truthiness of a string state cell: [null] and the empty string are
    falsy. *)
Definition truthyId (lid : option string) : option string :=
  match lid with
  | Some s => if String.eqb s "" then None else Some s
  | None => None
  end.

(** [JSON.parse(JSON.stringify(layer.data))]: a structural copy; on the
    numbers of this instance it returns the same value. *)
Definition deepCopy (items : list (Item R)) : list (Item R) :=
  map (fun item =>
         mkItem (position item) (polygon_ item) (path item) (node item))
      items.

(** [handleDragStart(info)].  When the coordinate is missing the handler
    throws while building the start position; the two setter calls made
    just before are not part of the model. *)
Definition handleDragStart (st : AppState R) (info : PickInfo)
  : result (AppState R) :=
  match drawMode st, object info, layer info with
  | ModeNone, true, Some layerId =>
      match findLayer layerId (layers st) with
      | Some l =>
          if negb (isUploaded_truthy l) then
            match coordinate info with
            | Some c => Ok (setDrag true (Some layerId) (Some c)
                                    (Some (deepCopy (data l))) st)
            | None => TypeError
            end
          else Ok st
      | None => Ok st
      end
  | _, _, _ => Ok st
  end.

(** [[point[0] + totalDeltaLng, point[1] + totalDeltaLat]]. *)
Definition shift (totalDeltaLng totalDeltaLat : R) (p : Coord R) : Coord R :=
  (fst p + totalDeltaLng, snd p + totalDeltaLat).

(** The callback of [originalLayerData.map] for a layer of type [ty]: the
    spread keeps the other properties of the item. *)
Definition shiftItem (ty : LayerType) (totalDeltaLng totalDeltaLat : R)
    (item : Item R) : result (Item R) :=
  match ty with
  | point =>
      match position item with
      | Some p =>
          Ok (mkItem (Some (shift totalDeltaLng totalDeltaLat p))
                     (polygon_ item) (path item) (node item))
      | None => TypeError
      end
  | polygon | sector | area =>
      match polygon_ item with
      | Some ring =>
          Ok (mkItem (position item)
                     (Some (map (shift totalDeltaLng totalDeltaLat) ring))
                     (path item) (node item))
      | None => TypeError
      end
  | distance | azimuth | line =>
      match path item with
      | Some pts =>
          Ok (mkItem (position item) (polygon_ item)
                     (Some (map (shift totalDeltaLng totalDeltaLat) pts))
                     (node item))
      | None => TypeError
      end
  end.

(** [{ ...l, data: newData }]. *)
Definition withData (l : Layer R) (newData : list (Item R)) : Layer R :=
  mkLayer (id l) (name l) (type l) newData (color l) (icon l) (visible l)
    (radius l) (measurement l) (isUploaded l) (pointDisplayMode l)
    (iconType l) (folder l).

(** The updater passed to [setLayers]: every layer with the dragged id gets
    the translated snapshot. *)
Definition dragUpdater (draggedId : string) (snapshot : list (Item R))
    (totalDeltaLng totalDeltaLat : R) (prev : list (Layer R))
  : result (list (Layer R)) :=
  mapM (fun l =>
          if String.eqb (id l) draggedId then
            newData <- mapM (shiftItem (type l) totalDeltaLng totalDeltaLat) snapshot ;;
            Ok (withData l newData)
          else Ok l)
       prev.

(** [handleDrag(info)]. *)
Definition handleDrag (st : AppState R) (info : PickInfo) : result (AppState R) :=
  match isDragging st, truthyId (draggedLayerId st), dragStartPosition st,
        originalLayerData st, coordinate info with
  | true, Some draggedId, Some start, Some snapshot, Some c =>
      match findLayer draggedId (layers st) with
      | None => Ok st
      | Some _ =>
          let totalDeltaLng := fst c - fst start in
          let totalDeltaLat := snd c - snd start in
          ls <- dragUpdater draggedId snapshot totalDeltaLng totalDeltaLat (layers st) ;;
          Ok (setLayers (fun _ => ls) st)
      end
  | _, _, _, _, _ => Ok st
  end.

(** [handleDragEnd()]. *)
Definition handleDragEnd (st : AppState R) : AppState R :=
  setDrag false None None None st.

(** A sequence of move events, handled one after the other. *)
Fixpoint handleDrags (st : AppState R) (infos : list PickInfo)
  : result (AppState R) :=
  match infos with
  | [] => Ok st
  | info :: rest => st' <- handleDrag st info ;; handleDrags st' rest
  end.

End DragTranslate.

(* ===================================================================== *)
(** ** Live overlay: the feed and [networkNodesLayer] *)
(* ===================================================================== *)

Module LiveOverlay.

(** An element of the array [parsedData.nodes].  The hook stores what
    [JSON.parse] returns without looking at it, so an element can be
    [null]; [undefined] is what an array built elsewhere can hold.  Any
    other element is taken to be an object with the properties that the
    component reads, as the feed sends it. *)
Inductive FeedElement (num : Type) : Type :=
| ElemNull
| ElemUndefined
| ElemRecord (n : NodeRecord num).
Arguments ElemNull {num}.
Arguments ElemUndefined {num}.
Arguments ElemRecord {num} n.

(** What the [data] cell of [useSocket] can hold: [null] before the first
    message, then [parsedData.nodes] of the last message that parsed:
    [undefined], an array, or any other value (of which only the
    truthiness matters). *)
Inductive FeedPayload (num : Type) : Type :=
| FeedNull
| FeedUndefined
| FeedOther (truthy : bool)
| FeedArray (elements : list (FeedElement num)).
Arguments FeedNull {num}.
Arguments FeedUndefined {num}.
Arguments FeedOther {num} truthy.
Arguments FeedArray {num} elements.

(** [networkLayerState]. *)
Record NetworkLayerState : Type := mkNetworkLayerState {
  nls_visible : bool;
  nls_radius : nat;
  nls_pointDisplayMode : PointDisplayMode;
  nls_iconType : IconType
}.


Section Overlay.

Variable num : Type.

(** [socketData && Array.isArray(socketData) && socketData.length > 0],
    giving the array when the test passes. *)
Definition nonEmptyArray (socketData : FeedPayload num)
  : option (list (FeedElement num)) :=
  match socketData with
  | FeedArray (e :: rest) => Some (e :: rest)
  | _ => None
  end.

(** The callback of [socketData.map] in [networkNodesLayer]: reading
    [node.longitude] throws when [node] is [null] or [undefined]. *)
Definition overlayItem (node : FeedElement num) : result (Item num) :=
  match node with
  | ElemRecord n =>
      Ok (mkItem (Some (longitude n, latitude n)) None None (Some n))
  | ElemNull | ElemUndefined => TypeError
  end.

(** The memoised value [networkNodesLayer], computed while the component
    renders: an exception of the callback is an exception of the
    render. *)
Definition networkNodesLayer (socketData : FeedPayload num)
    (networkLayerState : NetworkLayerState) : result (option (Layer num)) :=
  match nonEmptyArray socketData with
  | Some elements =>
      items <- mapM overlayItem elements ;;
      Ok (Some (mkLayer "network-nodes" "Network Nodes" point
                  items
                  "#00ff00" "mdi:map-marker"
                  (nls_visible networkLayerState)
                  (Some (nls_radius networkLayerState))
                  None (Some false)
                  (Some (nls_pointDisplayMode networkLayerState))
                  (Some (nls_iconType networkLayerState))
                  None))
  | None => Ok None
  end.

End Overlay.

End LiveOverlay.

(* ===================================================================== *)
(** ** The render list [deckLayers] *)
(* ===================================================================== *)

Module Render.

Import LiveOverlay.
Local Open Scope list_scope.

(** [xs.slice(start, end)] with the index arithmetic of
    [Array.prototype.slice]: a negative index counts from the end, and both
    indices are clamped to the array. *)
Definition slice {A : Type} (start end_ : Z) (xs : list A) : list A :=
  let len := Z.of_nat (List.length xs) in
  let k := if (start <? 0)%Z then Z.max (len + start) 0 else Z.min start len in
  let final := if (end_ <? 0)%Z then Z.max (len + end_) 0 else Z.min end_ len in
  firstn (Z.to_nat (final - k)) (skipn (Z.to_nat k) xs).

(** One hexadecimal digit, in either case. *)
Definition hexDigit (c : ascii) : option nat :=
  let n := nat_of_ascii c in
  if (48 <=? n) && (n <=? 57) then Some (n - 48)
  else if (97 <=? n) && (n <=? 102) then Some (n - 87)
  else if (65 <=? n) && (n <=? 70) then Some (n - 55)
  else None.

(** [parseInt(pair, 16)] of two hexadecimal digits. *)
Definition hexPair (hi lo : ascii) : option nat :=
  match hexDigit hi, hexDigit lo with
  | Some h, Some l => Some (16 * h + l)
  | _, _ => None
  end.

(** [hexToRgb(hex)]: the pattern is an optional [#] followed by exactly six
    hexadecimal digits; anything else gives black. *)
Definition hexToRgb (hex : string) : list nat :=
  let body :=
    match hex with
    | String "#"%char rest => rest
    | _ => hex
    end in
  match list_ascii_of_string body with
  | [r1; r2; g1; g2; b1; b2] =>
      match hexPair r1 r2, hexPair g1 g2, hexPair b1 b2 with
      | Some r, Some g, Some b => [r; g; b]
      | _, _, _ => [0; 0; 0]
      end
  | _ => [0; 0; 0]
  end.

(** A colour accessor: a constant RGBA array, or the function that colours
    a network node by the thresholds 20, 15 and 10 on [node.snr]. *)
Inductive ColorAccessor : Type :=
| ConstColor (rgba : list nat)
| ColorBySnr.

Inductive Units : Type := Pixels | Meters.

Section Primitives.

Variable num : Type.

(** An element of a [socket-connections] path layer. *)
Record ConnectionLine : Type := mkConnectionLine {
  cl_path : list (Coord num);
  fromUserId : Z;
  toUserId : Z
}.

(** The deck.gl layers that the component constructs, with the properties
    it passes. *)
Inductive DeckLayer : Type :=
| ScatterplotLayer (lid : string) (items : list (Item num)) (getRadius : nat)
    (getFillColor : ColorAccessor) (radiusUnits : Units) (pickable : bool)
| IconLayer (lid : string) (items : list (Item num)) (getIcon : IconType)
    (getSize : nat) (getColor : ColorAccessor) (pickable : bool)
| PolygonLayer (lid : string) (items : list (Item num))
    (getFillColor : ColorAccessor) (pickable : bool)
| PathLayer (lid : string) (items : list (Item num))
    (getColor : ColorAccessor) (getWidth : nat) (pickable : bool)
| ConnectionsLayer (lid : string) (lines : list ConnectionLine)
    (getColor : ColorAccessor) (getWidth : nat) (pickable : bool).

(** [layer.radius || 12]: [undefined] and [0] are falsy. *)
Definition radiusOr12 (r : option nat) : nat :=
  match r with
  | Some (S n) => S n
  | _ => 12
  end.

(** [layer.pointDisplayMode || "circle"] and [layer.iconType || "marker"]. *)
Definition displayModeOrCircle (m : option PointDisplayMode) : PointDisplayMode :=
  match m with Some d => d | None => DisplayCircle end.

Definition iconTypeOrMarker (i : option IconType) : IconType :=
  match i with Some t => t | None => IconMarker end.

(** The block "Add network nodes layer if it exists and is visible". *)
Definition networkNodesDeckLayers (networkNodesLayer : option (Layer num))
  : list DeckLayer :=
  match networkNodesLayer with
  | Some nl =>
      if visible nl then
        match displayModeOrCircle (pointDisplayMode nl) with
        | DisplayCircle =>
            [ScatterplotLayer (id nl) (data nl) (radiusOr12 (radius nl))
               ColorBySnr Pixels true]
        | DisplayIcon =>
            [IconLayer (id nl ++ "-icon")%string (data nl)
               (iconTypeOrMarker (iconType nl))
               (radiusOr12 (radius nl) * 2) ColorBySnr true]
        end
      else []
  | None => []
  end.

(** The body of the [forEach] over the user layers: the deck.gl layers
    pushed for one layer.  [layer.data[0].polygon] throws when the layer
    has no item or the first item has no ring. *)
Definition renderLayer (l : Layer num) : result (list DeckLayer) :=
  let rgb := hexToRgb (color l) in
  match type l with
  | point =>
      match displayModeOrCircle (pointDisplayMode l) with
      | DisplayCircle =>
          Ok [ScatterplotLayer
                (id l ++ "-radius-" ++ showNat (radiusOr12 (radius l))
                   ++ "-color-" ++ color l)%string
                (data l) (radiusOr12 (radius l)) (ConstColor (rgb ++ [255]))
                Pixels true]
      | DisplayIcon =>
          Ok [IconLayer
                (id l ++ "-icon-radius-" ++ showNat (radiusOr12 (radius l))
                   ++ "-color-" ++ color l)%string
                (data l) (iconTypeOrMarker (iconType l))
                (radiusOr12 (radius l) * 2) (ConstColor (rgb ++ [255])) true]
      end
  | polygon | area =>
      let fill :=
        PolygonLayer (id l ++ "-color-" ++ color l)%string (data l)
          (ConstColor (rgb ++ [128])) true in
      match data l with
      | first :: _ =>
          match polygon_ first with
          | Some ring =>
              let vertices := slice 0 (-1) ring in
              Ok [fill;
                  ScatterplotLayer (id l ++ "-vertices")%string
                    (map (fun vertex => positionItem vertex) vertices)
                    100 (ConstColor (rgb ++ [255])) Meters false]
          | None => TypeError
          end
      | [] => TypeError
      end
  | sector =>
      Ok [PolygonLayer (id l ++ "-color-" ++ color l)%string (data l)
            (ConstColor (rgb ++ [128])) true]
  | line | distance | azimuth =>
      Ok [PathLayer (id l ++ "-color-" ++ color l)%string (data l)
            (ConstColor (rgb ++ [255])) 3 true]
  end.

(** The layers that reach the [forEach]:
    [layers.filter((layer) => layer.visible).slice(0, 50)]. *)
Definition renderedLayers (ls : list (Layer num)) : list (Layer num) :=
  slice 0 50 (filter (fun l => visible l) ls).

(** The block "Add user layers": each rendered layer pushes onto the render
    list built so far. *)
Definition userDeckLayers (ls : list (Layer num)) (deckLayers : list DeckLayer)
  : result (list DeckLayer) :=
  forEach (fun acc l => pushed <- renderLayer l ;; Ok (acc ++ pushed))
          (renderedLayers ls) deckLayers.

(** The block "Add socket connection lines layer", for an array whose
    elements are all objects. *)
Definition connectionLines (records : list (NodeRecord num)) : list ConnectionLine :=
  flat_map
    (fun n =>
       flat_map
         (fun connectedId =>
            match find_first (fun m => Z.eqb (userId m) connectedId) records with
            | Some connectedNode =>
                [mkConnectionLine
                   [(longitude n, latitude n);
                    (longitude connectedNode, latitude connectedNode)]
                   (userId n) connectedId]
            | None => []
            end)
         (connectedNodeIds n))
    records.

(** The elements of the array as objects.  [socketData.forEach] visits
    every element and reads [node.connectedNodeIds], and the callback of
    [socketData.find] reads [n.userId]: either throws on [null] or
    [undefined], so the block throws as soon as the array holds one. *)
Definition recordsOf (elements : list (FeedElement num))
  : result (list (NodeRecord num)) :=
  mapM (fun node =>
          match node with
          | ElemRecord n => Ok n
          | ElemNull | ElemUndefined => TypeError
          end)
       elements.

Definition socketConnectionsDeckLayers (socketData : FeedPayload num)
  : result (list DeckLayer) :=
  match nonEmptyArray socketData with
  | Some elements =>
      records <- recordsOf elements ;;
      Ok (match connectionLines records with
          | [] => []
          | ls => [ConnectionsLayer "socket-connections"%string ls
                     (ConstColor [0; 123; 255; 180]) 2 false]
          end)
  | None => Ok []
  end.

(** The part of the render list that comes from the feed and from the
    layer store, in the order the component pushes it.  (The previews of
    the drawing session and of the rubber band, pushed in between, depend
    on neither and are not modelled.) *)
Definition deckLayers (socketData : FeedPayload num)
    (networkLayerState : NetworkLayerState) (ls : list (Layer num))
  : result (list DeckLayer) :=
  overlay <- networkNodesLayer socketData networkLayerState ;;
  fromStore <- userDeckLayers ls (networkNodesDeckLayers overlay) ;;
  connections <- socketConnectionsDeckLayers socketData ;;
  Ok (fromStore ++ connections).

End Primitives.

End Render.

(* ===================================================================== *)
(** ** Vocabulary of the statements and sample inputs *)
(* ===================================================================== *)

(** The initial state of [App], with [ls] as its layers and [mode] as the
    drawing mode, for either kind of number. *)
Definition initialFloatState (ls : list (Layer float)) : AppState float :=
  mkAppState ls ModeNone [] None 0%float 0%float
    (mkViewState 78.9629%float 20.5937%float 5%float 0%float 0%float)
    0 false None None None.

Definition initialState (ls : list (Layer R)) (mode : DrawMode) : AppState R :=
  mkAppState ls mode [] None 0%R 0%R
    (mkViewState 78.9629%R 20.5937%R 5%R 0%R 0%R)
    0 false None None None.

(** The viewport of the first render, which the click handler created by
    that render holds. *)
Definition initialView : ViewState R :=
  mkViewState 78.9629%R 20.5937%R 5%R 0%R 0%R.

(** An empty point layer, as a saved session can contain it. *)
Definition emptyPointLayer : Layer float :=
  mkLayer "layer-0-0" "Point 1" point [] "#ff0000" "mdi:map-marker" true
    (Some 12) None None (Some DisplayCircle) (Some IconMarker) (Some "drawn"%string).

(** The bearing opposite to [a], for [a] in [0, 360): [(a + 180) mod 360]. *)
Definition reciprocalBearing (a : R) : R :=
  if Rlt_dec (a + 180)%R 360%R then (a + 180)%R else (a + 180 - 360)%R.

(** A coordinate is at a pole when its latitude is 90 or -90 degrees. *)
Definition notAtPole (p : Coord R) : Prop := (-90 < snd p < 90)%R.

Definition equatorOrigin : Coord R := (0%R, 0%R).
Definition northEast : Coord R := (90%R, 45%R).

(** A polygon session at zoom 5 with the two vertices (0, 0) and (1, 0). *)
Definition twoVertexSession (mode : DrawMode) : AppState R :=
  setDrawingPoints [(0%R, 0%R); (1%R, 0%R)] (initialState [] mode).


(** A fresh sector session. *)
Definition sectorSession : AppState R := initialState [] ModeSector.

(** The planar distance that the second sector click stores as radius. *)
Definition planarDistance (c center : Coord R) : R :=
  sqrt ((fst c - fst center) * (fst c - fst center) +
        (snd c - snd center) * (snd c - snd center)).

(** The angle that the third and fourth sector clicks compute. *)
Definition clickAngle (c center : Coord R) : R :=
  JSMath.Math_atan2 (snd c - snd center) (fst c - fst center).

(** A press on the rendered geometry of the layer [layerId] at [c], and a
    pointer move to [c]. *)
Definition pressOn (layerId : string) (c : Coord R) : PickInfo :=
  mkPickInfo (Some c) true (Some layerId).

Definition moveTo (c : Coord R) : PickInfo := mkPickInfo (Some c) false None.

(** The item carries the geometry property that a layer of type [ty]
    reads. *)
Definition hasGeometry (ty : LayerType) (item : Item R) : bool :=
  match ty with
  | point => match position item with Some _ => true | None => false end
  | polygon | sector | area =>
      match polygon_ item with Some _ => true | None => false end
  | distance | azimuth | line =>
      match path item with Some _ => true | None => false end
  end.

(** The item displaced by [(dLng, dLat)]: every coordinate of the geometry
    property of a layer of type [ty] is moved, the rest of the item is
    kept. *)
Definition translateItem (ty : LayerType) (dLng dLat : R) (item : Item R) : Item R :=
  let move := fun p : Coord R => (fst p + dLng, snd p + dLat)%R in
  match ty with
  | point =>
      mkItem (option_map move (position item)) (polygon_ item) (path item) (node item)
  | polygon | sector | area =>
      mkItem (position item) (option_map (map move) (polygon_ item)) (path item)
        (node item)
  | distance | azimuth | line =>
      mkItem (position item) (polygon_ item) (option_map (map move) (path item))
        (node item)
  end.

(** The layer [l] once the gesture that started at [start] with the
    snapshot [snapshot] of the layer [layerId] has reached [current]: a
    layer with the dragged id shows the snapshot displaced by
    [current - start], any other layer is as it was. *)
Definition dragged (layerId : string) (snapshot : list (Item R))
    (start current : Coord R) (l : Layer R) : Layer R :=
  if String.eqb (id l) layerId then
    mkLayer (id l) (name l) (type l)
      (map (translateItem (type l) (fst current - fst start)%R
                          (snd current - snd start)%R) snapshot)
      (color l) (icon l) (visible l) (radius l) (measurement l)
      (isUploaded l) (pointDisplayMode l) (iconType l) (folder l)
  else l.

(** A drawn point layer with two positions. *)
Definition twoPointLayer : Layer R :=
  mkLayer "layer-0-0" "Point 1" point
    [positionItem (1%R, 2%R); positionItem (3%R, 4%R)]
    "#ff0000" "mdi:map-marker" true (Some 12) None None
    (Some DisplayCircle) (Some IconMarker) (Some "drawn"%string).

(** A session in which nothing is being drawn, holding [twoPointLayer]. *)
Definition twoPointStore : AppState R := initialState [twoPointLayer] ModeNone.

(** A feed of two nodes that name each other. *)
Definition twoNodeFeed : list (NodeRecord R) :=
  [mkNode 1%Z 77%R 28%R 25%R [2%Z]; mkNode 2%Z 78%R 29%R 12%R [1%Z]].

(** The payload of a message whose array holds the given objects. *)
Definition feedOf {num : Type} (records : list (NodeRecord num))
  : LiveOverlay.FeedPayload num :=
  LiveOverlay.FeedArray (map LiveOverlay.ElemRecord records).


(** Every layer with the dragged id reads a geometry property that all the
    items of the snapshot carry. *)
Definition fits (layerId : string) (snapshot : list (Item R))
    (ls : list (Layer R)) : Prop :=
  forall l, In l ls -> id l = layerId ->
            forallb (hasGeometry (type l)) snapshot = true.

(** The state cells of a gesture in progress. *)
Definition gestureOf (layerId : string) (snapshot : list (Item R))
    (start : Coord R) (st : AppState R) : Prop :=
  isDragging st = true /\
  DragTranslate.truthyId (draggedLayerId st) = Some layerId /\
  dragStartPosition st = Some start /\
  originalLayerData st = Some snapshot.

(** A drawn layer with the two positions (1, 2) and (3, 4), and a visible
    line layer, on binary64 numbers. *)
Definition twoPointFloatLayer : Layer float :=
  mkLayer "layer-1-0" "Point 2" point
    [positionItem (1%float, 2%float); positionItem (3%float, 4%float)]
    "#ff0000" "mdi:map-marker" true (Some 12) None None
    (Some DisplayCircle) (Some IconMarker) (Some "drawn"%string).

Definition lineFloatLayer : Layer float :=
  mkLayer "layer-2-0" "Line 3" line
    [pathItem [(0%float, 0%float); (1%float, 1%float)]]
    "#ff0000" "mdi:vector-line" true None None None None None
    (Some "drawn"%string).

From Stdlib Require Import DecimalNat.

(** The id that [generateLayerId] builds from the counter value [n] and
    the clock value [t]. *)
Definition generatedId (n t : nat) : string :=
  ("layer-" ++ showNat n ++ "-" ++ showNat t)%string.

(** Every layer of the store carries an id generated from a counter value
    that the counter has already passed, and no two layers share an id. *)
Definition idsFresh (st : AppState R) : Prop :=
  NoDup (map (fun l => id l) (layers st)) /\
  forall l, In l (layers st) ->
            exists n t, n < layerIdCounter st /\ id l = generatedId n t.

(** A string without the character [-]. *)
Definition dashFree (s : string) : Prop :=
  ~ In "-"%char (list_ascii_of_string s).

(** What one click does to the store and to the cells it does not own:
    the viewport and the drag cells are left alone, and either the store
    and the counter are unchanged, or one layer is appended, whose id is
    generated from the counter and the clock, and the session is back in
    mode [none]. *)
Definition clickEffect (now : nat) (st st' : AppState R) : Prop :=
  viewState st' = viewState st /\
  isDragging st' = isDragging st /\
  draggedLayerId st' = draggedLayerId st /\
  dragStartPosition st' = dragStartPosition st /\
  originalLayerData st' = originalLayerData st /\
  ((layers st' = layers st /\ layerIdCounter st' = layerIdCounter st) \/
   exists l,
     layers st' = layers st ++ [l] /\
     layerIdCounter st' = S (layerIdCounter st) /\
     id l = generatedId (layerIdCounter st) now /\
     visible l = true /\
     isUploaded l = None /\
     data l <> [] /\
     drawMode st' = ModeNone).

(** The layer type that a two-click tool commits, and the measurement it
    attaches to the path from [p0] to [p1]. *)
Definition twoClickKind (m : DrawMode) : option LayerType :=
  match m with
  | ModeLine => Some line
  | ModeDistance => Some distance
  | ModeAzimuth => Some azimuth
  | _ => None
  end.

Definition twoClickMeasurement (m : DrawMode) (p0 p1 : Coord R)
  : option (Measurement R) :=
  match m with
  | ModeDistance =>
      Some (mkMeasurement (Geometry.calculateDistance p0 p1) 2 " km"%string)
  | ModeAzimuth =>
      Some (mkMeasurement (Geometry.calculateAzimuth p0 p1) 1 "°"%string)
  | _ => None
  end.

(** The contribution of the segment from [p1] to [p2] to the sum of
    [calculatePolygonArea], and the sum over the consecutive points of a
    list. *)
Definition segmentTerm (p1 p2 : Coord R) : R :=
  ((((fst p2 - fst p1) * (snd p2 + snd p1) * PI) / 180) *
   6371 * 6371 *
   cos ((((snd p1 + snd p2) / 2) * PI) / 180))%R.

Fixpoint segmentSum (polygon : list (Coord R)) : R :=
  match polygon with
  | p1 :: ((p2 :: _) as rest) => (segmentTerm p1 p2 + segmentSum rest)%R
  | _ => 0%R
  end.

(** A latitude between the poles. *)
Definition validLatitude (p : Coord R) : Prop := (-90 <= snd p <= 90)%R.

(** The term [a] of [calculateDistance], of which both square roots are
    taken. *)
Definition haversineTerm (point1 point2 : Coord R) : R :=
  (sin ((snd point2 - snd point1) * PI / 180 / 2) *
   sin ((snd point2 - snd point1) * PI / 180 / 2) +
   cos (snd point1 * PI / 180) * cos (snd point2 * PI / 180) *
   sin ((fst point2 - fst point1) * PI / 180 / 2) *
   sin ((fst point2 - fst point1) * PI / 180 / 2))%R.

(** A sector session in which the centre (0, 0), the radius 1 and the
    start angle [PI / 2] are set. *)
Definition sectorReady : AppState R :=
  setSectorStartAngle (PI / 2)%R
    (setSectorRadius 1%R (setSectorCenter (Some (0%R, 0%R)) sectorSession)).

(** The state [st] at zoom [z]. *)
Definition atZoom (z : R) (st : AppState R) : AppState R :=
  setViewState
    (mkViewState (vs_longitude (viewState st)) (vs_latitude (viewState st)) z
       (pitch (viewState st)) (bearing (viewState st)))
    st.

(** The item carries the geometry property that the handlers read for a
    layer of type [ty], for any kind of number. *)
Definition carriesGeometry {num : Type} (ty : LayerType) (item : Item num) : bool :=
  match ty with
  | point => match position item with Some _ => true | None => false end
  | polygon | sector | area =>
      match polygon_ item with Some _ => true | None => false end
  | distance | azimuth | line =>
      match path item with Some _ => true | None => false end
  end.

(** The zoom levels that [focusOnLayer] can select. *)
Definition focusZooms : list float :=
  [3; 4; 5; 6; 7; 8; 9; 10; 11; 12; 13; 14; 15; 16; 17]%float.

(* ===================================================================== *)
(** ** Layer store commands *)
(* ===================================================================== *)

Module LayerStore.

Section Commands.

Variable num : Type.

(** [{ ...layer, visible: v }] and the other single-field copies. *)
Definition withVisible (l : Layer num) (v : bool) : Layer num :=
  mkLayer (id l) (name l) (type l) (data l) (color l) (icon l) v
    (radius l) (measurement l) (isUploaded l) (pointDisplayMode l)
    (iconType l) (folder l).

Definition withColor (l : Layer num) (c : string) : Layer num :=
  mkLayer (id l) (name l) (type l) (data l) c (icon l) (visible l)
    (radius l) (measurement l) (isUploaded l) (pointDisplayMode l)
    (iconType l) (folder l).

Definition withIcon (l : Layer num) (i : string) : Layer num :=
  mkLayer (id l) (name l) (type l) (data l) (color l) i (visible l)
    (radius l) (measurement l) (isUploaded l) (pointDisplayMode l)
    (iconType l) (folder l).

Definition withRadius (l : Layer num) (r : nat) : Layer num :=
  mkLayer (id l) (name l) (type l) (data l) (color l) (icon l) (visible l)
    (Some r) (measurement l) (isUploaded l) (pointDisplayMode l)
    (iconType l) (folder l).

Definition withPointDisplayMode (l : Layer num) (m : PointDisplayMode) : Layer num :=
  mkLayer (id l) (name l) (type l) (data l) (color l) (icon l) (visible l)
    (radius l) (measurement l) (isUploaded l) (Some m)
    (iconType l) (folder l).

Definition withName (l : Layer num) (n : string) : Layer num :=
  mkLayer (id l) n (type l) (data l) (color l) (icon l) (visible l)
    (radius l) (measurement l) (isUploaded l) (pointDisplayMode l)
    (iconType l) (folder l).

Definition withFolder (l : Layer num) (f : string) : Layer num :=
  mkLayer (id l) (name l) (type l) (data l) (color l) (icon l) (visible l)
    (radius l) (measurement l) (isUploaded l) (pointDisplayMode l)
    (iconType l) (Some f).

(** [prev.map((layer) => layer.id === layerId ? f(layer) : layer)]. *)
Definition updateLayer (layerId : string) (f : Layer num -> Layer num)
    (st : AppState num) : AppState num :=
  setLayers (map (fun l => if String.eqb (id l) layerId then f l else l)) st.

(** [removeLayer(layerId)]. *)
Definition removeLayer (layerId : string) (st : AppState num) : AppState num :=
  setLayers (filter (fun l => negb (String.eqb (id l) layerId))) st.

(** [toggleLayerVisibility(layerId)]. *)
Definition toggleLayerVisibility (layerId : string) (st : AppState num)
  : AppState num :=
  updateLayer layerId (fun l => withVisible l (negb (visible l))) st.

(** [changeLayerColor], [changeLayerIcon], [changeLayerRadius],
    [changePointDisplayMode], [changeLayerName], [moveLayerToFolder]. *)
Definition changeLayerColor (layerId color : string) (st : AppState num)
  : AppState num :=
  updateLayer layerId (fun l => withColor l color) st.

Definition changeLayerIcon (layerId icon : string) (st : AppState num)
  : AppState num :=
  updateLayer layerId (fun l => withIcon l icon) st.

Definition changeLayerRadius (layerId : string) (radius : nat) (st : AppState num)
  : AppState num :=
  updateLayer layerId (fun l => withRadius l radius) st.

Definition changePointDisplayMode (layerId : string) (mode : PointDisplayMode)
    (st : AppState num) : AppState num :=
  updateLayer layerId (fun l => withPointDisplayMode l mode) st.

Definition changeLayerName (layerId name : string) (st : AppState num)
  : AppState num :=
  updateLayer layerId (fun l => withName l name) st.

Definition moveLayerToFolder (layerId folderName : string) (st : AppState num)
  : AppState num :=
  updateLayer layerId (fun l => withFolder l folderName) st.

(** The layer part of [removeCustomFolder(folderName)]: the layers of the
    folder move to ["untitled"]. *)
Definition folderIs (folderName : string) (l : Layer num) : bool :=
  match folder l with
  | Some f => String.eqb f folderName
  | None => false
  end.

Definition removeCustomFolder (folderName : string) (st : AppState num)
  : AppState num :=
  setLayers
    (map (fun l => if folderIs folderName l then withFolder l "untitled" else l))
    st.

End Commands.

End LayerStore.

(** The style commands of the layer store, as data. *)
Inductive StyleCommand : Type :=
| ToggleVisibility (layerId : string)
| ChangeColor (layerId color : string)
| ChangeIcon (layerId icon : string)
| ChangeRadius (layerId : string) (radius : nat)
| ChangeDisplayMode (layerId : string) (mode : PointDisplayMode)
| ChangeName (layerId name : string)
| MoveToFolder (layerId folderName : string)
| RemoveFolder (folderName : string).

Definition runStyleCommand {num : Type} (cmd : StyleCommand) (st : AppState num)
  : AppState num :=
  match cmd with
  | ToggleVisibility i => LayerStore.toggleLayerVisibility i st
  | ChangeColor i c => LayerStore.changeLayerColor i c st
  | ChangeIcon i c => LayerStore.changeLayerIcon i c st
  | ChangeRadius i r => LayerStore.changeLayerRadius i r st
  | ChangeDisplayMode i m => LayerStore.changePointDisplayMode i m st
  | ChangeName i n => LayerStore.changeLayerName i n st
  | MoveToFolder i f => LayerStore.moveLayerToFolder i f st
  | RemoveFolder f => LayerStore.removeCustomFolder f st
  end.

(** The part of a layer that no style command may touch. *)
Definition geometryOf {num : Type} (l : Layer num)
  : string * LayerType * list (Item num) * option bool :=
  (id l, type l, data l, isUploaded l).

(* ===================================================================== *)
(** ** View controls and rubber-band zoom *)
(* ===================================================================== *)

Module ViewControls.

Local Open Scope R_scope.

Definition INDIA_CENTER : Coord R := (78.9629, 20.5937).

(** [{ ...prev, zoom: z }]. *)
Definition withZoom (v : ViewState R) (z : R) : ViewState R :=
  mkViewState (vs_longitude v) (vs_latitude v) z (pitch v) (bearing v).

(** [zoomIn()], [zoomOut()] and [resetView()]. *)
Definition zoomIn (st : AppState R) : AppState R :=
  setViewState (withZoom (viewState st) (Rmin 20 (zoom (viewState st) + 1))) st.

Definition zoomOut (st : AppState R) : AppState R :=
  setViewState (withZoom (viewState st) (Rmax 1 (zoom (viewState st) - 1))) st.

Definition resetView (st : AppState R) : AppState R :=
  setViewState (mkViewState (fst INDIA_CENTER) (snd INDIA_CENTER) 5 0 0) st.

(** The cells [isRubberBandZooming], [rubberBandStart], [rubberBandEnd]. *)
Record RubberBand : Type := mkRubberBand {
  isRubberBandZooming : bool;
  rubberBandStart : option (Coord R);
  rubberBandEnd : option (Coord R)
}.

Definition idleRubberBand : RubberBand := mkRubberBand false None None.

(** [Math.log2] of a positive number. *)
Definition Math_log2 (x : R) : R := ln x / ln 2.

(** [handleRubberBandStart(info)]. *)
Definition handleRubberBandStart (st : AppState R) (rb : RubberBand)
    (info : PickInfo) : RubberBand :=
  match drawMode st, coordinate info with
  | ModeNone, Some c => mkRubberBand true (Some c) (Some c)
  | _, _ => rb
  end.

(** The rubber-band part of [handleMouseMove(info)]. *)
Definition handleRubberBandMove (rb : RubberBand) (info : PickInfo) : RubberBand :=
  match isRubberBandZooming rb, coordinate info with
  | true, Some c => mkRubberBand true (rubberBandStart rb) (Some c)
  | _, _ => rb
  end.

(** [handleRubberBandEnd(info)].  For a selection without extent
    [Math.log2(0)] is [-Infinity], and the clamp gives zoom 20. *)
Definition handleRubberBandEnd (st : AppState R) (rb : RubberBand)
  : AppState R * RubberBand :=
  match isRubberBandZooming rb, rubberBandStart rb, rubberBandEnd rb with
  | true, Some s, Some e =>
      let minLng := Rmin (fst s) (fst e) in
      let maxLng := Rmax (fst s) (fst e) in
      let minLat := Rmin (snd s) (snd e) in
      let maxLat := Rmax (snd s) (snd e) in
      let centerLng := (minLng + maxLng) / 2 in
      let centerLat := (minLat + maxLat) / 2 in
      let lngDiff := maxLng - minLng in
      let latDiff := maxLat - minLat in
      let maxDiff := Rmax lngDiff latDiff in
      let zoom :=
        if Req_dec_T (maxDiff * 100) 0 then 20
        else Rmax 1 (Rmin 20 (14 - Math_log2 (maxDiff * 100))) in
      (setViewState (mkViewState centerLng centerLat zoom 0 0) st,
       mkRubberBand false None None)
  | _, _, _ => (st, rb)
  end.

End ViewControls.

(* ===================================================================== *)
(** ** Toolbar: tool buttons, the cancel button and the zoom buttons *)
(* ===================================================================== *)

Module Toolbar.

Import ViewControls.

Definition DrawMode_eqb (a b : DrawMode) : bool :=
  match a, b with
  | ModeNone, ModeNone | ModePoint, ModePoint | ModePolygon, ModePolygon
  | ModeLine, ModeLine | ModeSector, ModeSector | ModeDistance, ModeDistance
  | ModeArea, ModeArea | ModeAzimuth, ModeAzimuth => true
  | _, _ => false
  end.

(** The [onClick] of a tool button:
    [setDrawMode(drawMode === tool ? "none" : tool)]. *)
Definition selectTool (tool : DrawMode) (st : AppState R) : AppState R :=
  setDrawMode (if DrawMode_eqb (drawMode st) tool then ModeNone else tool) st.

(** The [onClick] of "Cancel drawing" (the preview cell [mousePosition] is
    not part of the modelled state). *)
Definition cancelDrawing (st : AppState R) : AppState R :=
  setDrawMode ModeNone
    (setSectorStartAngle 0%R
       (setSectorRadius 0%R
          (setSectorCenter None
             (setDrawingPoints [] st)))).

(** What the user can do to a drawing session. *)
Inductive UserEvent : Type :=
| MapClick (now : nat) (info : PickInfo)
| ToolButton (tool : DrawMode)
| CancelButton
| ZoomInButton
| ZoomOutButton
| ViewChange (next : ViewState R).

(** One event, handled by the component as its last render left it: the
    state cells after the event, paired with the [viewState] that the
    click handler holds in the render that follows.  The handler is
    created anew when the event changed one of its dependencies: a tool
    button when it changed [drawMode]; the cancel button always, since it
    stores a new array in [drawingPoints]; a zoom button or a pan or zoom
    of the map itself ([onViewStateChange]) never, since [viewState] is
    not a dependency. *)
Definition handleEvent (held : ViewState R) (st : AppState R) (ev : UserEvent)
  : result (ViewState R * AppState R) :=
  match ev with
  | MapClick now info =>
      st' <- DrawingSession.handleMapClick now held st info ;;
      Ok (DrawingSession.heldAfterClick held st info, st')
  | ToolButton tool =>
      let st' := selectTool tool st in
      Ok (if DrawMode_eqb (drawMode st') (drawMode st) then held
          else viewState st',
          st')
  | CancelButton => Ok (viewState st, cancelDrawing st)
  | ZoomInButton => Ok (held, zoomIn st)
  | ZoomOutButton => Ok (held, zoomOut st)
  | ViewChange next => Ok (held, setViewState next st)
  end.

(** The events of a session, handled in order. *)
Fixpoint handleEvents (held : ViewState R) (st : AppState R)
    (evs : list UserEvent) : result (ViewState R * AppState R) :=
  match evs with
  | [] => Ok (held, st)
  | ev :: rest =>
      next <- handleEvent held st ev ;;
      handleEvents (fst next) (snd next) rest
  end.


End Toolbar.

(** The id that a deck.gl layer was constructed with. *)
Definition deckId {num : Type} (d : Render.DeckLayer num) : string :=
  match d with
  | Render.ScatterplotLayer lid _ _ _ _ _ => lid
  | Render.IconLayer lid _ _ _ _ _ => lid
  | Render.PolygonLayer lid _ _ _ => lid
  | Render.PathLayer lid _ _ _ _ => lid
  | Render.ConnectionsLayer lid _ _ _ _ => lid
  end.

(** [renderLayer] reads [layer.data[0].polygon] for polygon and area
    layers: the first item must exist and carry a ring. *)
Definition renderable {num : Type} (l : Layer num) : bool :=
  match type l with
  | polygon | area =>
      match data l with
      | first :: _ => match polygon_ first with Some _ => true | None => false end
      | [] => false
      end
  | _ => true
  end.

(* ===================================================================== *)
(** ** Hover preview: the drawing part of [handleMouseMove] *)
(* ===================================================================== *)

Module Hover.

Import JSMath DrawingSession.
Local Open Scope R_scope.

(** The cells [mousePosition] and [hoveredPoint]. *)
Record Preview : Type := mkPreview {
  mousePosition : option (Coord R);
  hoveredPoint : option (Coord R)
}.

(** The block "Handle drawing preview" of [handleMouseMove(info)].  (The
    tooltip block before it only acts in mode [none], where this block
    does nothing.) *)
Definition handleMouseMovePreview (st : AppState R) (pv : Preview)
    (info : PickInfo) : Preview :=
  match drawMode st, coordinate info with
  | ModeNone, _ => pv
  | mode, Some c =>
      let closing :=
        match mode with
        | ModePolygon | ModeArea =>
            match drawingPoints st with
            | firstPoint :: _ :: _ =>
                let distanceInDegrees :=
                  Math_sqrt
                    (Math_pow (fst c - fst firstPoint) 2 +
                     Math_pow (snd c - snd firstPoint) 2) in
                let zoomFactor :=
                  Math_max 0.1 (1 / Math_pow 2 (zoom (viewState st) - 5)) in
                let tolerance := 0.05 * zoomFactor in
                if Rlt_dec distanceInDegrees tolerance
                then Some firstPoint else None
            | _ => None
            end
        | _ => None
        end in
      mkPreview (Some c) closing
  | _, None => mkPreview None None
  end.

End Hover.

(* ===================================================================== *)
(** ** GeoJSON upload: [handleGeoJSONUpload] *)
(* ===================================================================== *)

Module Upload.

Import DrawingSession.
Local Open Scope string_scope.
Local Open Scope list_scope.

(** [feature.geometry], by its [type]: a point, a polygon (an array of
    rings), a line string, or a geometry of another type.  [coordinates]
    may be missing ([None]). *)
Inductive Geometry : Type :=
| GeoPoint (coordinates : option (Coord R))
| GeoPolygon (coordinates : option (list (list (Coord R))))
| GeoLineString (coordinates : option (list (Coord R)))
| GeoOther.

(** A feature; [None] is a feature without [geometry]. *)
Record Feature : Type := mkFeature { geometry : option Geometry }.

(** What [JSON.parse(content)] gives: an exception (or a value on which
    reading [features] throws), or a document whose [features] is an array
    ([Some]) or anything else ([None]). *)
Inductive Parsed : Type :=
| NotParsed
| Document (features : option (list Feature)).

(** The three arrays [points], [polygons], [lines]. *)
Record Batches : Type := mkBatches {
  points : list (Item R);
  polygons : list (Item R);
  lines : list (Item R)
}.

(** The callback of [geojson.features.forEach]. *)
Definition collect (b : Batches) (feature : Feature) : result Batches :=
  match geometry feature with
  | None => TypeError
  | Some (GeoPoint c) =>
      Ok (mkBatches (points b ++ [mkItem c None None None]) (polygons b) (lines b))
  | Some (GeoPolygon (Some (first :: _))) =>
      let ring := map (fun coord => (fst coord, snd coord)) first in
      Ok (mkBatches (points b) (polygons b ++ [polygonItem ring]) (lines b))
  | Some (GeoPolygon _) => TypeError
  | Some (GeoLineString (Some cs)) =>
      let coordinates := map (fun coord => (fst coord, snd coord)) cs in
      Ok (mkBatches (points b) (polygons b) (lines b ++ [pathItem coordinates]))
  | Some (GeoLineString None) => TypeError
  | Some GeoOther => Ok b
  end.

(** The three layer literals; [count] is [layers.length] as the handler
    sees it. *)
Definition pointsLayer (newId : string) (count : nat) (items : list (Item R))
  : Layer R :=
  mkLayer newId ("GeoJSON Points " ++ showNat (count + 1))%string point items
    "#ff0000" "mdi:map-marker" true (Some 12) None (Some true)
    (Some DisplayCircle) (Some IconMarker) (Some "uploaded").

Definition polygonsLayer (newId : string) (count : nat) (items : list (Item R))
  : Layer R :=
  mkLayer newId ("GeoJSON Polygons " ++ showNat (count + 1))%string polygon items
    "#00ff00" "mdi:vector-polygon" true None None (Some true) None None
    (Some "uploaded").

Definition linesLayer (newId : string) (count : nat) (items : list (Item R))
  : Layer R :=
  mkLayer newId ("GeoJSON Lines " ++ showNat (count + 1))%string line items
    "#0000ff" "mdi:vector-line" true None None (Some true) None None
    (Some "uploaded").

(** [if (items.length > 0) { ...; setLayers((prev) => [...prev, newLayer]) }]. *)
Definition addBatch (mk : string -> nat -> list (Item R) -> Layer R)
    (now count : nat) (items : list (Item R)) (st : AppState R) : AppState R :=
  match items with
  | [] => st
  | _ =>
      let '(newId, st1) := generateLayerId now st in
      appendLayer (mk newId count items) st1
  end.

(** [handleGeoJSONUpload(content)], from the parsed content on.  [t1],
    [t2], [t3] are the clock values of the three possible calls of
    [generateLayerId]; the result carries the message of the [alert], if
    any.  Every exception is caught by the handler. *)
Definition handleGeoJSONUpload (t1 t2 t3 : nat) (st : AppState R)
    (parsed : Parsed) : AppState R * option string :=
  match parsed with
  | NotParsed => (st, Some "Error parsing GeoJSON file")
  | Document None => (st, Some "Invalid GeoJSON format")
  | Document (Some features) =>
      match forEach collect features (mkBatches [] [] []) with
      | TypeError => (st, Some "Error parsing GeoJSON file")
      | Ok b =>
          let count := List.length (layers st) in
          (addBatch linesLayer t3 count (lines b)
             (addBatch polygonsLayer t2 count (polygons b)
                (addBatch pointsLayer t1 count (points b) st)),
           None)
      end
  end.

End Upload.

(** A layer as an upload creates it: marked uploaded, visible, filed under
    ["uploaded"], with at least one item; the items of a polygon or line
    layer carry the geometry of the layer type (those of a point layer
    carry the coordinates of their feature, if it had any). *)
Definition uploadedLayer (l : Layer R) : Prop :=
  isUploaded l = Some true /\
  visible l = true /\
  folder l = Some "uploaded"%string /\
  data l <> [] /\
  (type l <> point -> forallb (hasGeometry (type l)) (data l) = true).

(** The batches of an upload hold items of their own kind. *)
Definition sortedBatches (b : Upload.Batches) : Prop :=
  forallb (hasGeometry polygon) (Upload.polygons b) = true /\
  forallb (hasGeometry line) (Upload.lines b) = true.

(* ===================================================================== *)
(** * Properties *)
(* ===================================================================== *)

Unset Implicit Arguments.

(** ** Viewport fitter *)

(** What [focusOnLayer] computes from a layer without geometry items: the
    loop does not run, the bounds stay at [Infinity] and [-Infinity], the
    centre is [(Infinity + -Infinity) / 2]. *)
Lemma focusOnLayer_no_items (st : AppState float) (layerId : string) (l : Layer float) :
  findLayer layerId (layers st) = Some l ->
  data l = [] ->
  ViewportFitter.focusOnLayer st layerId =
    Ok (setViewState
          (mkViewState nan nan (if isUploaded_truthy l then 15%float else 17%float)
             0%float 0%float) st).
Proof.
  intros Hfind Hdata.
  unfold ViewportFitter.focusOnLayer. rewrite Hfind.
  unfold ViewportFitter.paddedZoom, ViewportFitter.baseZoom.
  rewrite Hdata. cbn [forEach bind List.length Nat.eqb Nat.ltb Nat.leb andb].
  rewrite Bool.andb_false_r.
  destruct (isUploaded_truthy l); reflexivity.
Qed.

(** The guard that [focusOnLayer] does have: an id that names no layer
    leaves the state as it is. *)
Lemma focusOnLayer_unknown_id (st : AppState float) (layerId : string) :
  findLayer layerId (layers st) = None ->
  ViewportFitter.focusOnLayer st layerId = Ok st.
Proof.
  intros Hfind. unfold ViewportFitter.focusOnLayer. rewrite Hfind. reflexivity.
Qed.

(** A layer with geometry: the positions (1, 2) and (3, 4) give the centre
    (2, 3); the span 2 selects zoom 9, the padding of a point layer with
    several items takes 2 off. *)
Example focusOnLayer_two_points :
  ViewportFitter.focusOnLayer (initialFloatState [twoPointFloatLayer]) "layer-1-0" =
    Ok (setViewState (mkViewState 2%float 3%float 7%float 0%float 0%float)
          (initialFloatState [twoPointFloatLayer])).
Proof. vm_compute. reflexivity. Qed.

(** C1 (as the code behaves).  For every layer of the store whose geometry
    item list is empty, [focusOnLayer] does not leave the viewport alone:
    it overwrites it with a centre whose longitude and latitude are [NaN]
    and with zoom 15 (uploaded layer) or 17. *)
Theorem focusOnLayer_empty_geometry_sets_nan_center
    (st : AppState float) (layerId : string) (l : Layer float) :
  findLayer layerId (layers st) = Some l ->
  data l = [] ->
  exists st',
    ViewportFitter.focusOnLayer st layerId = Ok st' /\
    is_nan (vs_longitude (viewState st')) = true /\
    is_nan (vs_latitude (viewState st')) = true /\
    (zoom (viewState st') = 15%float \/ zoom (viewState st') = 17%float) /\
    layers st' = layers st.
Proof.
  intros Hfind Hdata.
  eexists. split; [apply (focusOnLayer_no_items st layerId l Hfind Hdata)|].
  cbn. repeat split; try reflexivity.
  destruct (isUploaded_truthy l); [left | right]; reflexivity.
Qed.

Lemma focusOnLayer_empty_geometry_witness :
  exists st',
    ViewportFitter.focusOnLayer (initialFloatState [emptyPointLayer]) "layer-0-0" = Ok st' /\
    is_nan (vs_longitude (viewState st')) = true /\
    is_nan (vs_latitude (viewState st')) = true /\
    (zoom (viewState st') = 15%float \/ zoom (viewState st') = 17%float) /\
    layers st' = layers (initialFloatState [emptyPointLayer]).
Proof.
  apply (focusOnLayer_empty_geometry_sets_nan_center
           (initialFloatState [emptyPointLayer]) "layer-0-0" emptyPointLayer);
    reflexivity.
Defined.

(* ===================================================================== *)
(** ** The [Math] object *)
(* ===================================================================== *)

Section MathFacts.

Import JSMath.
Local Open Scope R_scope.

Lemma Int_part_IZR (z : Z) : Int_part (IZR z) = z.
Proof. symmetry. apply Int_part_spec. lra. Qed.

(** [Math.pow(x, 2)] is the square. *)
Lemma Math_pow_2 (x : R) : Math_pow x 2 = x * x.
Proof.
  unfold Math_pow. rewrite (Int_part_IZR 2).
  destruct (Req_dec_T 2 2) as [_ | Hne]; [| contradiction].
  simpl. ring.
Qed.

(** [Math.pow(b, 0)] is [1]. *)
Lemma Math_pow_0 (b : R) : Math_pow b 0 = 1.
Proof.
  unfold Math_pow. rewrite (Int_part_IZR 0).
  destruct (Req_dec_T 0 0) as [_ | Hne]; [| contradiction].
  reflexivity.
Qed.

(** [Math.atan2] takes its values in [(-PI, PI]]. *)
Lemma Math_atan2_range (y x : R) : - PI < Math_atan2 y x <= PI.
Proof.
  pose proof PI_RGT_0 as Hpi.
  unfold Math_atan2.
  destruct (Rlt_dec 0 x) as [Hx | Hx].
  - pose proof (atan_bound (y / x)). lra.
  - destruct (Rlt_dec x 0) as [Hx' | Hx'].
    + destruct (Rle_dec 0 y) as [Hy | Hy].
      * assert (Hq : y / x <= 0).
        { unfold Rdiv. assert (/ x < 0) by (apply Rinv_lt_0_compat; exact Hx').
          nra. }
        assert (atan (y / x) <= 0).
        { destruct Hq as [Hq | Hq].
          - left. rewrite <- atan_0. apply atan_increasing. exact Hq.
          - rewrite Hq, atan_0. lra. }
        pose proof (atan_bound (y / x)). lra.
      * assert (Hq : 0 < y / x).
        { unfold Rdiv. assert (/ x < 0) by (apply Rinv_lt_0_compat; exact Hx').
          nra. }
        assert (0 < atan (y / x)).
        { rewrite <- atan_0. apply atan_increasing. exact Hq. }
        pose proof (atan_bound (y / x)). lra.
    + destruct (Rlt_dec 0 y); [lra |].
      destruct (Rlt_dec y 0); lra.
Qed.

(** The angle of a point on the positive abscissa is [0]. *)
Lemma Math_atan2_east (x : R) : 0 < x -> Math_atan2 0 x = 0.
Proof.
  intros Hx. unfold Math_atan2.
  destruct (Rlt_dec 0 x) as [_ | Hn]; [| contradiction].
  unfold Rdiv. rewrite Rmult_0_l. apply atan_0.
Qed.

(** The angle of a point on the negative abscissa is [PI]. *)
Lemma Math_atan2_west (x : R) : x < 0 -> Math_atan2 0 x = PI.
Proof.
  intros Hx. unfold Math_atan2.
  destruct (Rlt_dec 0 x) as [Hp | _]; [lra |].
  destruct (Rlt_dec x 0) as [_ | Hn]; [| contradiction].
  destruct (Rle_dec 0 0) as [_ | Hn]; [| lra].
  unfold Rdiv. rewrite Rmult_0_l, atan_0. ring.
Qed.

(** The angle of a point on the positive ordinate is [PI / 2], on the
    negative ordinate [- PI / 2]. *)
Lemma Math_atan2_north (y : R) : 0 < y -> Math_atan2 y 0 = PI / 2.
Proof.
  intros Hy. unfold Math_atan2.
  destruct (Rlt_dec 0 0) as [H0 | _]; [lra |].
  destruct (Rlt_dec 0 y) as [_ | Hn]; [reflexivity | contradiction].
Qed.

Lemma Math_atan2_south (y : R) : y < 0 -> Math_atan2 y 0 = - PI / 2.
Proof.
  intros Hy. unfold Math_atan2.
  destruct (Rlt_dec 0 0) as [H0 | _]; [lra |].
  destruct (Rlt_dec 0 y) as [Hp | _]; [lra |].
  destruct (Rlt_dec y 0) as [_ | Hn]; [reflexivity | contradiction].
Qed.

End MathFacts.

(* ===================================================================== *)
(** ** Geometry helpers *)
(* ===================================================================== *)

Section GeometryFacts.

Import JSMath Geometry.
Local Open Scope R_scope.

(** C7.  [calculateDistance] is the haversine formula with radius 6371
    and gives the same distance in both directions, for every pair of
    coordinates. *)
Theorem calculateDistance_symmetric (A B : Coord R) :
  calculateDistance A B = calculateDistance B A /\
  calculateDistance A B =
    6371 * (2 * Math_atan2
                  (sqrt (Rsqr (sin ((snd B - snd A) * PI / 180 / 2)) +
                         cos (snd A * PI / 180) * cos (snd B * PI / 180) *
                         Rsqr (sin ((fst B - fst A) * PI / 180 / 2))))
                  (sqrt (1 - (Rsqr (sin ((snd B - snd A) * PI / 180 / 2)) +
                              cos (snd A * PI / 180) * cos (snd B * PI / 180) *
                              Rsqr (sin ((fst B - fst A) * PI / 180 / 2)))))).
Proof.
  split.
  - unfold calculateDistance, Math_sin, Math_cos, Math_sqrt, Math_PI.
    replace ((snd A - snd B) * PI / 180 / 2)
      with (- ((snd B - snd A) * PI / 180 / 2)) by field.
    replace ((fst A - fst B) * PI / 180 / 2)
      with (- ((fst B - fst A) * PI / 180 / 2)) by field.
    rewrite !sin_neg.
    set (u := sin ((snd B - snd A) * PI / 180 / 2)).
    set (v := sin ((fst B - fst A) * PI / 180 / 2)).
    set (ca := cos (snd A * PI / 180)).
    set (cb := cos (snd B * PI / 180)).
    replace (- u * - u + cb * ca * - v * - v) with (u * u + ca * cb * v * v) by ring.
    reflexivity.
  - unfold calculateDistance, Math_sin, Math_cos, Math_sqrt, Math_PI, Rsqr.
    set (u := sin ((snd B - snd A) * PI / 180 / 2)).
    set (v := sin ((fst B - fst A) * PI / 180 / 2)).
    set (ca := cos (snd A * PI / 180)).
    set (cb := cos (snd B * PI / 180)).
    replace (u * u + ca * cb * v * v) with (u * u + ca * cb * (v * v)) by ring.
    reflexivity.
Qed.

(** The value returned by [calculateAzimuth] always lies in [0, 360). *)
Lemma calculateAzimuth_range (A B : Coord R) :
  0 <= calculateAzimuth A B < 360.
Proof.
  pose proof PI_RGT_0 as Hpi.
  unfold calculateAzimuth.
  match goal with
  | |- context [Math_atan2 ?y ?x] =>
      pose proof (Math_atan2_range y x) as Hr; set (t := Math_atan2 y x) in *
  end.
  unfold Math_PI.
  assert (Hlo : -180 < t * 180 / PI).
  { apply Rmult_lt_reg_r with PI; [exact Hpi |].
    replace (t * 180 / PI * PI) with (t * 180) by (field; lra). lra. }
  assert (Hhi : t * 180 / PI <= 180).
  { apply Rmult_le_reg_r with PI; [exact Hpi |].
    replace (t * 180 / PI * PI) with (t * 180) by (field; lra). lra. }
  destruct (Rlt_dec (t * 180 / PI) 0); lra.
Qed.

End GeometryFacts.

Section SectorPolygon.

Import JSMath Geometry.
Local Open Scope R_scope.

(** The loop of [createSectorPolygon] ends, having added [2 * PI] to the
    end angle exactly as many times as it takes to pass the start angle. *)
Lemma normalizeEndAngle_spec (startAngle e : R) :
  exists k : nat,
    normalizeEndAngle startAngle e = e + INR k * (2 * PI) /\
    startAngle < e + INR k * (2 * PI) /\
    forall j : nat, (j < k)%nat -> e + INR j * (2 * PI) <= startAngle.
Proof.
  funelim (normalizeEndAngle startAngle e).
  - match goal with
    | IH : exists k : nat, _ |- _ => destruct IH as [k [Hval [Hgt Hmin]]]
    end.
    exists (S k). unfold Math_PI in *.
    rewrite S_INR. repeat split.
    + rewrite Hval. ring.
    + lra.
    + intros [| j] Hj.
      * simpl. lra.
      * rewrite S_INR.
        assert (Hj' : (j < k)%nat) by lia.
        specialize (Hmin j Hj'). lra.
  - exists 0%nat. simpl. repeat split.
    + ring.
    + lra.
    + intros j Hj. lia.
Qed.

(** The arc loop pushes one [arcPoint] per index, in order. *)
Lemma arcLoop_map (center : Coord R) (radius startAngle normalized : R)
    (k i : nat) (points : list (Coord R)) :
  arcLoop center radius startAngle normalized k i points =
  points ++ map (arcPoint center radius startAngle normalized) (seq i k).
Proof.
  revert i points. induction k as [| k IH]; intros i points; simpl.
  - rewrite app_nil_r. reflexivity.
  - rewrite IH, <- app_assoc. reflexivity.
Qed.

(** C4.  For every centre, radius, start angle and end angle,
    [createSectorPolygon] returns the centre followed by exactly 33 arc
    points [(center.x + radius * cos theta_i, center.y + radius * sin theta_i)],
    [i = 0 .. 32], whose angles [theta_i] are evenly spaced and strictly
    increase from the start angle to the normalized end angle; the latter
    is the end angle plus [2 * PI] added just as many times ([k]) as it
    takes to exceed the start angle. *)
Theorem createSectorPolygon_ring (center : Coord R) (radius startAngle endAngle : R) :
  exists k : nat,
    let normalized := endAngle + INR k * (2 * PI) in
    let theta := fun i : nat =>
      startAngle + (normalized - startAngle) * (INR i / 32) in
    (forall j : nat, (j < k)%nat -> endAngle + INR j * (2 * PI) <= startAngle) /\
    startAngle < normalized /\
    createSectorPolygon center radius startAngle endAngle =
      center ::
      map (fun i => (fst center + radius * cos (theta i),
                     snd center + radius * sin (theta i)))
          (seq 0 33) /\
    List.length (createSectorPolygon center radius startAngle endAngle) = 34%nat /\
    theta 0%nat = startAngle /\
    theta 32%nat = normalized /\
    (forall i : nat, theta (S i) - theta i = (normalized - startAngle) / 32) /\
    (forall i j : nat, (i < j)%nat -> theta i < theta j).
Proof.
  destruct (normalizeEndAngle_spec startAngle endAngle) as [k [Heq [Hgt Hmin]]].
  exists k. cbv zeta.
  assert (Hring :
    createSectorPolygon center radius startAngle endAngle =
      center ::
      map (fun i =>
             (fst center + radius *
                cos (startAngle + (endAngle + INR k * (2 * PI) - startAngle) * (INR i / 32)),
              snd center + radius *
                sin (startAngle + (endAngle + INR k * (2 * PI) - startAngle) * (INR i / 32))))
          (seq 0 33)).
  { unfold createSectorPolygon. rewrite arcLoop_map, Heq.
    cbn [app]. f_equal. apply map_ext. intros i.
    unfold arcPoint, Math_cos, Math_sin, numPoints.
    replace (INR 32) with 32 by (simpl; lra). reflexivity. }
  split; [exact Hmin |]. split; [exact Hgt |]. split; [exact Hring |].
  split; [rewrite Hring; reflexivity |].
  split; [simpl; field |].
  split; [replace (INR 32) with 32 by (simpl; lra); field |].
  split.
  - intros i. rewrite S_INR. field.
  - intros i j Hij.
    apply lt_INR in Hij.
    assert (Hd : 0 < endAngle + INR k * (2 * PI) - startAngle) by lra.
    assert (INR i / 32 < INR j / 32) by lra.
    nra.
Qed.

End SectorPolygon.

Section Azimuth.

Import JSMath Geometry.
Local Open Scope R_scope.

Lemma inv_sqrt2_pos : 0 < 1 / sqrt 2.
Proof.
  assert (0 < sqrt 2) by (apply sqrt_lt_R0; lra).
  apply Rdiv_lt_0_compat; lra.
Qed.

Lemma azimuth_origin_to_northEast : calculateAzimuth equatorOrigin northEast = 45.
Proof.
  pose proof PI_RGT_0 as Hpi. pose proof inv_sqrt2_pos as Hs.
  unfold calculateAzimuth, equatorOrigin, northEast, Math_sin, Math_cos, Math_PI.
  cbn [fst snd].
  replace ((90 - 0) * PI / 180) with (PI / 2) by field.
  replace (0 * PI / 180) with 0 by field.
  replace (45 * PI / 180) with (PI / 4) by field.
  rewrite sin_PI2, cos_PI2, sin_PI4, cos_PI4, sin_0, cos_0.
  replace (1 * (1 / sqrt 2) - 0 * (1 / sqrt 2) * 0) with (1 / sqrt 2) by ring.
  replace (1 * (1 / sqrt 2)) with (1 / sqrt 2) by ring.
  unfold Math_atan2.
  destruct (Rlt_dec 0 (1 / sqrt 2)) as [_ | Hn]; [| contradiction].
  assert (Hsqrt : 0 < sqrt 2) by (apply sqrt_lt_R0; lra).
  replace (1 / sqrt 2 / (1 / sqrt 2)) with 1 by (field; lra).
  rewrite atan_1.
  replace (PI / 4 * 180 / PI) with 45 by (field; lra).
  destruct (Rlt_dec 45 0); [lra | reflexivity].
Qed.

Lemma azimuth_northEast_to_origin : calculateAzimuth northEast equatorOrigin = 270.
Proof.
  pose proof PI_RGT_0 as Hpi.
  unfold calculateAzimuth, equatorOrigin, northEast, Math_sin, Math_cos, Math_PI.
  cbn [fst snd].
  replace ((0 - 90) * PI / 180) with (- (PI / 2)) by field.
  replace (0 * PI / 180) with 0 by field.
  replace (45 * PI / 180) with (PI / 4) by field.
  rewrite sin_neg, cos_neg, sin_PI2, cos_PI2, sin_0, cos_0.
  replace (cos (PI / 4) * 0 - sin (PI / 4) * 1 * 0) with 0 by ring.
  replace (- (1) * 1) with (-1) by ring.
  rewrite Math_atan2_south by lra.
  replace (- PI / 2 * 180 / PI) with (-90) by (field; lra).
  destruct (Rlt_dec (-90) 0); lra.
Qed.

(** C8, as stated, fails: from (0, 0) the bearing to (90, 45) is 45 degrees,
    so the claimed bearing back is 225 degrees, but [calculateAzimuth]
    gives 270 degrees, which is 45 degrees away.  Neither point is at a
    pole and the two are distinct. *)
Lemma azimuth_reciprocal_counterexample :
  equatorOrigin <> northEast /\
  notAtPole equatorOrigin /\ notAtPole northEast /\
  calculateAzimuth equatorOrigin northEast = 45 /\
  reciprocalBearing (calculateAzimuth equatorOrigin northEast) = 225 /\
  calculateAzimuth northEast equatorOrigin = 270 /\
  Rabs (calculateAzimuth northEast equatorOrigin -
        reciprocalBearing (calculateAzimuth equatorOrigin northEast)) = 45.
Proof.
  assert (Hrec : reciprocalBearing 45 = 225).
  { unfold reciprocalBearing. destruct (Rlt_dec (45 + 180) 360); lra. }
  rewrite azimuth_origin_to_northEast, azimuth_northEast_to_origin, Hrec.
  repeat split; unfold notAtPole, equatorOrigin, northEast; cbn [fst snd]; try lra.
  - intros Heq. injection Heq as H1 H2. lra.
  - replace (270 - 225) with 45 by ring. apply Rabs_pos_eq. lra.
Qed.

(** Along a meridian, going towards the greater latitude is bearing 0 and
    going towards the smaller latitude is bearing 180. *)
Lemma azimuth_meridian_north (A B : Coord R) :
  fst A = fst B -> notAtPole A -> notAtPole B -> snd A < snd B ->
  calculateAzimuth A B = 0 /\ calculateAzimuth B A = 180.
Proof.
  intros Hlon [HA1 HA2] [HB1 HB2] Hlt.
  pose proof PI_RGT_0 as Hpi.
  set (d := snd B * PI / 180 - snd A * PI / 180).
  assert (Hd : 0 < d < PI).
  { unfold d. split.
    - assert (0 < (snd B - snd A) * (PI / 180)) by (apply Rmult_lt_0_compat; lra).
      lra.
    - assert ((snd B - snd A) * (PI / 180) < 180 * (PI / 180))
        by (apply Rmult_lt_compat_r; lra).
      lra. }
  assert (Hsin : 0 < sin d) by (apply sin_gt_0; lra).
  unfold calculateAzimuth, Math_sin, Math_cos, Math_PI.
  rewrite Hlon.
  replace ((fst B - fst B) * PI / 180) with 0 by field.
  rewrite sin_0, cos_0. rewrite !Rmult_0_l.
  split.
  - replace (cos (snd A * PI / 180) * sin (snd B * PI / 180) -
             sin (snd A * PI / 180) * cos (snd B * PI / 180) * 1)
      with (sin d) by (unfold d; rewrite sin_minus; ring).
    rewrite Math_atan2_east by exact Hsin.
    replace (0 * 180 / PI) with 0 by (field; lra).
    destruct (Rlt_dec 0 0); [lra | reflexivity].
  - replace (cos (snd B * PI / 180) * sin (snd A * PI / 180) -
             sin (snd B * PI / 180) * cos (snd A * PI / 180) * 1)
      with (- sin d) by (unfold d; rewrite sin_minus; ring).
    rewrite Math_atan2_west by lra.
    replace (PI * 180 / PI) with 180 by (field; lra).
    destruct (Rlt_dec 180 0); [lra | reflexivity].
Qed.

(** On binary64 numbers the sum of a raw bearing just below 0 and 360
    rounds to 360: the upper bound of the range is reached. *)
Lemma normalizeAzimuth64_reaches_360 :
  normalizeAzimuth64 (- 0x1p-50)%float = 360%float.
Proof. reflexivity. Qed.

(** C8, amended.  [calculateAzimuth] returns the raw bearing when it is
    not negative and the raw bearing plus 360 when it is: a value that is
    never below 0 and never above 360; and for two points of one meridian,
    neither at a pole, whose latitudes are at least a billionth of a
    degree apart, the bearing back is [(bearing + 180) mod 360]. *)
Theorem calculateAzimuth_range_and_meridian_reciprocal :
  (forall A B : Coord R, 0 <= calculateAzimuth A B <= 360) /\
  (forall A B : Coord R,
      fst A = fst B -> 1e-9 <= Rabs (snd A - snd B) ->
      notAtPole A -> notAtPole B ->
      calculateAzimuth B A = reciprocalBearing (calculateAzimuth A B)).
Proof.
  split.
  { intros A B. pose proof (calculateAzimuth_range A B). lra. }
  intros A B Hlon Hapart HA HB.
  assert (Hlat : snd A <> snd B).
  { intros Heq. rewrite Heq in Hapart.
    replace (snd B - snd B) with 0 in Hapart by ring.
    rewrite Rabs_R0 in Hapart. lra. }
  destruct (Rlt_dec (snd A) (snd B)) as [Hlt | Hge].
  - destruct (azimuth_meridian_north A B Hlon HA HB Hlt) as [H1 H2].
    rewrite H1, H2. unfold reciprocalBearing.
    destruct (Rlt_dec (0 + 180) 360); lra.
  - assert (Hlt : snd B < snd A) by lra.
    destruct (azimuth_meridian_north B A (eq_sym Hlon) HB HA Hlt) as [H1 H2].
    rewrite H1, H2. unfold reciprocalBearing.
    destruct (Rlt_dec (180 + 180) 360); lra.
Qed.

Lemma calculateAzimuth_meridian_witness :
  0 <= calculateAzimuth (10, 20) (10, 50) <= 360 /\
  calculateAzimuth (10, 50) (10, 20) =
    reciprocalBearing (calculateAzimuth (10, 20) (10, 50)).
Proof.
  destruct calculateAzimuth_range_and_meridian_reciprocal as [Hrange Hrec].
  split.
  - apply Hrange.
  - apply Hrec; unfold notAtPole; cbn [fst snd]; try lra.
    unfold Rabs. destruct (Rcase_abs (20 - 50)); lra.
Defined.

End Azimuth.

(* ===================================================================== *)
(** ** Drawing session *)
(* ===================================================================== *)

Section DrawingFacts.

Import JSMath Geometry DrawingSession.
Local Open Scope R_scope.

(** For a positive base, [Math.pow] is the real power function. *)
Lemma Math_pow_pos_base (b e : R) : 0 < b -> Math_pow b e = Rpower b e.
Proof.
  intros Hb. unfold Math_pow.
  destruct (Req_dec_T (IZR (Int_part e)) e) as [Hint | _]; [| reflexivity].
  rewrite powerRZ_Rpower by exact Hb. rewrite Hint. reflexivity.
Qed.

(** The planar distance of the click handler, written out. *)
Lemma distanceInDegrees_eq (c v : Coord R) :
  distanceInDegrees c v =
  sqrt ((fst c - fst v) * (fst c - fst v) + (snd c - snd v) * (snd c - snd v)).
Proof. unfold distanceInDegrees, Math_sqrt. rewrite !Math_pow_2. reflexivity. Qed.

(** The tolerance of the click handler, written out. *)
Lemma tolerance_eq (vs : ViewState R) :
  tolerance vs = 0.05 * Rmax 0.1 (1 / Rpower 2 (zoom vs - 5)).
Proof.
  unfold tolerance, Math_max. rewrite Math_pow_pos_base by lra. reflexivity.
Qed.

(** The tolerance depends on the zoom alone. *)
Lemma tolerance_zoom (vs vs' : ViewState R) :
  zoom vs = zoom vs' -> tolerance vs = tolerance vs'.
Proof. intros Hz. unfold tolerance. rewrite Hz. reflexivity. Qed.


(** The closing branch of a polygon session. *)
Lemma polygonBranch_close (now : nat) (held : ViewState R) (st : AppState R)
    (c v0 v1 : Coord R) (rest : list (Coord R)) :
  drawingPoints st = v0 :: v1 :: rest ->
  distanceInDegrees c v0 < tolerance held ->
  polygonBranch now held c st =
    setDrawMode ModeNone
      (setDrawingPoints []
         (appendLayer
            (mkLayer (fst (generateLayerId now st)) (layerName "Polygon" st) polygon
               [mkItem None (Some ((v0 :: v1 :: rest) ++ [c; v0])) None None]
               "#00ff00" "mdi:vector-square" true None None None None None
               (Some "drawn"%string))
            (snd (generateLayerId now st)))).
Proof.
  intros Hpts Hlt. unfold polygonBranch. rewrite Hpts.
  destruct (Rlt_dec (distanceInDegrees c v0) (tolerance held)) as [_ | Hn];
    [| contradiction].
  cbn [generateLayerId fst snd firstOf hd app]. unfold polygonItem.
  rewrite <- app_assoc. reflexivity.
Qed.

(** The closing branch of an area session. *)
Lemma areaBranch_close (now : nat) (held : ViewState R) (st : AppState R)
    (c v0 v1 : Coord R) (rest : list (Coord R)) :
  drawingPoints st = v0 :: v1 :: rest ->
  distanceInDegrees c v0 < tolerance held ->
  areaBranch now held c st =
    setDrawMode ModeNone
      (setDrawingPoints []
         (appendLayer
            (mkLayer (fst (generateLayerId now st)) (layerName "Area" st) area
               [mkItem None (Some ((v0 :: v1 :: rest) ++ [c; v0])) None None]
               "#00ffff" "mdi:vector-square" true None
               (Some (mkMeasurement
                        (calculatePolygonArea ((v0 :: v1 :: rest) ++ [c; v0]))
                        2 " km²"%string))
               None None None None)
            (snd (generateLayerId now st)))).
Proof.
  intros Hpts Hlt. unfold areaBranch. rewrite Hpts.
  destruct (Rlt_dec (distanceInDegrees c v0) (tolerance held)) as [_ | Hn];
    [| contradiction].
  cbn [generateLayerId fst snd firstOf hd app]. unfold polygonItem.
  rewrite <- app_assoc. reflexivity.
Qed.

(** The appending branch of both sessions. *)
Lemma polygonBranch_append (now : nat) (held : ViewState R) (st : AppState R)
    (c v0 v1 : Coord R) (rest : list (Coord R)) :
  drawingPoints st = v0 :: v1 :: rest ->
  tolerance held <= distanceInDegrees c v0 ->
  polygonBranch now held c st = setDrawingPoints ((v0 :: v1 :: rest) ++ [c]) st /\
  areaBranch now held c st = setDrawingPoints ((v0 :: v1 :: rest) ++ [c]) st.
Proof.
  intros Hpts Hge. unfold polygonBranch, areaBranch. rewrite Hpts.
  destruct (Rlt_dec (distanceInDegrees c v0) (tolerance held)) as [Hlt | _];
    [lra |].
  split; reflexivity.
Qed.

(** C2, amended.  In polygon or area mode with at least two accumulated
    vertices, and with the viewport at the zoom that the click handler
    holds (no zoom change since the handler was created), a click whose
    planar distance to [vertices[0]] is below
    [0.05 * max(0.1, 1 / 2^(zoom - 5))] commits a layer of the mode's kind
    with a single item, whose [polygon] property is the accumulated
    vertices, then the click itself, then [vertices[0]], and resets the
    vertices and the mode (an area layer also carries the area of that
    ring); a click at or beyond the tolerance appends the click as a vertex
    and changes neither mode nor layers. *)
Theorem polygon_click_closes_or_appends (now : nat) (held : ViewState R)
    (st : AppState R) (c v0 v1 : Coord R) (rest : list (Coord R)) :
  drawMode st = ModePolygon \/ drawMode st = ModeArea ->
  drawingPoints st = v0 :: v1 :: rest ->
  zoom held = zoom (viewState st) ->
  let vertices := v0 :: v1 :: rest in
  let dist :=
    sqrt ((fst c - fst v0) * (fst c - fst v0) + (snd c - snd v0) * (snd c - snd v0)) in
  let tol := 0.05 * Rmax 0.1 (1 / Rpower 2 (zoom (viewState st) - 5)) in
  exists st',
    handleMapClick now held st (clickAt c) = Ok st' /\
    (dist < tol ->
       exists l item,
         layers st' = layers st ++ [l] /\
         data l = [item] /\
         polygon_ item = Some (vertices ++ [c; v0]) /\
         position item = None /\
         path item = None /\
         (drawMode st = ModePolygon -> type l = polygon /\ measurement l = None) /\
         (drawMode st = ModeArea ->
            type l = area /\
            measurement l =
              Some (mkMeasurement (calculatePolygonArea (vertices ++ [c; v0]))
                      2 " km²"%string)) /\
         drawingPoints st' = [] /\
         drawMode st' = ModeNone) /\
    (tol <= dist ->
       layers st' = layers st /\
       drawingPoints st' = vertices ++ [c] /\
       drawMode st' = drawMode st).
Proof.
  intros Hmode Hpts Hzoom vertices dist tol.
  assert (Hdist : distanceInDegrees c v0 = dist) by apply distanceInDegrees_eq.
  assert (Htol : tolerance held = tol).
  { rewrite tolerance_eq, Hzoom. reflexivity. }
  destruct (Rlt_dec dist tol) as [Hlt | Hge].
  - (* the click closes the ring *)
    destruct Hmode as [Hm | Hm].
    + eexists. split.
      * unfold handleMapClick. rewrite Hm. cbn [coordinate clickAt].
        rewrite (polygonBranch_close now held st c v0 v1 rest Hpts) by lra.
        reflexivity.
      * split; [| intros Hle; lra].
        intros _. eexists. eexists.
        split; [cbn; reflexivity |].
        split; [cbn; reflexivity |].
        cbn [polygon_ position path].
        split; [reflexivity |]. split; [reflexivity |]. split; [reflexivity |].
        cbn.
        split; [intros _; split; reflexivity |].
        split; [intros Hm'; rewrite Hm in Hm'; discriminate |].
        split; reflexivity.
    + eexists. split.
      * unfold handleMapClick. rewrite Hm. cbn [coordinate clickAt].
        rewrite (areaBranch_close now held st c v0 v1 rest Hpts) by lra.
        reflexivity.
      * split; [| intros Hle; lra].
        intros _. eexists. eexists.
        split; [cbn; reflexivity |].
        split; [cbn; reflexivity |].
        cbn [polygon_ position path].
        split; [reflexivity |]. split; [reflexivity |]. split; [reflexivity |].
        cbn.
        split; [intros Hm'; rewrite Hm in Hm'; discriminate |].
        split; [intros _; split; reflexivity |].
        split; reflexivity.
  - (* the click is a new vertex *)
    assert (Hge' : tolerance held <= distanceInDegrees c v0) by lra.
    destruct (polygonBranch_append now held st c v0 v1 rest Hpts Hge') as [Hp Ha].
    exists (setDrawingPoints (vertices ++ [c]) st). split.
    + unfold handleMapClick.
      destruct Hmode as [Hm | Hm]; rewrite Hm; cbn [coordinate clickAt];
        [rewrite Hp | rewrite Ha]; reflexivity.
    + split; [intros Hlt; lra |].
      intros _. cbn. repeat split; reflexivity.
Qed.

(** The click used in the examples: one hundredth of a degree east of the
    first vertex, at zoom 5. *)
Lemma near_origin_within_tolerance :
  sqrt ((0.01 - 0) * (0.01 - 0) + (0 - 0) * (0 - 0)) <
  0.05 * Rmax 0.1 (1 / Rpower 2 (5 - 5)).
Proof.
  replace (5 - 5) with 0 by ring.
  rewrite Rpower_O by lra.
  replace (1 / 1) with 1 by field.
  rewrite Rmax_right by lra.
  replace ((0.01 - 0) * (0.01 - 0) + (0 - 0) * (0 - 0)) with (0.01 * 0.01) by ring.
  rewrite sqrt_square by lra. lra.
Qed.

Lemma polygon_click_witness :
  exists st',
    handleMapClick 0 initialView (twoVertexSession ModePolygon)
      (clickAt (0.01, 0)) = Ok st' /\
    (exists l item,
        layers st' = [l] /\
        data l = [item] /\
        polygon_ item = Some [(0, 0); (1, 0); (0.01, 0); (0, 0)] /\
        type l = polygon) /\
    drawingPoints st' = [] /\
    drawMode st' = ModeNone.
Proof.
  destruct (polygon_click_closes_or_appends 0 initialView
              (twoVertexSession ModePolygon)
              (0.01, 0) (0, 0) (1, 0) [] (or_introl eq_refl) eq_refl eq_refl)
    as [st' [Hrun [Hclose _]]].
  exists st'. split; [exact Hrun |].
  destruct (Hclose near_origin_within_tolerance)
    as [l [item [Hlayers [Hdata [Hring [_ [_ [Hpoly [_ [Hpts Hmode]]]]]]]]]].
  split; [| split; assumption].
  exists l, item. split; [exact Hlayers |]. split; [exact Hdata |].
  split; [exact Hring |].
  apply Hpoly. reflexivity.
Defined.

(** C2, as stated, fails on the ring.  With vertices (0, 0), (1, 0) and a
    closing click at (0.01, 0), within the tolerance 0.05 of zoom 5 (the
    zoom of the viewport and of the handler), the committed ring has four
    points and contains the click; the ring of the specification,
    [vertices + [vertices[0]]], has three. *)
Lemma polygon_close_ring_counterexample :
  exists st' l item,
    handleMapClick 0 initialView (twoVertexSession ModePolygon)
      (clickAt (0.01, 0)) = Ok st' /\
    layers st' = [l] /\
    data l = [item] /\
    polygon_ item = Some [(0, 0); (1, 0); (0.01, 0); (0, 0)] /\
    polygon_ item <> Some ([(0, 0); (1, 0)] ++ [(0, 0)]).
Proof.
  assert (Hlt : distanceInDegrees (0.01, 0) (0, 0) < tolerance initialView).
  { rewrite distanceInDegrees_eq, tolerance_eq.
    exact near_origin_within_tolerance. }
  eexists. eexists. eexists. split.
  - unfold handleMapClick. cbn [drawMode twoVertexSession setDrawingPoints
                                initialState coordinate clickAt].
    rewrite (polygonBranch_close 0 initialView (twoVertexSession ModePolygon)
               (0.01, 0) (0, 0) (1, 0) [] eq_refl Hlt).
    reflexivity.
  - cbn. split; [reflexivity |]. split; [reflexivity |].
    split; [reflexivity |].
    intros Heq. injection Heq as Heq. lra.
Qed.





(** In sector mode a click with a coordinate runs [sectorBranch]. *)
Lemma handleMapClick_sector (now : nat) (held : ViewState R) (st : AppState R)
    (c : Coord R) :
  drawMode st = ModeSector ->
  handleMapClick now held st (clickAt c) = Ok (sectorBranch now c st).
Proof. intros Hm. unfold handleMapClick. rewrite Hm. reflexivity. Qed.

(** The four arms of [sectorBranch]. *)
Lemma sectorBranch_center (now : nat) (st : AppState R) (c : Coord R) :
  sectorCenter st = None ->
  sectorBranch now c st = setSectorCenter (Some c) st.
Proof. intros Hc. unfold sectorBranch. rewrite Hc. reflexivity. Qed.

Lemma sectorBranch_radius (now : nat) (st : AppState R) (c center : Coord R) :
  sectorCenter st = Some center ->
  sectorRadius st = 0 ->
  sectorBranch now c st = setSectorRadius (planarDistance c center) st.
Proof.
  intros Hc Hr. unfold sectorBranch. rewrite Hc.
  destruct (Req_dec_T (sectorRadius st) 0) as [_ | Hn]; [| contradiction].
  unfold planarDistance, Math_sqrt. rewrite !Math_pow_2. reflexivity.
Qed.

Lemma sectorBranch_startAngle (now : nat) (st : AppState R) (c center : Coord R) :
  sectorCenter st = Some center ->
  sectorRadius st <> 0 ->
  sectorStartAngle st = 0 ->
  sectorBranch now c st = setSectorStartAngle (clickAngle c center) st.
Proof.
  intros Hc Hr Ha. unfold sectorBranch. rewrite Hc.
  destruct (Req_dec_T (sectorRadius st) 0) as [H0 | _]; [contradiction |].
  destruct (Req_dec_T (sectorStartAngle st) 0) as [_ | Hn]; [| contradiction].
  reflexivity.
Qed.

Lemma sectorBranch_commit (now : nat) (st : AppState R) (c center : Coord R) :
  sectorCenter st = Some center ->
  sectorRadius st <> 0 ->
  sectorStartAngle st <> 0 ->
  sectorBranch now c st =
    setDrawMode ModeNone
      (setSectorStartAngle 0
         (setSectorRadius 0
            (setSectorCenter None
               (appendLayer
                  (mkLayer (fst (generateLayerId now st)) (layerName "Sector" st) sector
                     [polygonItem
                        (createSectorPolygon center (sectorRadius st)
                           (sectorStartAngle st) (clickAngle c center))]
                     "#ff8800" "mdi:pie-chart" true None
                     (Some (mkMeasurement
                              (Rabs (((clickAngle c center - sectorStartAngle st) * 180) / PI))
                              1 "°"%string))
                     None None None None)
                  (snd (generateLayerId now st)))))).
Proof.
  intros Hc Hr Ha. unfold sectorBranch. rewrite Hc.
  destruct (Req_dec_T (sectorRadius st) 0) as [H0 | _]; [contradiction |].
  destruct (Req_dec_T (sectorStartAngle st) 0) as [H0 | _]; [contradiction |].
  reflexivity.
Qed.

(** The protocol away from the two sentinels: in a fresh sector session,
    four clicks advance the session one step each (centre, radius, start
    angle) and the fourth commits a sector layer whose measurement is the
    absolute unwrapped difference of the two angles in degrees, then resets
    the sector fields and the mode, when the radius and the start angle
    that the second and third click produce are not 0. *)
Lemma sector_four_clicks (now : nat) (held : ViewState R) (st : AppState R)
    (c1 c2 c3 c4 : Coord R) :
  drawMode st = ModeSector ->
  sectorCenter st = None ->
  sectorRadius st = 0 ->
  sectorStartAngle st = 0 ->
  planarDistance c2 c1 <> 0 ->
  clickAngle c3 c1 <> 0 ->
  exists st4 l item,
    handleMapClicks now held st
      [clickAt c1; clickAt c2; clickAt c3; clickAt c4] = Ok st4 /\
    layers st4 = layers st ++ [l] /\
    type l = sector /\
    data l = [item] /\
    polygon_ item =
      Some (createSectorPolygon c1 (planarDistance c2 c1)
              (clickAngle c3 c1) (clickAngle c4 c1)) /\
    measurement l =
      Some (mkMeasurement
              (Rabs ((clickAngle c4 c1 - clickAngle c3 c1) * 180 / PI))
              1 "°"%string) /\
    sectorCenter st4 = None /\
    sectorRadius st4 = 0 /\
    sectorStartAngle st4 = 0 /\
    drawMode st4 = ModeNone.
Proof.
  intros Hmode Hcenter Hradius Hangle Hr Ha.
  set (st1 := setSectorCenter (Some c1) st).
  set (st2 := setSectorRadius (planarDistance c2 c1) st1).
  set (st3 := setSectorStartAngle (clickAngle c3 c1) st2).
  eexists. eexists. eexists. split.
  { cbn [handleMapClicks].
    rewrite (handleMapClick_sector now _ st c1 Hmode).
    rewrite (sectorBranch_center now st c1 Hcenter). cbn [bind]. fold st1.
    rewrite (handleMapClick_sector now _ st1 c2 Hmode).
    rewrite (sectorBranch_radius now st1 c2 c1 eq_refl Hradius). cbn [bind].
    fold st2.
    rewrite (handleMapClick_sector now _ st2 c3 Hmode).
    rewrite (sectorBranch_startAngle now st2 c3 c1 eq_refl Hr Hangle).
    cbn [bind]. fold st3.
    rewrite (handleMapClick_sector now _ st3 c4 Hmode).
    rewrite (sectorBranch_commit now st3 c4 c1 eq_refl Hr Ha). cbn [bind].
    reflexivity. }
  cbn. repeat split; reflexivity.
Qed.

Lemma planarDistance_east : planarDistance (1, 0) (0, 0) = 1.
Proof.
  unfold planarDistance. cbn [fst snd].
  replace ((1 - 0) * (1 - 0) + (0 - 0) * (0 - 0)) with 1 by ring.
  apply sqrt_1.
Qed.

Lemma clickAngle_north : clickAngle (0, 1) (0, 0) = PI / 2.
Proof.
  unfold clickAngle. cbn [fst snd].
  replace (0 - 0) with 0 by ring. replace (1 - 0) with 1 by ring.
  apply Math_atan2_north. lra.
Qed.

Lemma clickAngle_east : clickAngle (1, 0) (0, 0) = 0.
Proof.
  unfold clickAngle. cbn [fst snd].
  replace (0 - 0) with 0 by ring. replace (1 - 0) with 1 by ring.
  apply Math_atan2_east. lra.
Qed.

(** A click due east of the centre has angle 0. *)
Lemma clickAngle_due_east (c center : Coord R) :
  snd c = snd center -> fst center < fst c -> clickAngle c center = 0.
Proof.
  intros Hlat Hlng. unfold clickAngle. rewrite Hlat.
  replace (snd center - snd center) with 0 by ring.
  apply Math_atan2_east. lra.
Qed.

(** C3.  The code breaks the four-click protocol.  In a fresh sector
    session (no centre, radius 0, start angle 0) with a second click off
    the centre, a third click due east of the centre computes the start
    angle 0, which is the value the handler tests to see whether the start
    angle "is not yet set": the session does not advance, the fourth click
    is handled by the third step again (it stores its own angle as start
    angle), no sector layer is committed, and the session is still in
    sector mode with its centre and radius. *)
Theorem sector_third_click_due_east_stalls (now : nat) (held : ViewState R)
    (st : AppState R) (c1 c2 c3 c4 : Coord R) :
  drawMode st = ModeSector ->
  sectorCenter st = None ->
  sectorRadius st = 0 ->
  sectorStartAngle st = 0 ->
  planarDistance c2 c1 <> 0 ->
  snd c3 = snd c1 ->
  fst c1 < fst c3 ->
  exists st3 st4,
    handleMapClicks now held st [clickAt c1; clickAt c2; clickAt c3] = Ok st3 /\
    sectorStartAngle st3 = 0 /\
    handleMapClicks now held st
      [clickAt c1; clickAt c2; clickAt c3; clickAt c4] = Ok st4 /\
    layers st4 = layers st /\
    drawMode st4 = ModeSector /\
    sectorCenter st4 = Some c1 /\
    sectorRadius st4 = planarDistance c2 c1 /\
    sectorStartAngle st4 = clickAngle c4 c1.
Proof.
  intros Hmode Hcenter Hradius Hangle Hr Hlat Hlng.
  pose proof (clickAngle_due_east c3 c1 Hlat Hlng) as Heast.
  set (st1 := setSectorCenter (Some c1) st).
  set (st2 := setSectorRadius (planarDistance c2 c1) st1).
  set (st3 := setSectorStartAngle 0 st2).
  set (st4 := setSectorStartAngle (clickAngle c4 c1) st3).
  assert (H3 : handleMapClicks now held st [clickAt c1; clickAt c2; clickAt c3]
               = Ok st3).
  { cbn [handleMapClicks].
    rewrite (handleMapClick_sector now _ st c1 Hmode).
    rewrite (sectorBranch_center now st c1 Hcenter). cbn [bind]. fold st1.
    rewrite (handleMapClick_sector now _ st1 c2 Hmode).
    rewrite (sectorBranch_radius now st1 c2 c1 eq_refl Hradius). cbn [bind].
    fold st2.
    rewrite (handleMapClick_sector now _ st2 c3 Hmode).
    rewrite (sectorBranch_startAngle now st2 c3 c1 eq_refl Hr Hangle).
    rewrite Heast. reflexivity. }
  exists st3, st4. split; [exact H3 |]. split; [reflexivity |]. split.
  { cbn [handleMapClicks].
    rewrite (handleMapClick_sector now _ st c1 Hmode).
    rewrite (sectorBranch_center now st c1 Hcenter). cbn [bind]. fold st1.
    rewrite (handleMapClick_sector now _ st1 c2 Hmode).
    rewrite (sectorBranch_radius now st1 c2 c1 eq_refl Hradius). cbn [bind].
    fold st2.
    rewrite (handleMapClick_sector now _ st2 c3 Hmode).
    rewrite (sectorBranch_startAngle now st2 c3 c1 eq_refl Hr Hangle).
    rewrite Heast. cbn [bind]. fold st3.
    rewrite (handleMapClick_sector now _ st3 c4 Hmode).
    rewrite (sectorBranch_startAngle now st3 c4 c1 eq_refl Hr eq_refl).
    reflexivity. }
  cbn. split; [reflexivity |]. split; [exact Hmode |].
  repeat split; reflexivity.
Qed.

(** Centre (0, 0), radius click (1, 0), a third click again at (1, 0), due
    east of the centre, and a fourth click at (0, 1): after the four clicks
    no layer is committed, and the start angle is the angle PI / 2 of the
    fourth click. *)
Lemma sector_due_east_witness :
  exists st4,
    handleMapClicks 0 initialView sectorSession
      [clickAt (0, 0); clickAt (1, 0); clickAt (1, 0); clickAt (0, 1)] = Ok st4 /\
    layers st4 = [] /\
    drawMode st4 = ModeSector /\
    sectorCenter st4 = Some (0, 0) /\
    sectorRadius st4 = 1 /\
    sectorStartAngle st4 = PI / 2.
Proof.
  assert (Hr : planarDistance (1, 0) (0, 0) <> 0)
    by (rewrite planarDistance_east; lra).
  assert (Hlng : fst (0, 0) < fst (1, 0)) by (cbn [fst]; lra).
  destruct (sector_third_click_due_east_stalls 0 initialView sectorSession
              (0, 0) (1, 0) (1, 0) (0, 1)
              eq_refl eq_refl eq_refl eq_refl Hr eq_refl Hlng)
    as (st3 & st4 & _ & _ & Hrun & Hl & Hm & Hc & Hrad & Ha).
  exists st4. split; [exact Hrun |].
  split; [exact Hl |]. split; [exact Hm |]. split; [exact Hc |].
  split; [rewrite Hrad; exact planarDistance_east |].
  rewrite Ha. exact clickAngle_north.
Defined.

End DrawingFacts.

(* ===================================================================== *)
(** ** Drag-translate *)
(* ===================================================================== *)

Section DragFacts.

Import DragTranslate.
Local Open Scope R_scope.

(** The copy taken at the start of the gesture equals the data copied. *)
Lemma deepCopy_id (items : list (Item R)) : deepCopy items = items.
Proof.
  unfold deepCopy. induction items as [| item items IH]; simpl.
  - reflexivity.
  - rewrite IH. destruct item; reflexivity.
Qed.

(** On an item that carries the geometry of the layer type, the callback of
    [handleDrag] returns the displaced item. *)
Lemma shiftItem_translate (ty : LayerType) (dLng dLat : R) (item : Item R) :
  hasGeometry ty item = true ->
  shiftItem ty dLng dLat item = Ok (translateItem ty dLng dLat item).
Proof.
  unfold hasGeometry, shiftItem, translateItem.
  destruct ty, item as [[p |] [ring |] [pts |] nd]; cbn;
    intros H; try discriminate; reflexivity.
Qed.

Lemma mapM_shiftItem (ty : LayerType) (dLng dLat : R) (snapshot : list (Item R)) :
  forallb (hasGeometry ty) snapshot = true ->
  mapM (shiftItem ty dLng dLat) snapshot =
    Ok (map (translateItem ty dLng dLat) snapshot).
Proof.
  induction snapshot as [| item rest IH]; cbn; intros H.
  - reflexivity.
  - apply Bool.andb_true_iff in H as [Hitem Hrest].
    rewrite (shiftItem_translate ty dLng dLat item Hitem). cbn.
    rewrite (IH Hrest). reflexivity.
Qed.

Section Gesture.

Variable layerId : string.
Variable snapshot : list (Item R).
Variable start : Coord R.

Lemma dragged_cons (c : Coord R) (l : Layer R) (ls : list (Layer R)) :
  map (dragged layerId snapshot start c) (l :: ls) =
  (if String.eqb (id l) layerId then
     withData l (map (translateItem (type l) (fst c - fst start) (snd c - snd start))
                     snapshot)
   else l) :: map (dragged layerId snapshot start c) ls.
Proof. reflexivity. Qed.

Lemma dragUpdater_dragged (c : Coord R) (ls : list (Layer R)) :
  fits layerId snapshot ls ->
  dragUpdater layerId snapshot (fst c - fst start) (snd c - snd start) ls =
    Ok (map (dragged layerId snapshot start c) ls).
Proof.
  unfold dragUpdater, fits.
  induction ls as [| l rest IH]; intros Hfits.
  - reflexivity.
  - rewrite dragged_cons. cbn [mapM].
    rewrite IH by (intros l' Hin; apply Hfits; right; exact Hin).
    destruct (String.eqb (id l) layerId) eqn:Heq.
    + apply String.eqb_eq in Heq.
      rewrite mapM_shiftItem by (apply Hfits; [left; reflexivity | exact Heq]).
      reflexivity.
    + reflexivity.
Qed.

(** Without a layer of the dragged id, displacing changes nothing. *)
Lemma dragged_absent (c : Coord R) (ls : list (Layer R)) :
  findLayer layerId ls = None ->
  map (dragged layerId snapshot start c) ls = ls.
Proof.
  unfold findLayer, find_first.
  induction ls as [| l rest IH]; intros Hfind.
  - reflexivity.
  - rewrite dragged_cons. cbn [find] in Hfind.
    destruct (String.eqb (id l) layerId); [discriminate |].
    rewrite (IH Hfind). reflexivity.
Qed.

(** Displacing a displaced list is displacing the list: the second
    displacement starts from the snapshot again. *)
Lemma dragged_dragged (c c' : Coord R) (ls : list (Layer R)) :
  map (dragged layerId snapshot start c') (map (dragged layerId snapshot start c) ls) =
  map (dragged layerId snapshot start c') ls.
Proof.
  rewrite map_map. apply map_ext. intros l.
  unfold dragged.
  destruct (String.eqb (id l) layerId) eqn:Heq; cbn; rewrite Heq; reflexivity.
Qed.

Lemma fits_dragged (c : Coord R) (ls : list (Layer R)) :
  fits layerId snapshot ls ->
  fits layerId snapshot (map (dragged layerId snapshot start c) ls).
Proof.
  unfold fits. intros Hfits l' Hin Hid.
  apply in_map_iff in Hin as [l [Hl Hin]]. subst l'.
  unfold dragged in *.
  destruct (String.eqb (id l) layerId) eqn:Heq; cbn in *; apply (Hfits l Hin).
  - apply String.eqb_eq. exact Heq.
  - exact Hid.
Qed.

(** One move event of a gesture. *)
Lemma handleDrag_step (st : AppState R) (c : Coord R) :
  gestureOf layerId snapshot start st -> fits layerId snapshot (layers st) ->
  handleDrag st (moveTo c) =
    Ok (setLayers (fun _ => map (dragged layerId snapshot start c) (layers st)) st).
Proof.
  intros (Hdrag & Hid & Hstart & Hsnap) Hfits.
  unfold handleDrag. rewrite Hdrag, Hid, Hstart, Hsnap. cbn [coordinate moveTo].
  destruct (findLayer layerId (layers st)) eqn:Hfind.
  - rewrite (dragUpdater_dragged c (layers st) Hfits). reflexivity.
  - rewrite (dragged_absent c (layers st) Hfind).
    destruct st; reflexivity.
Qed.

(** After any sequence of move events the gesture is still in progress and
    the layers are those of the start or those displaced to the last
    position. *)
Lemma handleDrags_steps (moves : list (Coord R)) (st : AppState R) :
  gestureOf layerId snapshot start st -> fits layerId snapshot (layers st) ->
  exists st1,
    handleDrags st (map moveTo moves) = Ok st1 /\
    gestureOf layerId snapshot start st1 /\
    (layers st1 = layers st \/
     exists c, layers st1 = map (dragged layerId snapshot start c) (layers st)).
Proof.
  revert st. induction moves as [| c rest IH]; intros st Hg Hfits; cbn.
  - exists st. repeat split; try apply Hg. left. reflexivity.
  - rewrite (handleDrag_step st c Hg Hfits). cbn [bind].
    set (st' := setLayers _ st).
    assert (Hg' : gestureOf layerId snapshot start st') by exact Hg.
    assert (Hfits' : fits layerId snapshot (layers st'))
      by (apply fits_dragged; exact Hfits).
    destruct (IH st' Hg' Hfits') as (st1 & Hrun & Hg1 & Hlayers).
    exists st1. split; [exact Hrun |]. split; [exact Hg1 |].
    right. destruct Hlayers as [Hsame | [c' Hc']].
    + exists c. rewrite Hsame. reflexivity.
    + exists c'. rewrite Hc'. cbn. apply dragged_dragged.
Qed.

End Gesture.

(** What [handleDragStart] records for a press on a drawn layer. *)
Lemma handleDragStart_records (st : AppState R) (layerId : string) (l : Layer R)
    (start : Coord R) :
  drawMode st = ModeNone ->
  findLayer layerId (layers st) = Some l ->
  isUploaded_truthy l = false ->
  handleDragStart st (pressOn layerId start) =
    Ok (setDrag true (Some layerId) (Some start) (Some (data l)) st).
Proof.
  intros Hmode Hfind Hup. unfold handleDragStart.
  rewrite Hmode. cbn [object layer pressOn coordinate].
  rewrite Hfind, Hup, deepCopy_id. reflexivity.
Qed.

(** C6.  A gesture that starts on a drawn layer records a snapshot of its
    geometry and the start coordinate.  Whatever move events precede it, a
    move to [current] leaves every layer with the dragged id with the
    snapshot displaced by [current - start] (each coordinate of the
    geometry property of each item of the snapshot moved by that delta,
    the other properties of the layer kept) and every other layer as it
    was at the start; handling the same move event once more gives the
    very same state. *)
Theorem drag_translate_from_snapshot (st0 : AppState R) (layerId : string)
    (l : Layer R) (start current : Coord R) (moves : list (Coord R)) :
  drawMode st0 = ModeNone ->
  layerId <> ""%string ->
  findLayer layerId (layers st0) = Some l ->
  isUploaded_truthy l = false ->
  fits layerId (data l) (layers st0) ->
  let dLng := fst current - fst start in
  let dLat := snd current - snd start in
  let move := fun p : Coord R => (fst p + dLng, snd p + dLat) in
  exists st st1 st2,
    handleDragStart st0 (pressOn layerId start) = Ok st /\
    originalLayerData st = Some (data l) /\
    dragStartPosition st = Some start /\
    handleDrags st (map moveTo moves) = Ok st1 /\
    handleDrag st1 (moveTo current) = Ok st2 /\
    handleDrag st2 (moveTo current) = Ok st2 /\
    List.length (layers st2) = List.length (layers st0) /\
    (forall (i : nat) (l0 : Layer R),
        nth_error (layers st0) i = Some l0 ->
        exists l2,
          nth_error (layers st2) i = Some l2 /\
          (id l0 <> layerId -> l2 = l0) /\
          (id l0 = layerId ->
           id l2 = id l0 /\ type l2 = type l0 /\ name l2 = name l0 /\
           color l2 = color l0 /\ visible l2 = visible l0 /\
           List.length (data l2) = List.length (data l) /\
           forall (k : nat) (item : Item R),
             nth_error (data l) k = Some item ->
             exists item2,
               nth_error (data l2) k = Some item2 /\
               match type l0 with
               | point =>
                   position item2 = option_map move (position item) /\
                   polygon_ item2 = polygon_ item /\ path item2 = path item
               | polygon | sector | area =>
                   polygon_ item2 = option_map (map move) (polygon_ item) /\
                   position item2 = position item /\ path item2 = path item
               | line | distance | azimuth =>
                   path item2 = option_map (map move) (path item) /\
                   position item2 = position item /\
                   polygon_ item2 = polygon_ item
               end)) /\
    layers st2 = map (dragged layerId (data l) start current) (layers st0).
Proof.
  intros Hmode Hne Hfind Hup Hfits dLng dLat move.
  set (st := setDrag true (Some layerId) (Some start) (Some (data l)) st0).
  assert (Hg : gestureOf layerId (data l) start st).
  { unfold gestureOf. cbn. repeat split.
    destruct (String.eqb layerId "") eqn:Heq; [| reflexivity].
    apply String.eqb_eq in Heq. contradiction. }
  assert (Hfits0 : fits layerId (data l) (layers st)) by exact Hfits.
  destruct (handleDrags_steps layerId (data l) start moves st Hg Hfits0)
    as (st1 & Hrun & Hg1 & Hlayers1).
  assert (Hfits1 : fits layerId (data l) (layers st1)).
  { destruct Hlayers1 as [Hsame | [c Hc]].
    - rewrite Hsame. exact Hfits0.
    - rewrite Hc. apply fits_dragged. exact Hfits0. }
  set (st2 := setLayers
                (fun _ => map (dragged layerId (data l) start current) (layers st1)) st1).
  assert (Hg2 : gestureOf layerId (data l) start st2) by exact Hg1.
  assert (Hfits2 : fits layerId (data l) (layers st2))
    by (apply fits_dragged; exact Hfits1).
  assert (Hlayers2 :
            layers st2 = map (dragged layerId (data l) start current) (layers st0)).
  { cbn. destruct Hlayers1 as [Hsame | [c Hc]].
    - rewrite Hsame. reflexivity.
    - rewrite Hc. apply dragged_dragged. }
  exists st, st1, st2.
  split; [apply handleDragStart_records; assumption |].
  split; [reflexivity |]. split; [reflexivity |].
  split; [exact Hrun |].
  split; [apply handleDrag_step; assumption |].
  split.
  { rewrite (handleDrag_step layerId (data l) start st2 current Hg2 Hfits2).
    unfold st2. cbn. rewrite dragged_dragged. reflexivity. }
  split; [rewrite Hlayers2; apply length_map |].
  split; [| exact Hlayers2].
  intros i l0 Hi. rewrite Hlayers2, nth_error_map, Hi. cbn [option_map].
  eexists. split; [reflexivity |]. unfold dragged. split.
  - intros Hid. destruct (String.eqb (id l0) layerId) eqn:Heq; [| reflexivity].
    apply String.eqb_eq in Heq. contradiction.
  - intros Hid. apply String.eqb_eq in Hid. rewrite Hid.
    cbn [id type name color visible data].
    repeat (split; [reflexivity |]).
    split; [apply length_map |].
    intros k item Hk. rewrite nth_error_map, Hk. cbn [option_map].
    eexists. split; [reflexivity |].
    unfold translateItem.
    destruct (type l0); cbn [position polygon_ path];
      repeat split; reflexivity.
Qed.

Lemma drag_translate_witness :
  exists st st1 st2,
    handleDragStart twoPointStore (pressOn "layer-0-0" (0, 0)) = Ok st /\
    handleDrags st (map moveTo [(5, 5); (7, 1)]) = Ok st1 /\
    handleDrag st1 (moveTo (1, 1)) = Ok st2 /\
    handleDrag st2 (moveTo (1, 1)) = Ok st2 /\
    exists l2 item2,
      nth_error (layers st2) 0 = Some l2 /\
      nth_error (data l2) 1 = Some item2 /\
      position item2 = Some (3 + (1 - 0), 4 + (1 - 0)).
Proof.
  destruct (drag_translate_from_snapshot twoPointStore "layer-0-0" twoPointLayer
              (0, 0) (1, 1) [(5, 5); (7, 1)])
    as (st & st1 & st2 & Hstart & _ & _ & Hrun & Hmove & Hagain & _ & Hat & _).
  - reflexivity.
  - discriminate.
  - reflexivity.
  - reflexivity.
  - intros l [<- | []] _. reflexivity.
  - exists st, st1, st2.
    split; [exact Hstart |]. split; [exact Hrun |].
    split; [exact Hmove |]. split; [exact Hagain |].
    destruct (Hat 0%nat twoPointLayer eq_refl) as (l2 & Hl2 & _ & Hsame).
    destruct (Hsame eq_refl) as (_ & _ & _ & _ & _ & _ & Hitems).
    destruct (Hitems 1%nat (positionItem (3, 4)) eq_refl)
      as (item2 & Hitem2 & Hpos & _).
    exists l2, item2. split; [exact Hl2 |]. split; [exact Hitem2 |].
    exact Hpos.
Defined.

End DragFacts.

(* ===================================================================== *)
(** ** Live overlay *)
(* ===================================================================== *)

Section OverlayFacts.

Import LiveOverlay Render.

Variable num : Type.




End OverlayFacts.



(* ===================================================================== *)
(** ** Render list *)
(* ===================================================================== *)

Section RenderFacts.

Import LiveOverlay Render.

Variable num : Type.

(** [xs.slice(0, n)] keeps the first [n] elements. *)
Lemma slice_prefix (A : Type) (n : nat) (xs : list A) :
  slice 0 (Z.of_nat n) xs = firstn n xs.
Proof.
  unfold slice.
  replace (0 <? 0)%Z with false by reflexivity.
  assert (Hneg : (Z.of_nat n <? 0)%Z = false) by (apply Z.ltb_ge; lia).
  rewrite Hneg. rewrite (Z.min_l 0) by lia.
  cbn [Z.to_nat skipn]. rewrite Z.sub_0_r.
  destruct (Nat.le_gt_cases n (List.length xs)) as [Hle | Hgt].
  - rewrite Z.min_l by lia. rewrite Nat2Z.id. reflexivity.
  - rewrite Z.min_r by lia. rewrite Nat2Z.id.
    rewrite !firstn_all2 by lia. reflexivity.
Qed.

(** The layers that are rendered: the first 50 visible ones, in store
    order. *)
Lemma renderedLayers_firstn (ls : list (Layer num)) :
  renderedLayers ls = firstn 50 (filter (fun l => visible l) ls).
Proof. unfold renderedLayers. apply (slice_prefix _ 50). Qed.

(** The [forEach] of the user layers pushes, layer after layer, what
    [renderLayer] builds, and stops at the first exception. *)
Lemma forEach_push (rendered : list (Layer num)) (acc : list (DeckLayer num)) :
  forEach (fun acc l => pushed <- renderLayer l ;; Ok (acc ++ pushed)) rendered acc =
  (pushed <- mapM (@renderLayer num) rendered ;; Ok (acc ++ List.concat pushed)).
Proof.
  revert acc. induction rendered as [| l rest IH]; intros acc; cbn.
  - rewrite app_nil_r. reflexivity.
  - destruct (renderLayer l) as [pushed |]; cbn; [| reflexivity].
    rewrite IH.
    destruct (mapM (@renderLayer num) rest) as [more |]; cbn; [| reflexivity].
    rewrite app_assoc. reflexivity.
Qed.

(** C10.  On a render pass only the first 50 visible layers of the store,
    in store order, contribute deck.gl layers: the list handed to the
    renderer holds at most 50 layers, the user layers pushed are those that
    [renderLayer] builds for them, and once the store holds 50 visible
    layers, whatever layers follow, visible or not, change nothing in the
    render list. *)
Theorem userDeckLayers_first_50_visible (ls : list (Layer num))
    (deckSoFar : list (DeckLayer num)) :
  renderedLayers ls = firstn 50 (filter (fun l => visible l) ls) /\
  List.length (renderedLayers ls) <= 50 /\
  userDeckLayers ls deckSoFar =
    (pushed <- mapM (@renderLayer num) (firstn 50 (filter (fun l => visible l) ls)) ;;
     Ok (deckSoFar ++ List.concat pushed)) /\
  (forall more : list (Layer num),
      50 <= List.length (filter (fun l => visible l) ls) ->
      renderedLayers (ls ++ more) = renderedLayers ls /\
      userDeckLayers (ls ++ more) deckSoFar = userDeckLayers ls deckSoFar).
Proof.
  split; [apply renderedLayers_firstn |].
  split; [rewrite renderedLayers_firstn; apply firstn_le_length |].
  split.
  - unfold userDeckLayers. rewrite forEach_push, renderedLayers_firstn. reflexivity.
  - intros more Hfull.
    assert (Hsame : renderedLayers (ls ++ more) = renderedLayers ls).
    { rewrite !renderedLayers_firstn, filter_app, firstn_app.
      replace (50 - List.length (filter (fun l => visible l) ls)) with 0 by lia.
      cbn [firstn]. apply app_nil_r. }
    split; [exact Hsame |].
    unfold userDeckLayers. rewrite Hsame. reflexivity.
Qed.

End RenderFacts.

(** The helpers of the render list, run on sample values. *)
Example hexToRgb_samples :
  Render.hexToRgb "#ff8800" = [255; 136; 0] /\
  Render.hexToRgb "00FF7f" = [0; 255; 127] /\
  Render.hexToRgb "#ff88" = [0; 0; 0] /\
  Render.hexToRgb "orange" = [0; 0; 0].
Proof. repeat split; reflexivity. Qed.

Example slice_samples :
  Render.slice 0 (-1) [1; 2; 3] = [1; 2] /\
  Render.slice 0 2 [1; 2; 3] = [1; 2] /\
  Render.slice 0 50 [1; 2; 3] = [1; 2; 3] /\
  Render.slice 0 (-1) (@nil nat) = [].
Proof. repeat split; reflexivity. Qed.

Lemma userDeckLayers_witness :
  Render.renderedLayers (repeat lineFloatLayer 50 ++ [twoPointFloatLayer]) =
    Render.renderedLayers (repeat lineFloatLayer 50) /\
  Render.userDeckLayers (repeat lineFloatLayer 50 ++ [twoPointFloatLayer]) [] =
    Render.userDeckLayers (repeat lineFloatLayer 50) [].
Proof.
  destruct (userDeckLayers_first_50_visible float (repeat lineFloatLayer 50) [])
    as (_ & _ & _ & Hmore).
  apply (Hmore [twoPointFloatLayer]).
  apply Nat.leb_le. vm_compute. reflexivity.
Defined.

(* ===================================================================== *)
(** * Further properties of the modelled code *)
(* ===================================================================== *)

(** ** Layer ids *)

Section LayerIds.

Import DrawingSession.
Local Open Scope string_scope.

Lemma dashFree_cons (c : ascii) (s : string) :
  dashFree (String c s) -> c <> "-"%char /\ dashFree s.
Proof.
  unfold dashFree. cbn. intros H. split.
  - intros Heq. apply H. left. exact Heq.
  - intros Hin. apply H. right. exact Hin.
Qed.

(** Two dash-free prefixes followed by a dash split a string in one way. *)
Lemma split_at_dash (a a' b b' : string) :
  dashFree a -> dashFree a' ->
  a ++ String "-" b = a' ++ String "-" b' ->
  a = a' /\ b = b'.
Proof.
  revert a'. induction a as [| c a IH]; intros [| c' a'] Ha Ha' Heq; cbn in Heq.
  - injection Heq as Hb. split; [reflexivity | exact Hb].
  - injection Heq as Hc _. apply dashFree_cons in Ha' as [Hne _].
    symmetry in Hc. contradiction.
  - injection Heq as Hc _. apply dashFree_cons in Ha as [Hne _]. contradiction.
  - injection Heq as Hc Hrest.
    apply dashFree_cons in Ha as [_ Ha]. apply dashFree_cons in Ha' as [_ Ha'].
    destruct (IH a' Ha Ha' Hrest) as [-> ->]. subst c'. split; reflexivity.
Qed.

Lemma string_of_uint_dashFree (d : Decimal.uint) :
  dashFree (NilEmpty.string_of_uint d).
Proof.
  unfold dashFree.
  induction d; cbn; try (intros [Heq | Hin]; [discriminate | exact (IHd Hin)]).
  intros [].
Qed.

(** The decimal rendering of a number has no dash and determines the
    number. *)
Lemma showNat_dashFree (n : nat) : dashFree (showNat n).
Proof.
  unfold showNat, NilZero.string_of_uint.
  destruct (Nat.to_uint n) eqn:Hd; try (rewrite <- Hd; apply string_of_uint_dashFree).
  unfold dashFree. cbn. intros [Heq | []]. discriminate.
Qed.

Lemma to_uint_not_nil (n : nat) : Nat.to_uint n <> Decimal.Nil.
Proof.
  intros Hnil.
  pose proof (DecimalNat.Unsigned.to_of (Nat.to_uint n)) as Hnorm.
  rewrite DecimalNat.Unsigned.of_to in Hnorm.
  rewrite Hnil in Hnorm at 2. cbn in Hnorm.
  rewrite Hnil in Hnorm. discriminate.
Qed.

Lemma showNat_inj (n m : nat) : showNat n = showNat m -> n = m.
Proof.
  unfold showNat. intros Heq.
  apply DecimalNat.Unsigned.to_uint_inj.
  assert (H : NilZero.uint_of_string (NilZero.string_of_uint (Nat.to_uint n)) =
              NilZero.uint_of_string (NilZero.string_of_uint (Nat.to_uint m)))
    by (rewrite Heq; reflexivity).
  rewrite !NilZero.usu in H by apply to_uint_not_nil.
  injection H as H. exact H.
Qed.

Lemma generatedId_inj (n n' t t' : nat) :
  generatedId n t = generatedId n' t' -> n = n' /\ t = t'.
Proof.
  unfold generatedId. intros Heq.
  cbn [String.append] in Heq. injection Heq as Heq.
  destruct (split_at_dash (showNat n) (showNat n') (showNat t) (showNat t')
              (showNat_dashFree _) (showNat_dashFree _) Heq) as [Hc Hn].
  split; apply showNat_inj; assumption.
Qed.

(** The id that [generateLayerId] returns determines the counter value and
    the clock value it was built from. *)
Lemma generateLayerId_injective (now now' : nat) (st st' : AppState R) :
  fst (generateLayerId now st) = fst (generateLayerId now' st') ->
  layerIdCounter st = layerIdCounter st' /\ now = now'.
Proof.
  intros Heq. apply generatedId_inj. exact Heq.
Qed.

End LayerIds.

(** ** What a click does to the store *)

Section ClickEffects.

Import JSMath Geometry DrawingSession Toolbar.
Local Open Scope R_scope.

Ltac unchanged := repeat split; left; split; reflexivity.
Ltac committed :=
  repeat (split; [reflexivity |]); right; eexists;
  repeat (split; [reflexivity |]);
  split; [discriminate | reflexivity].

Lemma branches_clickEffect (now : nat) (held : ViewState R) (c : Coord R)
    (st : AppState R) :
  clickEffect now st (pointBranch now c st) /\
  clickEffect now st (polygonBranch now held c st) /\
  clickEffect now st (lineBranch now c st) /\
  clickEffect now st (sectorBranch now c st) /\
  clickEffect now st (distanceBranch now c st) /\
  clickEffect now st (areaBranch now held c st) /\
  clickEffect now st (azimuthBranch now c st).
Proof.
  unfold clickEffect.
  split; [| split; [| split; [| split; [| split; [| split]]]]].
  - unfold pointBranch. cbn. committed.
  - unfold polygonBranch.
    destruct (drawingPoints st) as [| v0 [| v1 rest]]; try (cbn; unchanged).
    destruct (Rlt_dec _ _); cbn; [committed | unchanged].
  - unfold lineBranch.
    destruct (Nat.eqb _ 2); cbn; [committed | unchanged].
  - unfold sectorBranch.
    destruct (sectorCenter st); [| cbn; unchanged].
    destruct (Req_dec_T (sectorRadius st) 0); [cbn; unchanged |].
    destruct (Req_dec_T (sectorStartAngle st) 0); cbn; [unchanged | committed].
  - unfold distanceBranch.
    destruct (drawingPoints st ++ [c]) as [| p0 [| p1 [| p2 more]]];
      cbn; try unchanged. committed.
  - unfold areaBranch.
    destruct (drawingPoints st) as [| v0 [| v1 rest]]; try (cbn; unchanged).
    destruct (Rlt_dec _ _); cbn; [committed | unchanged].
  - unfold azimuthBranch.
    destruct (drawingPoints st ++ [c]) as [| p0 [| p1 [| p2 more]]];
      cbn; try unchanged. committed.
Qed.

Lemma handleMapClick_effect_of (now : nat) (held : ViewState R)
    (st st' : AppState R) (info : PickInfo) :
  handleMapClick now held st info = Ok st' -> clickEffect now st st'.
Proof.
  intros Hrun. unfold handleMapClick in Hrun.
  destruct (drawMode st) eqn:Hmode;
    try (injection Hrun as <-; unfold clickEffect; unchanged);
    destruct (coordinate info) as [c |]; try discriminate;
    injection Hrun as <-; apply (branches_clickEffect now held c st).
Qed.

(** X1.  Whatever viewport its handler holds, a click handled without
    exception never removes or rewrites a layer, never touches the
    viewport or the drag cells, and commits at most one layer.  A committed layer is appended at the end of the store,
    is visible, is not marked uploaded, has at least one geometry item,
    carries the id built from the counter (which advances by one) and the
    clock, and the session is back in mode [none]. *)
Theorem handleMapClick_effect (now : nat) (held : ViewState R)
    (st st' : AppState R) (info : PickInfo) :
  handleMapClick now held st info = Ok st' -> clickEffect now st st'.
Proof. apply handleMapClick_effect_of. Qed.

Lemma handleMapClick_effect_witness :
  clickEffect 3 (initialState [] ModePoint)
    (pointBranch 3 (1, 2) (initialState [] ModePoint)).
Proof.
  apply (handleMapClick_effect 3 initialView (initialState [] ModePoint) _
           (clickAt (1, 2))).
  reflexivity.
Defined.

(** In every drawing mode a click without a map coordinate throws; in
    mode [none] any click, with or without coordinate, leaves the state as
    it is. *)
Lemma handleMapClick_without_coordinate (now : nat) (held : ViewState R)
    (st : AppState R) (info : PickInfo) :
  (drawMode st = ModeNone -> handleMapClick now held st info = Ok st) /\
  (drawMode st <> ModeNone -> coordinate info = None ->
   handleMapClick now held st info = TypeError).
Proof.
  unfold handleMapClick. split.
  - intros ->. reflexivity.
  - intros Hmode Hc. rewrite Hc. destruct (drawMode st); try reflexivity.
    contradiction.
Qed.

Lemma idsFresh_step (now : nat) (st st' : AppState R) :
  idsFresh st -> clickEffect now st st' -> idsFresh st'.
Proof.
  intros [Hnodup Hgen] (_ & _ & _ & _ & _ & Heff).
  destruct Heff as [[Hl Hc] | (l & Hl & Hc & Hid & _)]; unfold idsFresh.
  - rewrite Hl, Hc. split; assumption.
  - rewrite Hl, Hc. split.
    + rewrite map_app. cbn [map].
      apply NoDup_app; [exact Hnodup | repeat constructor; intros [] |].
      intros i Hin [Heq | []]. subst i.
      apply in_map_iff in Hin as (l0 & Hl0 & Hin0).
      destruct (Hgen l0 Hin0) as (n & t & Hlt & Hid0).
      rewrite Hid, Hid0 in Hl0.
      apply generatedId_inj in Hl0 as [Hn _]. lia.
    + intros l' Hin. apply in_app_or in Hin as [Hin | [<- | []]].
      * destruct (Hgen l' Hin) as (n & t & Hlt & Hid').
        exists n, t. split; [lia | exact Hid'].
      * exists (layerIdCounter st), now. split; [lia | exact Hid].
Qed.

(** X2.  Layer ids stay unique.  If the ids of the store are pairwise
    distinct and were generated from counter values below the current
    counter, the same holds after any sequence of tool selections,
    cancellations, viewport changes and map clicks, whatever the clock
    returns and whatever viewport the click handler holds: two layers
    committed in the same millisecond still get different ids. *)
Theorem handleEvents_ids_unique (evs : list UserEvent)
    (held held' : ViewState R) (st st' : AppState R) :
  idsFresh st -> handleEvents held st evs = Ok (held', st') -> idsFresh st'.
Proof.
  revert held st. induction evs as [| ev rest IH];
    intros held st Hfresh Hrun; cbn in Hrun.
  - injection Hrun as _ <-. exact Hfresh.
  - destruct ev as [now info | tool | | | | next]; cbn in Hrun.
    + destruct (handleMapClick now held st info) as [st1 |] eqn:Hclick;
        [| discriminate].
      cbn in Hrun. refine (IH _ st1 _ Hrun).
      apply (idsFresh_step now st st1 Hfresh).
      apply (handleMapClick_effect_of now held st st1 info Hclick).
    + refine (IH _ (selectTool tool st) _ Hrun). exact Hfresh.
    + refine (IH _ (cancelDrawing st) _ Hrun). exact Hfresh.
    + refine (IH _ (ViewControls.zoomIn st) _ Hrun). exact Hfresh.
    + refine (IH _ (ViewControls.zoomOut st) _ Hrun). exact Hfresh.
    + refine (IH _ (setViewState next st) _ Hrun). exact Hfresh.
Qed.

Lemma handleEvents_ids_unique_witness :
  idsFresh
    (pointBranch 5 (3, 4)
       (selectTool ModePoint
          (pointBranch 5 (1, 2) (selectTool ModePoint (initialState [] ModeNone))))).
Proof.
  apply (handleEvents_ids_unique
           [ToolButton ModePoint; MapClick 5 (clickAt (1, 2));
            ToolButton ModePoint; MapClick 5 (clickAt (3, 4))]
           initialView initialView
           (initialState [] ModeNone)).
  - split; [constructor | intros l []].
  - reflexivity.
Defined.

End ClickEffects.

(** ** The two-click tools: line, distance, azimuth *)

Section TwoClickTools.

Import JSMath Geometry DrawingSession Toolbar.
Local Open Scope R_scope.

Lemma twoClick_append (now : nat) (held : ViewState R) (st : AppState R)
    (c : Coord R) (kind : LayerType) :
  twoClickKind (drawMode st) = Some kind ->
  List.length (drawingPoints st) <> 1%nat ->
  handleMapClick now held st (clickAt c) =
    Ok (setDrawingPoints (drawingPoints st ++ [c]) st).
Proof.
  intros Hkind Hlen. unfold handleMapClick.
  destruct (drawMode st); try discriminate; cbn [coordinate clickAt];
    unfold lineBranch, distanceBranch, azimuthBranch;
    destruct (drawingPoints st) as [| p0 [| p1 rest]]; cbn in *;
    try reflexivity; try contradiction.
  - destruct rest; reflexivity.
  - destruct (rest ++ [c]) eqn:Hrest; [| reflexivity].
    destruct rest; discriminate.
  - destruct (rest ++ [c]) eqn:Hrest; [| reflexivity].
    destruct rest; discriminate.
Qed.

(** X3.  With a two-click tool (line, distance, azimuth) the first click
    is stored, and the click that finds exactly one stored point commits
    the layer: its path is the two clicked points, a distance layer carries
    [calculateDistance] of them and an azimuth layer [calculateAzimuth],
    and the session is reset.  A click that finds two or more stored points
    (left by another tool: selecting a tool does not clear them) is only
    appended, so from then on no number of clicks commits anything. *)
Theorem two_click_tools (now : nat) (held : ViewState R) (st : AppState R)
    (kind : LayerType) :
  twoClickKind (drawMode st) = Some kind ->
  (forall c, drawingPoints st = [] ->
     handleMapClick now held st (clickAt c) = Ok (setDrawingPoints [c] st)) /\
  (forall p0 c, drawingPoints st = [p0] ->
     exists st' l,
       handleMapClick now held st (clickAt c) = Ok st' /\
       layers st' = layers st ++ [l] /\
       type l = kind /\
       data l = [pathItem [p0; c]] /\
       measurement l = twoClickMeasurement (drawMode st) p0 c /\
       drawingPoints st' = [] /\
       drawMode st' = ModeNone) /\
  (forall cs, (2 <= List.length (drawingPoints st))%nat ->
     handleMapClicks now held st (map clickAt cs) =
       Ok (setDrawingPoints (drawingPoints st ++ cs) st)).
Proof.
  intros Hkind. split; [| split].
  - intros c Hpts.
    rewrite (twoClick_append now held st c kind Hkind)
      by (rewrite Hpts; discriminate).
    rewrite Hpts. reflexivity.
  - intros p0 c Hpts. unfold handleMapClick.
    destruct (drawMode st); try discriminate; injection Hkind as <-;
      cbn [coordinate clickAt];
      unfold lineBranch, distanceBranch, azimuthBranch; rewrite Hpts;
      eexists; eexists; (split; [reflexivity |]); cbn; repeat split; reflexivity.
  - intros cs. revert held st Hkind.
    induction cs as [| c cs IH]; intros held st Hkind Hlen.
    + cbn. rewrite app_nil_r. destruct st; reflexivity.
    + cbn [map handleMapClicks].
      rewrite (twoClick_append now held st c kind Hkind) by lia.
      cbn [bind].
      rewrite IH.
      * cbn. rewrite <- app_assoc. reflexivity.
      * exact Hkind.
      * cbn. rewrite length_app. lia.
Qed.

Lemma two_click_tools_witness :
  (exists st' l,
      handleMapClick 0 initialView
        (setDrawingPoints [(0, 0)] (initialState [] ModeDistance))
        (clickAt (1, 1)) = Ok st' /\
      layers st' = [l] /\
      type l = distance /\
      data l = [pathItem [(0, 0); (1, 1)]] /\
      measurement l =
        Some (mkMeasurement (calculateDistance (0, 0) (1, 1)) 2 " km"%string) /\
      drawingPoints st' = [] /\
      drawMode st' = ModeNone) /\
  handleMapClicks 0 initialView
    (selectTool ModeLine (twoVertexSession ModePolygon))
    (map clickAt [(5, 5); (6, 6)]) =
    Ok (setDrawingPoints [(0, 0); (1, 0); (5, 5); (6, 6)]
          (selectTool ModeLine (twoVertexSession ModePolygon))).
Proof.
  split.
  - destruct (two_click_tools 0 initialView
                (setDrawingPoints [(0, 0)] (initialState [] ModeDistance))
                distance eq_refl) as (_ & Hsecond & _).
    apply (Hsecond (0, 0) (1, 1)). reflexivity.
  - destruct (two_click_tools 0 initialView (selectTool ModeLine (twoVertexSession ModePolygon))
                line eq_refl) as (_ & _ & Hstuck).
    apply (Hstuck [(5, 5); (6, 6)]). cbn. lia.
Defined.

End TwoClickTools.

(** ** Polygon area *)

Section PolygonArea.

Import JSMath Geometry.
Local Open Scope R_scope.

(** The loop of [calculatePolygonArea] adds the segment terms to its
    accumulator. *)
Lemma areaLoop_segmentSum (polygon : list (Coord R)) (acc : R) :
  areaLoop polygon acc = acc + segmentSum polygon.
Proof.
  revert acc. induction polygon as [| p1 rest IH]; intros acc.
  - cbn. ring.
  - destruct rest as [| p2 rest'].
    + cbn. ring.
    + change (areaLoop (p1 :: p2 :: rest') acc)
        with (areaLoop (p2 :: rest')
                (acc + (fst p2 - fst p1) * (snd p2 + snd p1) * Math_PI / 180 *
                       6371 * 6371 *
                       Math_cos ((snd p1 + snd p2) / 2 * Math_PI / 180))).
      rewrite IH.
      change (segmentSum (p1 :: p2 :: rest'))
        with (segmentTerm p1 p2 + segmentSum (p2 :: rest')).
      unfold segmentTerm, Math_PI, Math_cos. ring.
Qed.

Lemma calculatePolygonArea_segmentSum (polygon : list (Coord R)) :
  calculatePolygonArea polygon = Rabs (segmentSum polygon) / 2.
Proof.
  unfold calculatePolygonArea, Math_abs. rewrite areaLoop_segmentSum.
  rewrite Rplus_0_l. reflexivity.
Qed.

(** Walking a segment backwards negates its term. *)
Lemma segmentTerm_swap (p1 p2 : Coord R) : segmentTerm p2 p1 = - segmentTerm p1 p2.
Proof.
  destruct p1 as [x1 y1], p2 as [x2 y2].
  unfold segmentTerm. cbn [fst snd].
  replace (y2 + y1) with (y1 + y2) by ring.
  field.
Qed.

Lemma segmentSum_snoc (l : list (Coord R)) (y x : Coord R) :
  segmentSum ((l ++ [y]) ++ [x]) = segmentSum (l ++ [y]) + segmentTerm y x.
Proof.
  induction l as [| a l IH].
  - cbn. ring.
  - destruct l as [| b l'].
    + cbn. ring.
    + change (segmentSum (((a :: b :: l') ++ [y]) ++ [x]))
        with (segmentTerm a b + segmentSum (((b :: l') ++ [y]) ++ [x])).
      change (segmentSum ((a :: b :: l') ++ [y]))
        with (segmentTerm a b + segmentSum ((b :: l') ++ [y])).
      rewrite IH. ring.
Qed.

Lemma segmentSum_rev (polygon : list (Coord R)) :
  segmentSum (rev polygon) = - segmentSum polygon.
Proof.
  induction polygon as [| x rest IH].
  - cbn. ring.
  - destruct rest as [| y rest'].
    + cbn. ring.
    + change (rev (x :: y :: rest')) with ((rev rest' ++ [y]) ++ [x]).
      rewrite segmentSum_snoc.
      change (rev rest' ++ [y]) with (rev (y :: rest')).
      rewrite IH.
      change (segmentSum (x :: y :: rest'))
        with (segmentTerm x y + segmentSum (y :: rest')).
      rewrite segmentTerm_swap. ring.
Qed.

(** X4.  [calculatePolygonArea] is never negative, and it does not depend
    on the direction in which the points are listed: a list and its
    reversal have the same area. *)
Theorem calculatePolygonArea_reversal (polygon : list (Coord R)) :
  0 <= calculatePolygonArea polygon /\
  calculatePolygonArea (rev polygon) = calculatePolygonArea polygon.
Proof.
  rewrite !calculatePolygonArea_segmentSum. split.
  - pose proof (Rabs_pos (segmentSum polygon)). lra.
  - rewrite segmentSum_rev, Rabs_Ropp. reflexivity.
Qed.

Lemma segmentSum_shift (d : R) (polygon : list (Coord R)) :
  segmentSum (map (fun p => (fst p + d, snd p)) polygon) = segmentSum polygon.
Proof.
  induction polygon as [| p1 rest IH].
  - reflexivity.
  - destruct rest as [| p2 rest'].
    + reflexivity.
    + change (segmentSum (map (fun p => (fst p + d, snd p)) (p1 :: p2 :: rest')))
        with (segmentTerm (fst p1 + d, snd p1) (fst p2 + d, snd p2) +
              segmentSum (map (fun p => (fst p + d, snd p)) (p2 :: rest'))).
      rewrite IH.
      change (segmentSum (p1 :: p2 :: rest'))
        with (segmentTerm p1 p2 + segmentSum (p2 :: rest')).
      destruct p1 as [x1 y1], p2 as [x2 y2].
      unfold segmentTerm. cbn [fst snd].
      replace (x2 + d - (x1 + d)) with (x2 - x1) by ring.
      reflexivity.
Qed.

(** X5.  [calculatePolygonArea] only reads differences of longitudes:
    moving every point by the same amount east or west leaves the area
    unchanged.  A list of fewer than two points has area 0. *)
Theorem calculatePolygonArea_longitude_shift (d : R) (polygon : list (Coord R)) :
  calculatePolygonArea (map (fun p => (fst p + d, snd p)) polygon) =
    calculatePolygonArea polygon /\
  ((List.length polygon < 2)%nat -> calculatePolygonArea polygon = 0).
Proof.
  rewrite !calculatePolygonArea_segmentSum, segmentSum_shift. split.
  - reflexivity.
  - intros Hlen. destruct polygon as [| p1 [| p2 rest]]; cbn in Hlen; try lia;
      cbn [segmentSum]; rewrite Rabs_R0; lra.
Qed.

End PolygonArea.

(** ** Great-circle distance *)

Section Distance.

Import JSMath Geometry.
Local Open Scope R_scope.

Lemma calculateDistance_haversine (A B : Coord R) :
  calculateDistance A B =
    6371 * (2 * Math_atan2 (sqrt (haversineTerm A B))
                           (sqrt (1 - haversineTerm A B))).
Proof. reflexivity. Qed.

(** The angle of a point of the closed first quadrant. *)
Lemma Math_atan2_first_quadrant (y x : R) :
  0 <= y -> 0 <= x -> 0 <= Math_atan2 y x <= PI / 2.
Proof.
  intros Hy Hx. pose proof PI_RGT_0 as Hpi. unfold Math_atan2.
  destruct (Rlt_dec 0 x) as [Hpos | Hnpos].
  - assert (Hq : 0 <= y / x).
    { unfold Rdiv. apply Rmult_le_pos; [exact Hy |].
      left. apply Rinv_0_lt_compat. exact Hpos. }
    pose proof (atan_bound (y / x)) as Hb.
    split; [| lra].
    destruct Hq as [Hq | Hq].
    + left. rewrite <- atan_0. apply atan_increasing. exact Hq.
    + rewrite <- Hq, atan_0. lra.
  - destruct (Rlt_dec x 0) as [Hneg | _]; [lra |].
    destruct (Rlt_dec 0 y); [lra |].
    destruct (Rlt_dec y 0); lra.
Qed.

(** [atan2] recovers an angle of the first quadrant from its sine and
    cosine. *)
Lemma Math_atan2_sin_cos (u : R) :
  0 <= u <= PI / 2 -> Math_atan2 (sin u) (cos u) = u.
Proof.
  intros [Hlo Hhi]. pose proof PI_RGT_0 as Hpi.
  destruct Hhi as [Hlt | Heq].
  - assert (Hcos : 0 < cos u) by (apply cos_gt_0; lra).
    unfold Math_atan2.
    destruct (Rlt_dec 0 (cos u)) as [_ | Hn]; [| contradiction].
    change (sin u / cos u) with (tan u).
    apply atan_tan. lra.
  - subst u. rewrite sin_PI2, cos_PI2. apply Math_atan2_north. lra.
Qed.

(** The central angle that [calculateDistance] computes from a haversine
    term of the form [sin t * sin t]. *)
Lemma central_angle (t : R) :
  - (PI / 2) <= t <= PI / 2 ->
  2 * Math_atan2 (sqrt (sin t * sin t)) (sqrt (1 - sin t * sin t)) = 2 * Rabs t.
Proof.
  intros [Hlo Hhi]. pose proof PI_RGT_0 as Hpi.
  assert (Hcos : 0 <= cos t) by (apply cos_ge_0; lra).
  assert (Hsq : 1 - sin t * sin t = Rsqr (cos t)).
  { pose proof (sin2_cos2 t) as H. unfold Rsqr in *. lra. }
  rewrite Hsq, (sqrt_Rsqr _ Hcos).
  change (sin t * sin t) with (Rsqr (sin t)). rewrite sqrt_Rsqr_abs.
  f_equal.
  destruct (Rle_dec 0 t) as [Hpos | Hneg].
  - rewrite (Rabs_pos_eq t) by exact Hpos.
    rewrite Rabs_pos_eq by (apply sin_ge_0; lra).
    apply Math_atan2_sin_cos. lra.
  - assert (Hneg' : t < 0) by lra.
    rewrite (Rabs_left t) by exact Hneg'.
    assert (Hsin : 0 <= sin (- t)) by (apply sin_ge_0; lra).
    rewrite sin_neg in Hsin.
    rewrite Rabs_left1 by lra.
    rewrite <- sin_neg, <- (cos_neg t).
    apply Math_atan2_sin_cos. lra.
Qed.

Lemma radians_of_valid_latitude (p : Coord R) :
  validLatitude p -> - (PI / 2) <= snd p * PI / 180 <= PI / 2.
Proof.
  intros [Hlo Hhi]. pose proof PI_RGT_0 as Hpi.
  split.
  - assert (-90 * (PI / 180) <= snd p * (PI / 180))
      by (apply Rmult_le_compat_r; lra).
    lra.
  - assert (snd p * (PI / 180) <= 90 * (PI / 180))
      by (apply Rmult_le_compat_r; lra).
    lra.
Qed.

(** X7.  Along a meridian [calculateDistance] is the arc length: for two
    points of the same longitude with latitudes between the poles, the
    distance is 6371 times the difference of the latitudes in radians.
    Along the equator, for longitudes at most 180 degrees apart, it is
    6371 times the difference of the longitudes in radians. *)
Theorem calculateDistance_arc_length (A B : Coord R) :
  (fst A = fst B -> validLatitude A -> validLatitude B ->
   calculateDistance A B = 6371 * (Rabs (snd B - snd A) * PI / 180)) /\
  (snd A = 0 -> snd B = 0 -> Rabs (fst B - fst A) <= 180 ->
   calculateDistance A B = 6371 * (Rabs (fst B - fst A) * PI / 180)).
Proof.
  pose proof PI_RGT_0 as Hpi. split.
  - intros Hlon HA HB.
    apply radians_of_valid_latitude in HA, HB.
    rewrite calculateDistance_haversine. unfold haversineTerm.
    rewrite Hlon.
    replace ((fst B - fst B) * PI / 180 / 2) with 0 by field.
    rewrite sin_0.
    set (t := (snd B - snd A) * PI / 180 / 2).
    replace (sin t * sin t +
             cos (snd A * PI / 180) * cos (snd B * PI / 180) * 0 * 0)
      with (sin t * sin t) by ring.
    assert (Ht : - (PI / 2) <= t <= PI / 2) by (unfold t; lra).
    rewrite (central_angle t Ht).
    f_equal.
    replace (snd B - snd A) with (t * (360 / PI)) by (unfold t; field; lra).
    rewrite Rabs_mult, (Rabs_pos_eq (360 / PI)).
    + field. lra.
    + left. apply Rdiv_lt_0_compat; lra.
  - intros HA HB Hspan.
    rewrite calculateDistance_haversine. unfold haversineTerm.
    rewrite HA, HB.
    replace ((0 - 0) * PI / 180 / 2) with 0 by field.
    replace (0 * PI / 180) with 0 by field.
    rewrite sin_0, cos_0.
    set (t := (fst B - fst A) * PI / 180 / 2).
    replace (0 * 0 + 1 * 1 * sin t * sin t) with (sin t * sin t) by ring.
    assert (Ht : - (PI / 2) <= t <= PI / 2).
    { assert (Hbetween : -180 <= fst B - fst A <= 180).
      { unfold Rabs in Hspan.
        destruct (Rcase_abs (fst B - fst A)); lra. }
      unfold t.
      assert (-180 * (PI / 360) <= (fst B - fst A) * (PI / 360))
        by (apply Rmult_le_compat_r; lra).
      assert ((fst B - fst A) * (PI / 360) <= 180 * (PI / 360))
        by (apply Rmult_le_compat_r; lra).
      lra. }
    rewrite (central_angle t Ht).
    f_equal.
    replace (fst B - fst A) with (t * (360 / PI)) by (unfold t; field; lra).
    rewrite Rabs_mult, (Rabs_pos_eq (360 / PI)).
    + field. lra.
    + left. apply Rdiv_lt_0_compat; lra.
Qed.

Lemma calculateDistance_arc_length_witness :
  calculateDistance (10, 20) (10, 50) = 6371 * (Rabs (50 - 20) * PI / 180) /\
  calculateDistance (10, 0) (40, 0) = 6371 * (Rabs (40 - 10) * PI / 180).
Proof.
  split.
  - apply (proj1 (calculateDistance_arc_length (10, 20) (10, 50)));
      unfold validLatitude; cbn [fst snd]; try reflexivity; lra.
  - apply (proj2 (calculateDistance_arc_length (10, 0) (40, 0)));
      cbn [fst snd]; try reflexivity.
    replace (40 - 10) with 30 by ring. rewrite Rabs_pos_eq; lra.
Defined.

End Distance.

(** ** Sectors *)

Section Sectors.

Import JSMath Geometry DrawingSession.
Local Open Scope R_scope.

(** For two angles that [Math.atan2] can return, the loop of
    [createSectorPolygon] runs at most once. *)
Lemma normalizeEndAngle_principal (s e : R) :
  - PI < s <= PI -> - PI < e <= PI ->
  normalizeEndAngle s e = if Rlt_dec s e then e else e + 2 * PI.
Proof.
  intros Hs He. pose proof PI_RGT_0 as Hpi.
  destruct (normalizeEndAngle_spec s e) as (k & Hval & Hgt & Hmin).
  rewrite Hval.
  destruct (Rlt_dec s e) as [Hlt | Hge].
  - destruct k as [| k]; [cbn; ring |].
    specialize (Hmin 0%nat ltac:(lia)). cbn in Hmin. lra.
  - destruct k as [| [| k]].
    + cbn in Hgt. lra.
    + cbn. ring.
    + specialize (Hmin 1%nat ltac:(lia)). cbn in Hmin. lra.
Qed.

(** X8.  Every arc point of a sector polygon lies on the circle of the
    given radius around the centre (in coordinate degrees), and the ring
    starts at the centre. *)
Theorem createSectorPolygon_on_circle (center : Coord R)
    (radius startAngle endAngle : R) :
  hd_error (createSectorPolygon center radius startAngle endAngle) = Some center /\
  forall p : Coord R,
    In p (tl (createSectorPolygon center radius startAngle endAngle)) ->
    (fst p - fst center) * (fst p - fst center) +
    (snd p - snd center) * (snd p - snd center) = radius * radius.
Proof.
  unfold createSectorPolygon. rewrite arcLoop_map. cbn [app hd_error tl].
  split; [reflexivity |].
  intros p Hin. apply in_map_iff in Hin as (i & <- & _).
  unfold arcPoint, Math_cos, Math_sin. cbn [fst snd].
  match goal with
  | |- context [cos ?a] => pose proof (sin2_cos2 a) as Hunit; set (t := a) in *
  end.
  unfold Rsqr in Hunit.
  replace (fst center + radius * cos t - fst center) with (radius * cos t) by ring.
  replace (snd center + radius * sin t - snd center) with (radius * sin t) by ring.
  replace (radius * cos t * (radius * cos t) + radius * sin t * (radius * sin t))
    with (radius * radius * (sin t * sin t + cos t * cos t)) by ring.
  rewrite Hunit. ring.
Qed.

(** X9.  The sector that the fourth click commits, and its label.  With a
    start angle [s] and a clicked end angle [e], both as [Math.atan2]
    returns them, the arc is drawn from [s] over a sweep that is positive
    and at most a full turn.  The stored measurement is the absolute
    difference of the two angles in degrees: it is the sweep in degrees
    when [s < e], and 360 minus the sweep otherwise (an end click in the
    direction of the start click draws the full disc and stores 0). *)
Theorem sector_commit_sweep (now : nat) (held : ViewState R) (st : AppState R)
    (center c4 : Coord R) :
  drawMode st = ModeSector ->
  sectorCenter st = Some center ->
  sectorRadius st <> 0 ->
  sectorStartAngle st <> 0 ->
  - PI < sectorStartAngle st <= PI ->
  exists st' l sweep degrees,
    handleMapClick now held st (clickAt c4) = Ok st' /\
    layers st' = layers st ++ [l] /\
    data l =
      [polygonItem
         (center ::
          map (fun i =>
                 (fst center + sectorRadius st *
                    cos (sectorStartAngle st + sweep * (INR i / 32)),
                  snd center + sectorRadius st *
                    sin (sectorStartAngle st + sweep * (INR i / 32))))
              (seq 0 33))] /\
    0 < sweep <= 2 * PI /\
    measurement l = Some (mkMeasurement degrees 1 "°"%string) /\
    (sectorStartAngle st < clickAngle c4 center -> degrees = sweep * 180 / PI) /\
    (clickAngle c4 center <= sectorStartAngle st ->
     degrees = 360 - sweep * 180 / PI).
Proof.
  intros Hmode Hcenter Hr Ha Hs. pose proof PI_RGT_0 as Hpi.
  pose proof (Math_atan2_range (snd c4 - snd center) (fst c4 - fst center)) as He.
  fold (clickAngle c4 center) in He.
  set (s := sectorStartAngle st) in *. set (e := clickAngle c4 center) in *.
  exists (sectorBranch now c4 st).
  rewrite (handleMapClick_sector now held st c4 Hmode).
  rewrite (sectorBranch_commit now st c4 center Hcenter Hr Ha).
  fold s e.
  eexists. exists (normalizeEndAngle s e - s), (Rabs ((e - s) * 180 / PI)).
  split; [reflexivity |]. cbn [layers setDrawMode setSectorStartAngle setSectorRadius
                               setSectorCenter appendLayer setLayers data measurement
                               generateLayerId snd setLayerIdCounter].
  split; [reflexivity |]. cbn [data measurement].
  split.
  { unfold createSectorPolygon. rewrite arcLoop_map. cbn [app].
    do 3 f_equal. apply map_ext. intros i.
    unfold arcPoint, Math_cos, Math_sin, numPoints.
    replace (INR 32) with 32 by (simpl; lra). reflexivity. }
  rewrite (normalizeEndAngle_principal s e Hs He).
  destruct (Rlt_dec s e) as [Hlt | Hge].
  - split; [lra |]. split; [reflexivity |]. split; [| lra].
    intros _. rewrite Rabs_pos_eq; [reflexivity |].
    apply Rmult_le_pos; [lra |]. left. apply Rinv_0_lt_compat. exact Hpi.
  - split; [lra |]. split; [reflexivity |]. split; [lra |].
    intros _.
    replace ((e - s) * 180 / PI) with (- ((s - e) * 180 / PI)) by (field; lra).
    rewrite Rabs_Ropp, Rabs_pos_eq.
    + field. lra.
    + apply Rmult_le_pos; [lra |]. left. apply Rinv_0_lt_compat. exact Hpi.
Qed.

Lemma sector_commit_sweep_witness :
  exists st' l sweep degrees,
    handleMapClick 0 initialView sectorReady (clickAt (1, 0)) = Ok st' /\
    layers st' = layers sectorReady ++ [l] /\
    data l =
      [polygonItem
         ((0, 0) ::
          map (fun i =>
                 (fst (0, 0) + sectorRadius sectorReady *
                    cos (sectorStartAngle sectorReady + sweep * (INR i / 32)),
                  snd (0, 0) + sectorRadius sectorReady *
                    sin (sectorStartAngle sectorReady + sweep * (INR i / 32))))
              (seq 0 33))] /\
    0 < sweep <= 2 * PI /\
    measurement l = Some (mkMeasurement degrees 1 "°"%string) /\
    (sectorStartAngle sectorReady < clickAngle (1, 0) (0, 0) ->
     degrees = sweep * 180 / PI) /\
    (clickAngle (1, 0) (0, 0) <= sectorStartAngle sectorReady ->
     degrees = 360 - sweep * 180 / PI).
Proof.
  pose proof PI_RGT_0 as Hpi.
  apply (sector_commit_sweep 0 initialView sectorReady (0, 0) (1, 0)).
  - reflexivity.
  - reflexivity.
  - cbn. lra.
  - cbn. lra.
  - cbn. lra.
Defined.

End Sectors.

(** ** The closing tolerance *)

Section Tolerance.

Import JSMath Geometry DrawingSession.
Local Open Scope R_scope.

Lemma Rpower_2_4 : Rpower 2 4 = 16.
Proof.
  replace 4 with (INR 4) by (simpl; lra).
  rewrite Rpower_pow by lra. simpl. lra.
Qed.

(** X10.  The closing tolerance of polygon and area sessions never goes
    below 0.005 degrees and never grows when the zoom grows; it is at
    least 0.05 degrees up to zoom 5 and exactly 0.005 degrees from zoom 9
    on. *)
Theorem tolerance_profile (vs : ViewState R) :
  0.005 <= tolerance vs /\
  (zoom vs <= 5 -> 0.05 <= tolerance vs) /\
  (9 <= zoom vs -> tolerance vs = 0.005) /\
  (forall vs' : ViewState R,
      zoom vs <= zoom vs' ->
      tolerance vs' <= tolerance vs).
Proof.
  rewrite tolerance_eq.
  set (z := zoom vs).
  assert (Hpow : 0 < Rpower 2 (z - 5)) by apply exp_pos.
  split; [| split; [| split]].
  - pose proof (Rmax_l 0.1 (1 / Rpower 2 (z - 5))). lra.
  - intros Hz.
    assert (Hle : Rpower 2 (z - 5) <= 1).
    { rewrite <- (Rpower_O 2) by lra. apply Rle_Rpower; lra. }
    assert (Hinv : 1 <= 1 / Rpower 2 (z - 5)).
    { apply Rmult_le_reg_r with (Rpower 2 (z - 5)); [exact Hpow |].
      replace (1 / Rpower 2 (z - 5) * Rpower 2 (z - 5)) with 1 by (field; lra).
      lra. }
    pose proof (Rmax_r 0.1 (1 / Rpower 2 (z - 5))). lra.
  - intros Hz.
    assert (Hge : 16 <= Rpower 2 (z - 5)).
    { rewrite <- Rpower_2_4. apply Rle_Rpower; lra. }
    assert (Hinv : 1 / Rpower 2 (z - 5) <= 0.1).
    { apply Rmult_le_reg_r with (Rpower 2 (z - 5)); [exact Hpow |].
      replace (1 / Rpower 2 (z - 5) * Rpower 2 (z - 5)) with 1 by (field; lra).
      lra. }
    rewrite Rmax_left by exact Hinv. lra.
  - intros vs' Hz. rewrite tolerance_eq.
    set (z' := zoom vs') in *.
    assert (Hpow' : 0 < Rpower 2 (z' - 5)) by apply exp_pos.
    assert (Hmono : Rpower 2 (z - 5) <= Rpower 2 (z' - 5))
      by (apply Rle_Rpower; lra).
    assert (Hinv : 1 / Rpower 2 (z' - 5) <= 1 / Rpower 2 (z - 5)).
    { unfold Rdiv. apply Rmult_le_compat_l; [lra |].
      apply Rinv_le_contravar; assumption. }
    assert (Hmax : Rmax 0.1 (1 / Rpower 2 (z' - 5)) <=
                   Rmax 0.1 (1 / Rpower 2 (z - 5))).
    { apply Rmax_lub.
      - apply Rmax_l.
      - apply Rle_trans with (1 / Rpower 2 (z - 5)); [exact Hinv | apply Rmax_r]. }
    lra.
Qed.

Lemma tolerance_profile_witness :
  tolerance (viewState (atZoom 12 (initialState [] ModePolygon))) = 0.005 /\
  0.05 <= tolerance (viewState (atZoom 3 (initialState [] ModePolygon))).
Proof.
  split.
  - apply (proj1 (proj2 (proj2 (tolerance_profile
                                  (viewState
                                     (atZoom 12 (initialState [] ModePolygon))))))).
    cbn. lra.
  - apply (proj1 (proj2 (tolerance_profile
                           (viewState
                              (atZoom 3 (initialState [] ModePolygon)))))).
    cbn. lra.
Defined.

End Tolerance.

(** ** Viewport fitter on arbitrary layers *)

Section FocusFacts.

Import ViewportFitter.

(** The loop over the items fails exactly when an item lacks the geometry
    property of the layer type. *)
Lemma forEach_visitItem (ty : LayerType) (items : list (Item float)) (b : BBox) :
  (forallb (carriesGeometry ty) items = true ->
   exists b', forEach (visitItem ty) items b = Ok b') /\
  (forallb (carriesGeometry ty) items = false ->
   forEach (visitItem ty) items b = TypeError).
Proof.
  revert b. induction items as [| item rest IH]; intros b; cbn [forEach forallb].
  - split; [intros _; eexists; reflexivity | discriminate].
  - assert (Hitem : (carriesGeometry ty item = true /\
                     exists b1, visitItem ty b item = Ok b1) \/
                    (carriesGeometry ty item = false /\
                     visitItem ty b item = TypeError)).
    { unfold carriesGeometry, visitItem.
      destruct ty, item as [[p |] [ring |] [pts |] nd]; cbn;
        first [ left; split; [reflexivity | eexists; reflexivity]
              | right; split; reflexivity ]. }
    destruct Hitem as [[Hc [b1 Hb1]] | [Hc Hb1]]; rewrite Hc, Hb1; cbn.
    + apply IH.
    + split; [discriminate | reflexivity].
Qed.

(** X11.  [focusOnLayer] throws exactly when the layer it finds has an
    item without the geometry property of the layer type ([position] for
    points, [polygon] for polygon, sector and area layers, [path] for the
    others); in every other case, the unknown id included, it returns. *)
Theorem focusOnLayer_throws_iff (st : AppState float) (layerId : string) :
  focusOnLayer st layerId = TypeError <->
  exists l, findLayer layerId (layers st) = Some l /\
            forallb (carriesGeometry (type l)) (data l) = false.
Proof.
  unfold focusOnLayer.
  destruct (findLayer layerId (layers st)) as [l |].
  - destruct (forEach_visitItem (type l) (data l) emptyBBox) as [Hok Hfail].
    destruct (forallb (carriesGeometry (type l)) (data l)) eqn:Hall.
    + destruct (Hok eq_refl) as [b' Hb']. rewrite Hb'. cbn. split.
      * discriminate.
      * intros (l' & Hl' & Hfalse). injection Hl' as <-.
        rewrite Hall in Hfalse. discriminate.
    + rewrite (Hfail eq_refl). cbn. split.
      * intros _. exists l. split; [reflexivity | exact Hall].
      * reflexivity.
  - split; [discriminate |]. intros (l' & Hl' & _). discriminate.
Qed.

Lemma paddedZoom_in_focusZooms (l : Layer float) (maxDiff : float) :
  In (paddedZoom l (baseZoom l maxDiff)) focusZooms.
Proof.
  unfold paddedZoom, baseZoom, focusZooms.
  destruct (isUploaded_truthy l), (isPoint (type l)),
           (Nat.eqb (List.length (data l)) 1), (Nat.ltb 1 (List.length (data l)));
    cbn [andb];
    repeat match goal with
           | |- context [if PrimFloat.ltb ?a ?b then _ else _] =>
               destruct (PrimFloat.ltb a b)
           end;
    vm_compute; tauto.
Qed.

(** X12.  Whatever the geometry of the layer is (spans of any size,
    [NaN] or infinite coordinates, no item at all), a call of
    [focusOnLayer] that finds the layer and returns sets the zoom to a
    whole number from 3 to 17, resets pitch and bearing to 0, and changes
    nothing but the viewport. *)
Theorem focusOnLayer_zoom_levels (st st' : AppState float) (layerId : string)
    (l : Layer float) :
  findLayer layerId (layers st) = Some l ->
  focusOnLayer st layerId = Ok st' ->
  In (zoom (viewState st')) focusZooms /\
  pitch (viewState st') = 0%float /\
  bearing (viewState st') = 0%float /\
  layers st' = layers st /\
  drawMode st' = drawMode st /\
  drawingPoints st' = drawingPoints st.
Proof.
  intros Hfind Hrun. unfold focusOnLayer in Hrun. rewrite Hfind in Hrun.
  destruct (forEach (visitItem (type l)) (data l) emptyBBox) as [b |];
    [| discriminate].
  cbn [bind] in Hrun. injection Hrun as <-. cbn.
  split; [apply paddedZoom_in_focusZooms |].
  repeat split; reflexivity.
Qed.

Lemma focusOnLayer_zoom_levels_witness :
  In (zoom (viewState
              (setViewState (mkViewState 2 3 7 0 0)%float
                 (initialFloatState [twoPointFloatLayer]))))
     focusZooms.
Proof.
  apply (focusOnLayer_zoom_levels (initialFloatState [twoPointFloatLayer]) _
           "layer-1-0" twoPointFloatLayer).
  - reflexivity.
  - vm_compute. reflexivity.
Defined.

End FocusFacts.

(** ** Layer store commands *)

Section StoreFacts.

Import LayerStore.

Variable num : Type.

(** X13.  Toggling the visibility of a layer twice restores the state, and
    one toggle flips the flag of exactly the layers with that id. *)
Theorem toggleLayerVisibility_involution (layerId : string) (st : AppState num) :
  toggleLayerVisibility layerId (toggleLayerVisibility layerId st) = st /\
  map (fun l => visible l) (layers (toggleLayerVisibility layerId st)) =
    map (fun l => if String.eqb (id l) layerId then negb (visible l) else visible l)
        (layers st).
Proof.
  split.
  - unfold toggleLayerVisibility, updateLayer.
    destruct st as [ls m pts sc sr sa vs cnt dr did dsp old].
    unfold setLayers.
    cbn [layers drawMode drawingPoints sectorCenter sectorRadius
         sectorStartAngle viewState layerIdCounter isDragging draggedLayerId
         dragStartPosition originalLayerData].
    f_equal. rewrite map_map.
    rewrite <- (map_id ls) at 2. apply map_ext. intros l.
    destruct (String.eqb (id l) layerId) eqn:Heq; cbn; [| rewrite Heq; reflexivity].
    rewrite Heq. destruct l. cbn. rewrite Bool.negb_involutive. reflexivity.
  - unfold toggleLayerVisibility, updateLayer. cbn [layers setLayers].
    rewrite map_map. apply map_ext. intros l.
    destruct (String.eqb (id l) layerId); reflexivity.
Qed.

Lemma runStyleCommand_geometry (cmd : StyleCommand) (st : AppState num) :
  map geometryOf (layers (runStyleCommand cmd st)) = map geometryOf (layers st).
Proof.
  destruct cmd;
    unfold runStyleCommand, toggleLayerVisibility, changeLayerColor,
      changeLayerIcon, changeLayerRadius, changePointDisplayMode,
      changeLayerName, moveLayerToFolder, removeCustomFolder, updateLayer;
    cbn [layers setLayers]; rewrite map_map; apply map_ext; intros l;
    match goal with
    | |- context [if ?b then _ else _] => destruct b; reflexivity
    end.
Qed.

(** X14.  No style command (visibility, colour, icon, radius, display
    mode, name, folder) changes the number or the order of the layers, nor
    the id, the type, the geometry or the uploaded flag of any layer, nor
    any state cell other than the layers. *)
Theorem style_commands_keep_geometry (cmd : StyleCommand) (st : AppState num) :
  map geometryOf (layers (runStyleCommand cmd st)) = map geometryOf (layers st) /\
  drawMode (runStyleCommand cmd st) = drawMode st /\
  drawingPoints (runStyleCommand cmd st) = drawingPoints st /\
  viewState (runStyleCommand cmd st) = viewState st /\
  layerIdCounter (runStyleCommand cmd st) = layerIdCounter st /\
  originalLayerData (runStyleCommand cmd st) = originalLayerData st.
Proof.
  split; [apply runStyleCommand_geometry |].
  destruct cmd; repeat split; reflexivity.
Qed.

(** X15.  [removeLayer] deletes every layer with the given id and nothing
    else: the id is no longer found, every other id is found as before,
    and removing again changes nothing. *)
Theorem removeLayer_lookup (layerId : string) (st : AppState num) :
  findLayer layerId (layers (removeLayer layerId st)) = None /\
  (forall other : string,
      other <> layerId ->
      findLayer other (layers (removeLayer layerId st)) =
        findLayer other (layers st)) /\
  removeLayer layerId (removeLayer layerId st) = removeLayer layerId st.
Proof.
  unfold removeLayer, findLayer, find_first. cbn [layers setLayers].
  split; [| split].
  - induction (layers st) as [| l ls IH]; cbn; [reflexivity |].
    destruct (String.eqb (id l) layerId) eqn:Heq; cbn; [exact IH |].
    rewrite Heq. exact IH.
  - intros other Hne.
    induction (layers st) as [| l ls IH]; cbn; [reflexivity |].
    destruct (String.eqb (id l) layerId) eqn:Heq; cbn.
    + apply String.eqb_eq in Heq.
      destruct (String.eqb (id l) other) eqn:Hother; [| exact IH].
      apply String.eqb_eq in Hother. congruence.
    + destruct (String.eqb (id l) other); [reflexivity | exact IH].
  - destruct st as [ls m pts sc sr sa vs cnt dr did dsp old].
    unfold setLayers.
    cbn [layers drawMode drawingPoints sectorCenter sectorRadius
         sectorStartAngle viewState layerIdCounter isDragging draggedLayerId
         dragStartPosition originalLayerData].
    f_equal.
    induction ls as [| l ls IH]; cbn; [reflexivity |].
    destruct (String.eqb (id l) layerId) eqn:Heq; cbn; [exact IH |].
    rewrite Heq. cbn. rewrite IH. reflexivity.
Qed.

End StoreFacts.

Lemma removeLayer_lookup_witness :
  findLayer "layer-1-0"
    (layers (LayerStore.removeLayer "layer-2-0"
               (initialFloatState [lineFloatLayer; twoPointFloatLayer]))) =
  findLayer "layer-1-0"
    (layers (initialFloatState [lineFloatLayer; twoPointFloatLayer])).
Proof.
  apply (proj1 (proj2 (removeLayer_lookup float "layer-2-0"
                         (initialFloatState [lineFloatLayer; twoPointFloatLayer])))).
  discriminate.
Defined.

Section StoreComposition.

Import DrawingSession LayerStore ViewportFitter.

Lemma filter_fresh_tail (ls : list (Layer R)) (l : Layer R) :
  (forall l0, In l0 ls -> id l0 <> id l) ->
  filter (fun l0 => negb (String.eqb (id l0) (id l))) (ls ++ [l]) = ls.
Proof.
  intros Hfresh. rewrite filter_app. cbn [filter].
  rewrite String.eqb_refl. cbn [negb]. rewrite app_nil_r.
  induction ls as [| l0 rest IH]; cbn; [reflexivity |].
  destruct (String.eqb (id l0) (id l)) eqn:Heq.
  - apply String.eqb_eq in Heq. exfalso.
    apply (Hfresh l0); [left; reflexivity | exact Heq].
  - cbn. rewrite IH; [reflexivity |].
    intros l1 Hin. apply Hfresh. right. exact Hin.
Qed.

(** X16.  Removing the layer that a click has just committed gives back
    the store as it was before the click, provided the ids of the store
    were generated by the session (so that the new id is fresh). *)
Theorem commit_then_remove (now : nat) (held : ViewState R)
    (st st' : AppState R) (info : PickInfo)
    (l : Layer R) :
  idsFresh st ->
  handleMapClick now held st info = Ok st' ->
  layers st' = layers st ++ [l] ->
  layers (removeLayer (id l) st') = layers st.
Proof.
  intros [_ Hgen] Hrun Hlayers.
  destruct (handleMapClick_effect_of now held st st' info Hrun)
    as (_ & _ & _ & _ & _ & Heff).
  unfold removeLayer. cbn [layers setLayers]. rewrite Hlayers.
  apply filter_fresh_tail.
  destruct Heff as [[Hsame _] | (l' & Hl' & _ & Hid & _)].
  - rewrite Hsame in Hlayers.
    apply (f_equal (@List.length _)) in Hlayers.
    rewrite length_app in Hlayers. cbn in Hlayers. lia.
  - rewrite Hl' in Hlayers. apply app_inj_tail in Hlayers as [_ <-].
    intros l0 Hin Heq.
    destruct (Hgen l0 Hin) as (n & t & Hlt & Hid0).
    rewrite Hid, Hid0 in Heq. apply generatedId_inj in Heq as [Hn _]. lia.
Qed.

Lemma commit_then_remove_witness :
  layers (removeLayer "layer-0-3"
            (pointBranch 3 (1%R, 2%R) (initialState [] ModePoint))) =
  layers (initialState [] ModePoint).
Proof.
  apply (commit_then_remove 3 initialView (initialState [] ModePoint)
           (pointBranch 3 (1%R, 2%R) (initialState [] ModePoint))
           (clickAt (1%R, 2%R))
           (mkLayer "layer-0-3" "Point 1" point [positionItem (1%R, 2%R)]
              "#ff0000" "mdi:map-marker" true (Some 12) None None
              (Some DisplayCircle) (Some IconMarker) (Some "drawn"%string))).
  - split; [constructor | intros l0 []].
  - reflexivity.
  - reflexivity.
Defined.

(** Lookup by id sees only the geometry part when two stores agree on
    it. *)
Lemma findLayer_geometryOf (layerId : string) (ls ls' : list (Layer float)) :
  map geometryOf ls = map geometryOf ls' ->
  option_map geometryOf (findLayer layerId ls) =
  option_map geometryOf (findLayer layerId ls').
Proof.
  unfold findLayer, find_first.
  revert ls'. induction ls as [| l rest IH]; intros [| l' rest'] Heq;
    try discriminate; [reflexivity |].
  cbn [map] in Heq.
  assert (Hl : geometryOf l = geometryOf l') by congruence.
  assert (Hrest : map geometryOf rest = map geometryOf rest') by congruence.
  cbn [find].
  assert (Hid : id l = id l') by (unfold geometryOf in Hl; congruence).
  rewrite Hid.
  destruct (String.eqb (id l') layerId); [cbn; f_equal; exact Hl |].
  apply IH. exact Hrest.
Qed.

(** X17.  [focusOnLayer] reads only the id, the type, the geometry and the
    uploaded flag of the layers: after any style command it throws on the
    same ids and otherwise moves the viewport to the same place. *)
Theorem focusOnLayer_ignores_style (cmd : StyleCommand) (st : AppState float)
    (layerId : string) :
  match focusOnLayer st layerId,
        focusOnLayer (runStyleCommand cmd st) layerId with
  | Ok st1, Ok st2 => viewState st1 = viewState st2
  | TypeError, TypeError => True
  | _, _ => False
  end.
Proof.
  pose proof (runStyleCommand_geometry float cmd st) as Hgeo.
  assert (Hview : viewState (runStyleCommand cmd st) = viewState st)
    by (destruct cmd; reflexivity).
  pose proof (findLayer_geometryOf layerId _ _ Hgeo) as Hfind.
  unfold focusOnLayer.
  destruct (findLayer layerId (layers (runStyleCommand cmd st))) as [l2 |],
           (findLayer layerId (layers st)) as [l1 |];
    cbn in Hfind; try discriminate.
  - injection Hfind as Hid Hty Hdata Hup.
    unfold paddedZoom, baseZoom, isUploaded_truthy.
    rewrite Hty, Hdata, Hup.
    destruct (forEach (visitItem (type l1)) (data l1) emptyBBox); cbn; auto.
  - cbn. symmetry. exact Hview.
Qed.

End StoreComposition.

(** ** View controls *)

Section ViewFacts.

Import ViewControls.
Local Open Scope R_scope.

(** X18.  The zoom buttons keep the zoom between 1 and 20 once it is
    there, never push it past 20 (in) or below 1 (out) from anywhere,
    change nothing but the zoom, and undo each other: zooming out after
    zooming in restores the state when the zoom was at most 19, zooming in
    after zooming out when it was at least 2. *)
Theorem zoom_buttons (st : AppState R) :
  zoom (viewState (zoomIn st)) <= 20 /\
  1 <= zoom (viewState (zoomOut st)) /\
  (1 <= zoom (viewState st) <= 20 ->
   1 <= zoom (viewState (zoomIn st)) <= 20 /\
   1 <= zoom (viewState (zoomOut st)) <= 20) /\
  (1 <= zoom (viewState st) <= 19 -> zoomOut (zoomIn st) = st) /\
  (2 <= zoom (viewState st) <= 20 -> zoomIn (zoomOut st) = st) /\
  layers (zoomIn st) = layers st /\ layers (zoomOut st) = layers st.
Proof.
  destruct st as [ls m pts sc sr sa [lon lat z p b] cnt dr did dsp old].
  unfold zoomIn, zoomOut, withZoom, setViewState. cbn.
  split; [apply Rmin_l |]. split; [apply Rmax_l |].
  split.
  { intros [Hlo Hhi]. unfold Rmin, Rmax.
    destruct (Rle_dec 20 (z + 1)), (Rle_dec 1 (z - 1)); lra. }
  split.
  { intros [Hlo Hhi].
    rewrite (Rmin_right 20 (z + 1)) by lra.
    replace (z + 1 - 1) with z by ring.
    rewrite Rmax_right by lra. reflexivity. }
  split; [| split; reflexivity].
  intros [Hlo Hhi].
  rewrite (Rmax_right 1 (z - 1)) by lra.
  replace (z - 1 + 1) with z by ring.
  rewrite Rmin_right by lra. reflexivity.
Qed.

Lemma zoom_buttons_witness :
  zoomOut (zoomIn (initialState [] ModeNone)) = initialState [] ModeNone.
Proof.
  apply (proj1 (proj2 (proj2 (proj2 (zoom_buttons (initialState [] ModeNone)))))).
  cbn. lra.
Defined.

Lemma span_abs (a b : R) : Rmax a b - Rmin a b = Rabs (b - a).
Proof.
  unfold Rmax, Rmin, Rabs.
  destruct (Rle_dec a b), (Rcase_abs (b - a)); lra.
Qed.

Lemma mid_point (a b : R) : (Rmin a b + Rmax a b) / 2 = (a + b) / 2.
Proof. unfold Rmax, Rmin. destruct (Rle_dec a b); lra. Qed.

(** X19.  Rubber-band zoom.  A selection dragged in mode [none] from
    [s] to a different point [e] centres the viewport on the midpoint of
    the two, with pitch and bearing 0 and the zoom
    [14 - log2 (100 * max (|dLng|, |dLat|))] clamped to the range from 1 to
    20; the selection is then cleared, and dragging from [e] to [s] gives
    the same viewport. *)
Theorem rubber_band_zoom (st : AppState R) (s e : Coord R) :
  drawMode st = ModeNone ->
  s <> e ->
  let span := Rmax (Rabs (fst e - fst s)) (Rabs (snd e - snd s)) in
  let drag := fun a b =>
    handleRubberBandEnd st
      (handleRubberBandMove (handleRubberBandStart st idleRubberBand (moveTo a))
         (moveTo b)) in
  0 < span /\
  snd (drag s e) = idleRubberBand /\
  viewState (fst (drag s e)) =
    mkViewState ((fst s + fst e) / 2) ((snd s + snd e) / 2)
      (Rmax 1 (Rmin 20 (14 - Math_log2 (span * 100)))) 0 0 /\
  1 <= zoom (viewState (fst (drag s e))) <= 20 /\
  layers (fst (drag s e)) = layers st /\
  fst (drag e s) = fst (drag s e).
Proof.
  intros Hmode Hne span drag.
  assert (Hspan : forall a b : Coord R,
             a <> b ->
             0 < Rmax (Rabs (fst b - fst a)) (Rabs (snd b - snd a))).
  { intros [ax ay] [bx b_y] Hab. cbn [fst snd].
    destruct (Req_dec_T bx ax) as [Hx | Hx].
    - assert (Hy : b_y <> ay) by (intros Hy; apply Hab; subst; reflexivity).
      apply Rlt_le_trans with (Rabs (b_y - ay)); [| apply Rmax_r].
      apply Rabs_pos_lt. lra.
    - apply Rlt_le_trans with (Rabs (bx - ax)); [| apply Rmax_l].
      apply Rabs_pos_lt. lra. }
  assert (Hdrag : forall a b,
             a <> b ->
             drag a b =
             (setViewState
                (mkViewState ((fst a + fst b) / 2) ((snd a + snd b) / 2)
                   (Rmax 1 (Rmin 20
                      (14 - Math_log2
                              (Rmax (Rabs (fst b - fst a)) (Rabs (snd b - snd a)) * 100))))
                   0 0) st,
              idleRubberBand)).
  { intros a b Hab. unfold drag, handleRubberBandStart. rewrite Hmode.
    cbn [coordinate moveTo handleRubberBandMove isRubberBandZooming
         rubberBandStart handleRubberBandEnd rubberBandEnd].
    rewrite !mid_point, !span_abs.
    pose proof (Hspan a b Hab) as Hpos.
    destruct (Req_dec_T _ 0) as [H0 | _]; [lra | reflexivity]. }
  split; [exact (Hspan s e Hne) |].
  rewrite (Hdrag s e Hne), (Hdrag e s (not_eq_sym Hne)).
  cbn [fst snd viewState setViewState zoom layers].
  split; [reflexivity |]. split; [reflexivity |].
  split.
  { split; [apply Rmax_l |].
    apply Rmax_lub; [lra | apply Rmin_l]. }
  split; [reflexivity |].
  f_equal. f_equal.
  - field.
  - field.
  - rewrite (Rabs_minus_sym (fst s) (fst e)), (Rabs_minus_sym (snd s) (snd e)).
    reflexivity.
Qed.

Lemma rubber_band_zoom_witness :
  1 <= zoom (viewState (fst
         (handleRubberBandEnd (initialState [] ModeNone)
            (handleRubberBandMove
               (handleRubberBandStart (initialState [] ModeNone) idleRubberBand
                  (moveTo (77, 28)))
               (moveTo (78, 30)))))) <= 20.
Proof.
  apply (rubber_band_zoom (initialState [] ModeNone) (77, 28) (78, 30)).
  - reflexivity.
  - intros Heq. injection Heq as H1 H2. lra.
Defined.

End ViewFacts.

(** ** When nothing is dragged *)

Section DragRefusals.

Import DragTranslate.

(** X20.  [handleDragStart] leaves the state as it is, without throwing,
    whenever a drawing mode is active, the press is not on an object of a
    layer, the pressed id names no layer of the store, or the layer it
    names is an uploaded one: uploaded layers are never draggable. *)
Theorem handleDragStart_refuses (st : AppState R) (info : PickInfo) :
  drawMode st <> ModeNone \/
  object info = false \/
  layer info = None \/
  (exists layerId, layer info = Some layerId /\
                   findLayer layerId (layers st) = None) \/
  (exists layerId l, layer info = Some layerId /\
                     findLayer layerId (layers st) = Some l /\
                     isUploaded l = Some true) ->
  handleDragStart st info = Ok st.
Proof.
  unfold handleDragStart.
  intros [Hmode | [Hobj | [Hlayer | [(i & Hi & Hfind) | (i & l & Hi & Hfind & Hup)]]]].
  - destruct (drawMode st); try reflexivity. contradiction.
  - rewrite Hobj. destruct (drawMode st); reflexivity.
  - rewrite Hlayer. destruct (drawMode st), (object info); reflexivity.
  - rewrite Hi, Hfind. destruct (drawMode st), (object info); reflexivity.
  - rewrite Hi, Hfind. unfold isUploaded_truthy. rewrite Hup.
    destruct (drawMode st), (object info); reflexivity.
Qed.

Lemma handleDragStart_refuses_witness :
  handleDragStart (initialState [twoPointLayer] ModePolygon)
    (pressOn "layer-0-0" (0%R, 0%R)) =
  Ok (initialState [twoPointLayer] ModePolygon).
Proof.
  apply (handleDragStart_refuses (initialState [twoPointLayer] ModePolygon)
           (pressOn "layer-0-0" (0%R, 0%R))).
  left. discriminate.
Defined.

(** X21.  Releasing ends the gesture: [handleDragEnd] keeps the layers as
    the last move left them, and after it no sequence of move events
    changes the state any more.  The same holds for any state in which no
    gesture is in progress. *)
Theorem handleDragEnd_stops (st : AppState R) (infos : list PickInfo) :
  layers (handleDragEnd st) = layers st /\
  handleDrags (handleDragEnd st) infos = Ok (handleDragEnd st) /\
  (isDragging st = false -> handleDrags st infos = Ok st).
Proof.
  assert (Hidle : forall s : AppState R,
             isDragging s = false -> handleDrags s infos = Ok s).
  { intros s Hs. induction infos as [| info rest IH]; [reflexivity |].
    cbn [handleDrags]. unfold handleDrag. rewrite Hs. cbn [bind]. exact IH. }
  split; [reflexivity |].
  split; [apply Hidle; reflexivity | apply Hidle].
Qed.

End DragRefusals.

(** ** Helpers of the render list *)

Section RenderHelpers.

Import Render.

Lemma hexDigit_bound (c : ascii) (n : nat) : hexDigit c = Some n -> n < 16.
Proof.
  unfold hexDigit.
  destruct (Nat.leb 48 (nat_of_ascii c) && Nat.leb (nat_of_ascii c) 57) eqn:H1.
  - apply Bool.andb_true_iff in H1 as [Ha Hb].
    apply Nat.leb_le in Ha, Hb. intros [= <-]. lia.
  - destruct (Nat.leb 97 (nat_of_ascii c) && Nat.leb (nat_of_ascii c) 102) eqn:H2.
    + apply Bool.andb_true_iff in H2 as [Ha Hb].
      apply Nat.leb_le in Ha, Hb. intros [= <-]. lia.
    + destruct (Nat.leb 65 (nat_of_ascii c) && Nat.leb (nat_of_ascii c) 70) eqn:H3;
        [| discriminate].
      apply Bool.andb_true_iff in H3 as [Ha Hb].
      apply Nat.leb_le in Ha, Hb. intros [= <-]. lia.
Qed.

Lemma hexPair_bound (hi lo : ascii) (n : nat) : hexPair hi lo = Some n -> n <= 255.
Proof.
  unfold hexPair.
  destruct (hexDigit hi) as [h |] eqn:Hh; [| discriminate].
  destruct (hexDigit lo) as [l |] eqn:Hl; [| discriminate].
  apply hexDigit_bound in Hh, Hl. intros [= <-]. lia.
Qed.

(** X22.  [hexToRgb] always returns three components, each between 0 and
    255, whatever string it is given, and a leading [#] makes no
    difference. *)
Theorem hexToRgb_components (hex : string) :
  (exists r g b, hexToRgb hex = [r; g; b] /\ r <= 255 /\ g <= 255 /\ b <= 255) /\
  (forall c rest, hex = String c rest -> c <> "#"%char ->
                  hexToRgb (String "#" hex) = hexToRgb hex).
Proof.
  split.
  - unfold hexToRgb.
    set (body := match hex with String "#"%char rest => rest | _ => hex end).
    destruct (list_ascii_of_string body)
      as [| r1 [| r2 [| g1 [| g2 [| b1 [| b2 [| x more]]]]]]];
      try (exists 0, 0, 0; split; [reflexivity | lia]).
    destruct (hexPair r1 r2) as [r |] eqn:Hr;
      [| exists 0, 0, 0; split; [reflexivity | lia]].
    destruct (hexPair g1 g2) as [g |] eqn:Hg;
      [| exists 0, 0, 0; split; [reflexivity | lia]].
    destruct (hexPair b1 b2) as [b |] eqn:Hb;
      [| exists 0, 0, 0; split; [reflexivity | lia]].
    exists r, g, b. split; [reflexivity |].
    split; [exact (hexPair_bound _ _ _ Hr) |].
    split; [exact (hexPair_bound _ _ _ Hg) | exact (hexPair_bound _ _ _ Hb)].
  - intros c rest -> Hc. unfold hexToRgb.
    destruct (Ascii.eqb c "#") eqn:Heq.
    + apply Ascii.eqb_eq in Heq. contradiction.
    + destruct c as [[] [] [] [] [] [] [] []]; try reflexivity.
      exfalso. apply Hc. reflexivity.
Qed.

Lemma hexToRgb_components_witness :
  hexToRgb (String "#" "ff8800") = hexToRgb "ff8800".
Proof.
  apply (proj2 (hexToRgb_components "ff8800") "f"%char "f8800"%string).
  - reflexivity.
  - discriminate.
Defined.

Lemma run_of_list (A : Type) (n k : nat) (xs : list A) :
  exists before after, xs = before ++ firstn n (skipn k xs) ++ after.
Proof.
  exists (firstn k xs), (skipn n (skipn k xs)).
  rewrite (firstn_skipn n (skipn k xs)), (firstn_skipn k xs). reflexivity.
Qed.

(** X23.  [slice] never reorders, repeats or invents elements: the result
    is a run of consecutive elements of the array.  [slice(0, -1)] drops
    the last element, [slice(0, n)] keeps the first [n]. *)
Theorem slice_is_a_run (A : Type) (start end_ : Z) (xs : list A) :
  (exists before after, xs = before ++ slice start end_ xs ++ after) /\
  slice 0 (-1) xs = removelast xs /\
  forall n : nat, slice 0 (Z.of_nat n) xs = firstn n xs.
Proof.
  split; [| split].
  - unfold slice. apply run_of_list.
  - unfold slice.
    replace (0 <? 0)%Z with false by reflexivity.
    replace (-1 <? 0)%Z with true by reflexivity.
    rewrite (Z.min_l 0) by lia. cbn [Z.to_nat skipn]. rewrite Z.sub_0_r.
    destruct xs as [| x xs']; [reflexivity |].
    rewrite Z.max_l by (cbn [List.length]; lia).
    replace (Z.to_nat (Z.of_nat (List.length (x :: xs')) + -1))
      with (List.length xs') by (cbn [List.length]; lia).
    rewrite removelast_firstn_len. cbn [List.length Nat.pred]. reflexivity.
  - intros n. apply slice_prefix.
Qed.

End RenderHelpers.

(** ** What a layer pushes onto the render list *)

Section RenderLayerFacts.

Import Render.

Variable num : Type.

Lemma append_length (a b : string) :
  String.length (a ++ b) = String.length a + String.length b.
Proof. induction a as [| c a IH]; cbn; [reflexivity | rewrite IH; reflexivity]. Qed.

Lemma append_nonempty_neq (a b : string) : b <> ""%string -> (a ++ b)%string <> a.
Proof.
  intros Hb Heq. apply (f_equal String.length) in Heq.
  rewrite append_length in Heq. destruct b; [contradiction | cbn in Heq; lia].
Qed.

Lemma renderLayer_cases (l : Layer num) :
  (renderable l = false -> renderLayer l = TypeError) /\
  (renderable l = true ->
   exists pushed,
     renderLayer l = Ok pushed /\
     1 <= List.length pushed <= 2 /\
     forall d, In d pushed ->
       (exists suffix, deckId d = (id l ++ suffix)%string /\ suffix <> ""%string) /\
       deckId d <> id l).
Proof.
  assert (Hsuffix : forall (d : DeckLayer num) (suffix : string),
             deckId d = (id l ++ suffix)%string -> suffix <> ""%string ->
             (exists s, deckId d = (id l ++ s)%string /\ s <> ""%string) /\
             deckId d <> id l).
  { intros d suffix Hd Hne. split; [exists suffix; split; assumption |].
    rewrite Hd. apply append_nonempty_neq. exact Hne. }
  unfold renderable, renderLayer. split.
  - destruct (type l); try discriminate;
      destruct (data l) as [| first rest]; try reflexivity;
      destruct (polygon_ first); try discriminate; reflexivity.
  - intros Hok.
    destruct (type l);
      try (destruct (data l) as [| first rest]; [discriminate |];
           destruct (polygon_ first) as [ring |]; [| discriminate]);
      try destruct (displayModeOrCircle (pointDisplayMode l));
      eexists; (split; [reflexivity |]); (split; [cbn; lia |]);
      intros d Hin; cbn in Hin;
      repeat match type of Hin with
             | _ \/ _ => destruct Hin as [<- | Hin]
             | False => contradiction
             end;
      (eapply Hsuffix; [cbn [deckId]; reflexivity | discriminate]).
Qed.

(** X24.  [renderLayer] throws exactly for a polygon or area layer without
    items or whose first item has no ring.  Otherwise it pushes one or two
    deck.gl layers, and the id of each is the id of the layer followed by a
    non-empty suffix, hence never the id of the layer itself. *)
Theorem renderLayer_result (l : Layer num) :
  (renderable l = false -> renderLayer l = TypeError) /\
  (renderable l = true ->
   exists pushed,
     renderLayer l = Ok pushed /\
     1 <= List.length pushed <= 2 /\
     forall d, In d pushed ->
       (exists suffix, deckId d = (id l ++ suffix)%string /\ suffix <> ""%string) /\
       deckId d <> id l).
Proof. apply renderLayer_cases. Qed.

End RenderLayerFacts.

Lemma renderLayer_result_witness :
  exists pushed,
    Render.renderLayer lineFloatLayer = Ok pushed /\
    1 <= List.length pushed <= 2 /\
    forall d, In d pushed ->
      (exists suffix, deckId d = (id lineFloatLayer ++ suffix)%string /\
                      suffix <> ""%string) /\
      deckId d <> id lineFloatLayer.
Proof.
  apply (proj2 (renderLayer_result float lineFloatLayer)). reflexivity.
Defined.

Section PolygonMarkers.

Import JSMath Geometry DrawingSession Render.
Local Open Scope R_scope.

(** X25.  A polygon that a session commits (by a click within the
    tolerance of the zoom that the click handler holds) is rendered with
    one vertex marker per click and none for the closing copy of the first
    vertex: the markers are the accumulated vertices followed by the
    closing click. *)
Theorem committed_polygon_markers (now : nat) (held : ViewState R)
    (st : AppState R) (c v0 v1 : Coord R) (rest : list (Coord R)) :
  drawMode st = ModePolygon ->
  drawingPoints st = v0 :: v1 :: rest ->
  distanceInDegrees c v0 < tolerance held ->
  exists st' l fill,
    handleMapClick now held st (clickAt c) = Ok st' /\
    layers st' = layers st ++ [l] /\
    renderLayer l =
      Ok [fill;
          ScatterplotLayer (id l ++ "-vertices")%string
            (map (fun vertex => positionItem vertex) ((v0 :: v1 :: rest) ++ [c]))
            100 (ConstColor [0; 255; 0; 255]%nat) Meters false].
Proof.
  intros Hmode Hpts Hlt.
  eexists. eexists. eexists. split.
  - unfold handleMapClick. rewrite Hmode. cbn [coordinate clickAt].
    rewrite (polygonBranch_close now held st c v0 v1 rest Hpts Hlt).
    reflexivity.
  - split; [reflexivity |].
    unfold renderLayer. cbn [type data polygon_ polygonItem color id].
    assert (Hslice : slice 0 (-1) ((v0 :: v1 :: rest) ++ [c; v0]) =
                     (v0 :: v1 :: rest) ++ [c]).
    { replace ((v0 :: v1 :: rest) ++ [c; v0])
        with (((v0 :: v1 :: rest) ++ [c]) ++ [v0])
        by (rewrite <- app_assoc; reflexivity).
      unfold slice.
      replace (0 <? 0)%Z with false by reflexivity.
      replace (-1 <? 0)%Z with true by reflexivity.
      rewrite (Z.min_l 0) by lia. cbn [Z.to_nat skipn]. rewrite Z.sub_0_r.
      rewrite length_app. cbn [List.length].
      rewrite Z.max_l by lia.
      replace (Z.to_nat (Z.of_nat (List.length ((v0 :: v1 :: rest) ++ [c]) + 1) + -1))
        with (List.length ((v0 :: v1 :: rest) ++ [c]) + 0)%nat by lia.
      rewrite firstn_app_2. cbn [firstn]. apply app_nil_r. }
    rewrite Hslice. reflexivity.
Qed.

Lemma committed_polygon_markers_witness :
  exists st' l fill,
    handleMapClick 0 initialView (twoVertexSession ModePolygon)
      (clickAt (0.01, 0)) = Ok st' /\
    layers st' = layers (twoVertexSession ModePolygon) ++ [l] /\
    renderLayer l =
      Ok [fill;
          ScatterplotLayer (id l ++ "-vertices")%string
            (map (fun vertex => positionItem vertex)
                 ([(0, 0); (1, 0)] ++ [(0.01, 0)]))
            100 (ConstColor [0; 255; 0; 255]%nat) Meters false].
Proof.
  apply (committed_polygon_markers 0 initialView (twoVertexSession ModePolygon)
           (0.01, 0) (0, 0) (1, 0) []).
  - reflexivity.
  - reflexivity.
  - rewrite distanceInDegrees_eq, tolerance_eq.
    exact near_origin_within_tolerance.
Defined.

End PolygonMarkers.

(** ** Connection lines of the live overlay *)

Section ConnectionFacts.

Import LiveOverlay Render.

Variable num : Type.

(** The elements of an array of objects are read without exception. *)
Lemma recordsOf_records (records : list (NodeRecord num)) :
  recordsOf (map ElemRecord records) = Ok records.
Proof.
  unfold recordsOf. induction records as [| r rest IH]; cbn; [reflexivity |].
  cbn in IH. rewrite IH. reflexivity.
Qed.

(** X26.  Every connection line joins two records of the same feed
    snapshot: it starts at the position of a record [n], names one of the
    ids that [n] lists, and ends at the position of the first record of
    the snapshot with that id.  An id that no record of the snapshot
    carries gives no line, and no line at all is drawn unless the payload
    is a non-empty array; for a non-empty array of objects the lines, if
    there are any, are what the connection layer is given. *)
Theorem connectionLines_join_records (records : list (NodeRecord num)) :
  (forall line, In line (connectionLines records) ->
     exists n m,
       In n records /\ In m records /\
       In (toUserId line) (connectedNodeIds n) /\
       fromUserId line = userId n /\
       toUserId line = userId m /\
       find_first (fun r => Z.eqb (userId r) (toUserId line)) records = Some m /\
       cl_path line =
         [(longitude n, latitude n); (longitude m, latitude m)]) /\
  (forall missing : Z,
     (forall r, In r records -> userId r <> missing) ->
     forall line, In line (connectionLines records) -> toUserId line <> missing) /\
  (forall payload : FeedPayload num,
     nonEmptyArray payload = None ->
     socketConnectionsDeckLayers payload = Ok []) /\
  (records <> [] ->
   socketConnectionsDeckLayers (feedOf records) =
     Ok (match connectionLines records with
         | [] => []
         | ls => [ConnectionsLayer "socket-connections"%string ls
                    (ConstColor [0; 123; 255; 180]%nat) 2 false]
         end)).
Proof.
  assert (Hsound : forall line, In line (connectionLines records) ->
     exists n m,
       In n records /\ In m records /\
       In (toUserId line) (connectedNodeIds n) /\
       fromUserId line = userId n /\
       toUserId line = userId m /\
       find_first (fun r => Z.eqb (userId r) (toUserId line)) records = Some m /\
       cl_path line =
         [(longitude n, latitude n); (longitude m, latitude m)]).
  { intros line Hin. unfold connectionLines in Hin.
    apply in_flat_map in Hin as (n & Hn & Hin).
    apply in_flat_map in Hin as (connectedId & Hid & Hin).
    destruct (find_first (fun m => Z.eqb (userId m) connectedId) records)
      as [m |] eqn:Hfind; [| contradiction].
    destruct Hin as [<- | []]. cbn [toUserId fromUserId cl_path].
    unfold find_first in Hfind.
    pose proof (find_some _ _ Hfind) as [Hm Heq].
    apply Z.eqb_eq in Heq.
    exists n, m. repeat split; try assumption; try reflexivity.
    symmetry. exact Heq. }
  split; [exact Hsound |]. split; [| split].
  - intros missing Hmissing line Hin Heq.
    destruct (Hsound line Hin) as (n & m & _ & Hm & _ & _ & Hto & _).
    apply (Hmissing m Hm). rewrite <- Hto. exact Heq.
  - intros payload Hnone. unfold socketConnectionsDeckLayers.
    rewrite Hnone. reflexivity.
  - intros Hne. unfold socketConnectionsDeckLayers, feedOf.
    destruct records as [| r rest]; [contradiction |].
    cbn [map nonEmptyArray].
    change (ElemRecord r :: map ElemRecord rest)
      with (map (@ElemRecord num) (r :: rest)).
    rewrite recordsOf_records. reflexivity.
Qed.

End ConnectionFacts.

Lemma connectionLines_join_records_witness :
  (forall r, In r twoNodeFeed -> userId r <> 3%Z) /\
  In (@Render.mkConnectionLine R [(77, 28); (78, 29)]%R 1%Z 2%Z)
     (Render.connectionLines twoNodeFeed) /\
  Render.toUserId
    (@Render.mkConnectionLine R [(77, 28); (78, 29)]%R 1%Z 2%Z) <> 3%Z.
Proof.
  assert (Hids : forall r, In r twoNodeFeed -> userId r <> 3%Z).
  { intros r [<- | [<- | []]]; discriminate. }
  assert (Hin : In (@Render.mkConnectionLine R [(77, 28); (78, 29)]%R 1%Z 2%Z)
                   (Render.connectionLines twoNodeFeed)).
  { left. reflexivity. }
  split; [exact Hids |]. split; [exact Hin |].
  exact (proj1 (proj2 (connectionLines_join_records R twoNodeFeed)) 3%Z
           Hids _ Hin).
Defined.

(** ** Hover preview *)

Section HandlerViewport.

Import JSMath Geometry DrawingSession Hover Toolbar.
Local Open Scope R_scope.

Lemma no_commit_without_growth (ls : list (Layer R)) (l : Layer R) :
  ls <> ls ++ [l].
Proof.
  intros Heq. apply (f_equal (@List.length _)) in Heq.
  rewrite length_app in Heq. cbn in Heq. lia.
Qed.


(** What the pointer highlights in polygon or area mode: the first vertex,
    when it is closer than the tolerance of the viewport's zoom. *)
Lemma hover_closing (st : AppState R) (pv : Preview) (c : Coord R) :
  drawMode st = ModePolygon \/ drawMode st = ModeArea ->
  hoveredPoint (handleMouseMovePreview st pv (moveTo c)) =
  match drawingPoints st with
  | firstPoint :: _ :: _ =>
      if Rlt_dec (distanceInDegrees c firstPoint) (tolerance (viewState st))
      then Some firstPoint else None
  | _ => None
  end.
Proof.
  intros Hmode. unfold handleMouseMovePreview.
  destruct Hmode as [-> | ->]; reflexivity.
Qed.

(** When a click in polygon or area mode commits: with two vertices or
    more, closer to the first than the tolerance of the zoom that the
    handler holds. *)
Lemma click_commits_iff (now : nat) (held : ViewState R) (st : AppState R)
    (c : Coord R) :
  drawMode st = ModePolygon \/ drawMode st = ModeArea ->
  (exists st' l,
      handleMapClick now held st (clickAt c) = Ok st' /\
      layers st' = layers st ++ [l]) <->
  (exists v0 v1 rest,
      drawingPoints st = v0 :: v1 :: rest /\
      distanceInDegrees c v0 < tolerance held).
Proof.
  intros Hmode.
  assert (Hclick : handleMapClick now held st (clickAt c) =
                   Ok (if DrawMode_eqb (drawMode st) ModePolygon
                       then polygonBranch now held c st
                       else areaBranch now held c st)).
  { unfold handleMapClick. destruct Hmode as [-> | ->]; reflexivity. }
  rewrite Hclick. split.
  - intros (st' & l & Hrun & Hgrow). injection Hrun as <-.
    destruct (drawingPoints st) as [| v0 [| v1 rest]] eqn:Hpts.
    + exfalso. unfold polygonBranch, areaBranch in Hgrow. rewrite Hpts in Hgrow.
      destruct (DrawMode_eqb _ _); cbn in Hgrow;
        exact (no_commit_without_growth _ _ Hgrow).
    + exfalso. unfold polygonBranch, areaBranch in Hgrow. rewrite Hpts in Hgrow.
      destruct (DrawMode_eqb _ _); cbn in Hgrow;
        exact (no_commit_without_growth _ _ Hgrow).
    + exists v0, v1, rest. split; [reflexivity |].
      destruct (Rlt_dec (distanceInDegrees c v0) (tolerance held))
        as [Hlt | Hge]; [exact Hlt |].
      exfalso.
      assert (Hge' : tolerance held <= distanceInDegrees c v0) by lra.
      destruct (polygonBranch_append now held st c v0 v1 rest Hpts Hge')
        as [Hp Ha].
      rewrite Hp, Ha in Hgrow.
      destruct (DrawMode_eqb _ _); cbn in Hgrow;
        exact (no_commit_without_growth _ _ Hgrow).
  - intros (v0 & v1 & rest & Hpts & Hlt).
    destruct (DrawMode_eqb (drawMode st) ModePolygon).
    + eexists. eexists. split; [reflexivity |].
      rewrite (polygonBranch_close now held st c v0 v1 rest Hpts Hlt).
      reflexivity.
    + eexists. eexists. split; [reflexivity |].
      rewrite (areaBranch_close now held st c v0 v1 rest Hpts Hlt).
      reflexivity.
Qed.

(** X27.  The highlight of the first vertex and the click.  In polygon or
    area mode, moving the pointer to [c] highlights a point exactly when
    there are two vertices or more and [c] is closer to the first than the
    tolerance of the viewport's zoom, and the highlighted point is then
    the first vertex; a click at [c] closes the ring and commits a layer
    exactly when [c] is closer than the tolerance of the zoom that the
    click handler holds.  So the highlight tells what the click will do
    whenever the two zooms are equal.  In every other mode nothing is ever
    highlighted. *)
Theorem hover_highlight_predicts_close (now : nat) (held : ViewState R)
    (st : AppState R) (pv : Preview) (c : Coord R) :
  (drawMode st = ModePolygon \/ drawMode st = ModeArea ->
   (hoveredPoint (handleMouseMovePreview st pv (moveTo c)) <> None <->
    exists v0 v1 rest,
      drawingPoints st = v0 :: v1 :: rest /\
      distanceInDegrees c v0 < tolerance (viewState st)) /\
   ((exists st' l,
        handleMapClick now held st (clickAt c) = Ok st' /\
        layers st' = layers st ++ [l]) <->
    exists v0 v1 rest,
      drawingPoints st = v0 :: v1 :: rest /\
      distanceInDegrees c v0 < tolerance held) /\
   (zoom held = zoom (viewState st) ->
    (hoveredPoint (handleMouseMovePreview st pv (moveTo c)) <> None <->
     exists st' l,
       handleMapClick now held st (clickAt c) = Ok st' /\
       layers st' = layers st ++ [l])) /\
   (forall v, hoveredPoint (handleMouseMovePreview st pv (moveTo c)) = Some v ->
              hd_error (drawingPoints st) = Some v)) /\
  (drawMode st <> ModeNone -> drawMode st <> ModePolygon ->
   drawMode st <> ModeArea ->
   hoveredPoint (handleMouseMovePreview st pv (moveTo c)) = None).
Proof.
  split.
  - intros Hmode.
    assert (Hhover :
              hoveredPoint (handleMouseMovePreview st pv (moveTo c)) <> None <->
              exists v0 v1 rest,
                drawingPoints st = v0 :: v1 :: rest /\
                distanceInDegrees c v0 < tolerance (viewState st)).
    { rewrite (hover_closing st pv c Hmode).
      destruct (drawingPoints st) as [| v0 [| v1 rest]].
      - split; [intros H; contradiction | intros (? & ? & ? & H & _); discriminate].
      - split; [intros H; contradiction | intros (? & ? & ? & H & _); discriminate].
      - destruct (Rlt_dec (distanceInDegrees c v0) (tolerance (viewState st)))
          as [Hlt | Hge].
        + split; [| intros _; discriminate].
          intros _. exists v0, v1, rest. split; [reflexivity | exact Hlt].
        + split; [intros H; contradiction |].
          intros (w0 & w1 & more & Heq & Hlt). injection Heq as <- <- <-.
          contradiction. }
    split; [exact Hhover |].
    split; [exact (click_commits_iff now held st c Hmode) |].
    split.
    + intros Hzoom. rewrite Hhover, (click_commits_iff now held st c Hmode).
      rewrite (tolerance_zoom held (viewState st) Hzoom). reflexivity.
    + intros v. rewrite (hover_closing st pv c Hmode).
      destruct (drawingPoints st) as [| v0 [| v1 rest]]; try discriminate.
      destruct (Rlt_dec _ _); [| discriminate].
      intros [= <-]. reflexivity.
  - intros Hnone Hpoly Harea. unfold handleMouseMovePreview.
    destruct (drawMode st); try reflexivity; contradiction.
Qed.

Lemma hover_highlight_witness :
  hoveredPoint
    (handleMouseMovePreview (twoVertexSession ModePolygon)
       (mkPreview None None) (moveTo (0.01, 0))) <> None <->
  exists st' l,
    handleMapClick 0 initialView (twoVertexSession ModePolygon)
      (clickAt (0.01, 0)) = Ok st' /\
    layers st' = layers (twoVertexSession ModePolygon) ++ [l].
Proof.
  apply (proj1 (proj2 (proj2
           (proj1 (hover_highlight_predicts_close 0 initialView
                     (twoVertexSession ModePolygon)
                     (mkPreview None None) (0.01, 0))
                  (or_introl eq_refl))))).
  reflexivity.
Defined.



Lemma snoc_neq (A : Type) (xs : list A) (x : A) : xs ++ [x] <> xs.
Proof.
  intros Heq. apply (f_equal (@List.length _)) in Heq.
  rewrite length_app in Heq. cbn in Heq. lia.
Qed.

(** Two lists of different lengths are different. *)
Ltac longer :=
  let Heq := fresh "Heq" in
  intros Heq; apply (f_equal (@List.length _)) in Heq;
  cbn in Heq; rewrite ?length_app in Heq; cbn in Heq; lia.

Ltac shorter Hnew :=
  let Heq := fresh "Heq" in
  intros Heq; rewrite <- Heq in Hnew;
  apply (f_equal (@List.length _)) in Hnew;
  cbn in Hnew; rewrite ?length_app in Hnew; cbn in Hnew; lia.

(** [changesDependency] is right about the render that follows a click:
    where it says no, the click has left the whole state as it was (every
    setter was given the value already stored, or none was called), and
    where it says yes, one of the state cells that the dependency list
    names has a new value. *)
Lemma changesDependency_sound (now : nat) (held : ViewState R)
    (st st' : AppState R) (info : PickInfo) :
  handleMapClick now held st info = Ok st' ->
  if changesDependency st info then
    drawMode st' <> drawMode st \/
    drawingPoints st' <> drawingPoints st \/
    sectorCenter st' <> sectorCenter st \/
    sectorRadius st' <> sectorRadius st \/
    sectorStartAngle st' <> sectorStartAngle st \/
    layers st' <> layers st
  else st' = st.
Proof.
  intros Hrun. unfold handleMapClick in Hrun. unfold changesDependency.
  destruct (drawMode st) eqn:Hmode;
    [injection Hrun as <-; reflexivity | ..];
    destruct (coordinate info) as [c |]; try discriminate;
    injection Hrun as <-.
  - (* point *)
    do 5 right. cbn. apply snoc_neq.
  - (* polygon *)
    unfold polygonBranch.
    destruct (drawingPoints st) as [| v0 [| v1 rest]] eqn:Hpts;
      try (right; left; cbn; rewrite ?Hpts; longer).
    destruct (Rlt_dec _ _).
    + do 5 right. cbn. apply snoc_neq.
    + right; left. cbn. rewrite ?Hpts. longer.
  - (* line *)
    unfold lineBranch. destruct (Nat.eqb _ 2).
    + do 5 right. cbn. apply snoc_neq.
    + right; left. cbn. apply snoc_neq.
  - (* sector *)
    unfold sectorBranch.
    destruct (sectorCenter st) as [center |] eqn:Hcenter.
    + destruct (Req_dec_T (sectorRadius st) 0) as [Hr | Hr].
      * destruct (Req_dec_T _ 0) as [Hzero | Hnonzero].
        -- rewrite Hzero, <- Hr. destruct st; reflexivity.
        -- do 3 right; left. cbn. rewrite ?Hr. exact Hnonzero.
      * destruct (Req_dec_T (sectorStartAngle st) 0) as [Ha | Ha].
        -- destruct (Req_dec_T _ 0) as [Hzero | Hnonzero].
           ++ rewrite Hzero, <- Ha. destruct st; reflexivity.
           ++ do 4 right; left. cbn. rewrite ?Ha. exact Hnonzero.
        -- do 5 right. cbn. apply snoc_neq.
    + do 2 right; left. cbn. rewrite ?Hcenter. discriminate.
  - (* distance *)
    unfold distanceBranch.
    destruct (drawingPoints st ++ [c]) as [| p0 [| p1 [| p2 more]]] eqn:Hnew;
      right; left; cbn; shorter Hnew.
  - (* area *)
    unfold areaBranch.
    destruct (drawingPoints st) as [| v0 [| v1 rest]] eqn:Hpts;
      try (right; left; cbn; rewrite ?Hpts; longer).
    destruct (Rlt_dec _ _).
    + do 5 right. cbn. apply snoc_neq.
    + right; left. cbn. rewrite ?Hpts. longer.
  - (* azimuth *)
    unfold azimuthBranch.
    destruct (drawingPoints st ++ [c]) as [| p0 [| p1 [| p2 more]]] eqn:Hnew;
      right; left; cbn; shorter Hnew.
Qed.



End HandlerViewport.

(** ** GeoJSON upload *)

Section UploadFacts.

Import DrawingSession Upload.

(** Appending a layer with the next generated id keeps the ids fresh. *)
Lemma idsFresh_append (now : nat) (st st' : AppState R) (l : Layer R) :
  idsFresh st ->
  layers st' = layers st ++ [l] ->
  layerIdCounter st' = S (layerIdCounter st) ->
  id l = generatedId (layerIdCounter st) now ->
  idsFresh st'.
Proof.
  intros [Hnodup Hgen] Hl Hc Hid. unfold idsFresh. rewrite Hl, Hc. split.
  - rewrite map_app. cbn [map].
    apply NoDup_app; [exact Hnodup | repeat constructor; intros [] |].
    intros i Hin [Heq | []]. subst i.
    apply in_map_iff in Hin as (l0 & Hl0 & Hin0).
    destruct (Hgen l0 Hin0) as (n & t & Hlt & Hid0).
    rewrite Hid, Hid0 in Hl0. apply generatedId_inj in Hl0 as [Hn _]. lia.
  - intros l' Hin. apply in_app_or in Hin as [Hin | [<- | []]].
    + destruct (Hgen l' Hin) as (n & t & Hlt & Hid').
      exists n, t. split; [lia | exact Hid'].
    + exists (layerIdCounter st), now. split; [lia | exact Hid].
Qed.

Lemma collect_sorted (features : list Feature) (b b' : Batches) :
  sortedBatches b ->
  forEach collect features b = Ok b' ->
  sortedBatches b'.
Proof.
  revert b. induction features as [| f rest IH]; intros b Hb Hrun; cbn in Hrun.
  - injection Hrun as <-. exact Hb.
  - destruct (collect b f) as [b1 |] eqn:Hstep; [| discriminate].
    cbn in Hrun. apply (IH b1); [| exact Hrun].
    destruct Hb as (Hg & Hl).
    unfold collect in Hstep.
    destruct (geometry f) as [[c | [[| first more] |] | [cs |] |] |];
      try discriminate;
      injection Hstep as <-; unfold sortedBatches; cbn [points polygons lines];
      rewrite ?forallb_app, ?Hg, ?Hl; split; reflexivity.
Qed.

(** One batch: nothing for an empty batch, else one layer with the next
    generated id. *)
Lemma addBatch_effect (mk : string -> nat -> list (Item R) -> Layer R)
    (now count : nat) (items : list (Item R)) (st : AppState R) :
  (items = [] /\ addBatch mk now count items st = st) \/
  (items <> [] /\
   layers (addBatch mk now count items st) =
     layers st ++ [mk (generatedId (layerIdCounter st) now) count items] /\
   layerIdCounter (addBatch mk now count items st) = S (layerIdCounter st)).
Proof.
  destruct items as [| item rest]; [left; split; reflexivity | right].
  split; [discriminate |]. split; reflexivity.
Qed.

Lemma addBatch_step (mk : string -> nat -> list (Item R) -> Layer R)
    (now count : nat) (items : list (Item R)) (st : AppState R)
    (added : list (Layer R)) (base : list (Layer R)) :
  (forall i, id (mk i count items) = i) ->
  (items <> [] -> uploadedLayer (mk (generatedId (layerIdCounter st) now) count items)) ->
  layers st = base ++ added ->
  Forall uploadedLayer added ->
  exists added',
    layers (addBatch mk now count items st) = base ++ added' /\
    List.length added' <= S (List.length added) /\
    Forall uploadedLayer added' /\
    (idsFresh st -> idsFresh (addBatch mk now count items st)).
Proof.
  intros Hid Hup Hlayers Hall.
  destruct (addBatch_effect mk now count items st) as [[_ Hsame] | (Hne & Hl & Hc)].
  - exists added. rewrite Hsame.
    split; [exact Hlayers |]. split; [lia |]. split; [exact Hall | auto].
  - exists (added ++ [mk (generatedId (layerIdCounter st) now) count items]).
    split; [rewrite Hl, Hlayers, app_assoc; reflexivity |].
    split; [rewrite length_app; cbn; lia |].
    split.
    + apply Forall_app. split; [exact Hall |]. constructor; [| constructor].
      apply Hup. exact Hne.
    + intros Hfresh.
      apply (idsFresh_append now st _ _ Hfresh Hl Hc). apply Hid.
Qed.

(** X28.  A GeoJSON upload appends at most three layers (points, polygons,
    lines, in this order) and changes nothing else in the store.  Every
    layer it appends is marked uploaded, is visible, is filed under
    "uploaded" and has at least one item, and the items of the polygon and
    line layers carry a ring or a path; ids stay unique.  When the handler alerts (content that
    does not parse, [features] that is not an array, a feature without
    geometry, a polygon without ring) the state is left as it was. *)
Theorem handleGeoJSONUpload_effect (t1 t2 t3 : nat) (st : AppState R)
    (parsed : Parsed) :
  exists added,
    layers (fst (handleGeoJSONUpload t1 t2 t3 st parsed)) = layers st ++ added /\
    List.length added <= 3 /\
    Forall uploadedLayer added /\
    (snd (handleGeoJSONUpload t1 t2 t3 st parsed) <> None ->
     fst (handleGeoJSONUpload t1 t2 t3 st parsed) = st) /\
    (idsFresh st -> idsFresh (fst (handleGeoJSONUpload t1 t2 t3 st parsed))).
Proof.
  assert (Hnothing : exists added : list (Layer R),
             layers st = layers st ++ added /\ List.length added <= 3 /\
             Forall uploadedLayer added /\
             (Some "x"%string <> None -> st = st) /\ (idsFresh st -> idsFresh st)).
  { exists []. split; [rewrite app_nil_r; reflexivity |].
    split; [cbn; lia |]. split; [constructor |]. split; auto. }
  unfold handleGeoJSONUpload.
  destruct parsed as [| [features |]];
    try solve [destruct Hnothing as (added & H1 & H2 & H3 & _ & H5);
               exists added; cbn [fst snd];
               split; [exact H1 |]; split; [exact H2 |]; split; [exact H3 |];
               split; [reflexivity | exact H5]].
  destruct (forEach collect features (mkBatches [] [] [])) as [b |] eqn:Hcollect;
    [| destruct Hnothing as (added & H1 & H2 & H3 & _ & H5);
       exists added; cbn [fst snd];
       split; [exact H1 |]; split; [exact H2 |]; split; [exact H3 |];
       split; [reflexivity | exact H5]].
  cbn [fst snd].
  assert (Hsorted : sortedBatches b).
  { apply (collect_sorted features (mkBatches [] [] []) b); [| exact Hcollect].
    repeat split; reflexivity. }
  destruct Hsorted as (Hg & Hl).
  set (count := List.length (layers st)).
  set (st1 := addBatch pointsLayer t1 count (points b) st).
  set (st2 := addBatch polygonsLayer t2 count (polygons b) st1).
  destruct (addBatch_step pointsLayer t1 count (points b) st [] (layers st))
    as (a1 & Hl1 & Hn1 & Hu1 & Hf1).
  { reflexivity. }
  { intros Hne. unfold uploadedLayer. cbn.
    repeat (split; [try reflexivity; try assumption |]).
    intros Hty; first [assumption | contradiction]. }
  { rewrite app_nil_r. reflexivity. }
  { constructor. }
  fold st1 in Hl1, Hf1.
  destruct (addBatch_step polygonsLayer t2 count (polygons b) st1 a1 (layers st))
    as (a2 & Hl2 & Hn2 & Hu2 & Hf2).
  { reflexivity. }
  { intros Hne. unfold uploadedLayer. cbn.
    repeat (split; [try reflexivity; try assumption |]).
    intros Hty; first [assumption | contradiction]. }
  { exact Hl1. }
  { exact Hu1. }
  fold st2 in Hl2, Hf2.
  destruct (addBatch_step linesLayer t3 count (lines b) st2 a2 (layers st))
    as (a3 & Hl3 & Hn3 & Hu3 & Hf3).
  { reflexivity. }
  { intros Hne. unfold uploadedLayer. cbn.
    repeat (split; [try reflexivity; try assumption |]).
    intros Hty; first [assumption | contradiction]. }
  { exact Hl2. }
  { exact Hu2. }
  exists a3. split; [exact Hl3 |].
  split; [cbn in Hn1; lia |].
  split; [exact Hu3 |].
  split; [intros H; contradiction |].
  intros Hfresh. apply Hf3, Hf2, Hf1, Hfresh.
Qed.

End UploadFacts.

(** ** One layer that cannot be rendered *)

Section RenderFailure.

Import Render.

Variable num : Type.

Lemma mapM_renderLayer (rendered : list (Layer num)) :
  (forallb renderable rendered = true ->
   exists pushed, mapM (@renderLayer num) rendered = Ok pushed) /\
  (forallb renderable rendered = false ->
   mapM (@renderLayer num) rendered = TypeError).
Proof.
  induction rendered as [| l rest [IHok IHfail]]; cbn [forallb mapM].
  - split; [intros _; eexists; reflexivity | discriminate].
  - destruct (renderLayer_cases num l) as [Hthrow Hpush].
    destruct (renderable l) eqn:Hr; cbn [andb].
    + destruct (Hpush eq_refl) as (pushed & Hl & _). rewrite Hl. cbn [bind].
      split.
      * intros Hrest. destruct (IHok Hrest) as [more Hmore].
        rewrite Hmore. eexists. reflexivity.
      * intros Hrest. rewrite (IHfail Hrest). reflexivity.
    + rewrite (Hthrow eq_refl). split; [discriminate | reflexivity].
Qed.

(** X29.  The user layers are rendered all or nothing: building the render
    list throws exactly when one of the first 50 visible layers is a
    polygon or area layer without items or whose first item has no ring;
    hidden layers and layers beyond the first 50 visible ones cannot make
    it throw. *)
Theorem userDeckLayers_throws_iff (ls : list (Layer num))
    (deckSoFar : list (DeckLayer num)) :
  userDeckLayers ls deckSoFar = TypeError <->
  forallb renderable (firstn 50 (filter (fun l => visible l) ls)) = false.
Proof.
  unfold userDeckLayers. rewrite forEach_push, renderedLayers_firstn.
  destruct (mapM_renderLayer (firstn 50 (filter (fun l => visible l) ls)))
    as [Hok Hfail].
  destruct (forallb renderable (firstn 50 (filter (fun l => visible l) ls))).
  - destruct (Hok eq_refl) as [pushed Hpushed]. rewrite Hpushed. cbn.
    split; discriminate.
  - rewrite (Hfail eq_refl). cbn. split; reflexivity.
Qed.

End RenderFailure.

(** ** Bearings along the equator *)

Section Bearings.

Import JSMath Geometry.
Local Open Scope R_scope.

(** X30.  Between two points of the equator less than 180 degrees apart
    [calculateAzimuth] is 90 degrees towards the east and 270 degrees
    towards the west, and from a point to itself it is 0. *)
Theorem calculateAzimuth_equator (A B : Coord R) :
  (snd A = 0 -> snd B = 0 -> 0 < fst B - fst A < 180 ->
   calculateAzimuth A B = 90 /\ calculateAzimuth B A = 270) /\
  calculateAzimuth A A = 0.
Proof.
  pose proof PI_RGT_0 as Hpi. split.
  - intros HA HB [Hlo Hhi].
    set (d := (fst B - fst A) * PI / 180).
    assert (Hd : 0 < d < PI).
    { unfold d. split.
      - assert (0 < (fst B - fst A) * (PI / 180)) by (apply Rmult_lt_0_compat; lra).
        lra.
      - assert ((fst B - fst A) * (PI / 180) < 180 * (PI / 180))
          by (apply Rmult_lt_compat_r; lra).
        lra. }
    assert (Hsin : 0 < sin d) by (apply sin_gt_0; lra).
    unfold calculateAzimuth, Math_sin, Math_cos, Math_PI.
    rewrite HA, HB.
    replace (0 * PI / 180) with 0 by field.
    rewrite sin_0, cos_0.
    replace ((fst A - fst B) * PI / 180) with (- d) by (unfold d; field).
    fold d. rewrite sin_neg, cos_neg.
    replace (1 * 0 - 0 * 1 * cos d) with 0 by ring.
    rewrite !Rmult_1_r.
    rewrite Math_atan2_north by exact Hsin.
    rewrite Math_atan2_south by lra.
    replace (PI / 2 * 180 / PI) with 90 by (field; lra).
    replace (- PI / 2 * 180 / PI) with (-90) by (field; lra).
    destruct (Rlt_dec 90 0), (Rlt_dec (-90) 0); split; lra.
  - unfold calculateAzimuth, Math_sin, Math_cos, Math_PI.
    replace ((fst A - fst A) * PI / 180) with 0 by field.
    rewrite sin_0, cos_0.
    set (p := snd A * PI / 180).
    replace (0 * cos p) with 0 by ring.
    replace (cos p * sin p - sin p * cos p * 1) with 0 by ring.
    unfold Math_atan2.
    destruct (Rlt_dec 0 0) as [H0 | _]; [lra |].
    replace (0 * 180 / PI) with 0 by (field; lra).
    destruct (Rlt_dec 0 0); [lra | reflexivity].
Qed.

Lemma calculateAzimuth_equator_witness :
  calculateAzimuth (10, 0) (40, 0) = 90 /\ calculateAzimuth (40, 0) (10, 0) = 270.
Proof.
  apply (proj1 (calculateAzimuth_equator (10, 0) (40, 0)));
    cbn [fst snd]; try reflexivity; lra.
Defined.

End Bearings.
